(** * Study Plan Store of the StudyAI page (nextjs-app/app/page.tsx)

    A shallow embedding of the Study Planner part of the [LearnAI]
    component: the plan held in React state, the form fields, the
    error banner, the browser's local storage, and the services of the
    platform that the effects and the handlers call.  The standalone
    copy of the planner (nextjs-app/components/StudyPlanner.tsx) and
    the other tabs of the page (flashcards, quiz, study buddy) follow,
    each in a module of its own.

    Conventions.
    - An ECMAScript string is a sequence of 16-bit code units; it is
      modelled as a list of [N].
    - [new Date().toISOString()], [uuidv4()], [new Date(s)] and
      [Date.prototype.toISOString] are services of the platform.  They
      are variables of the section [Planner]; the store counts how many
      times the first two have been consulted.
    - Events are handled one at a time: a handler runs against the
      state of the latest render, so the [studyPlan] captured by its
      closure is the plan in the store. *)

From Stdlib Require Import String Ascii Bool Arith NArith ZArith Lia
  SpecFloat Permutation List.
Import ListNotations.

Set Implicit Arguments.
Set Warnings "-register-all".


(* ===================================================================== *)
(** ** ECMAScript strings *)
(* ===================================================================== *)

Definition codeunit := N.
Definition jsstring := list codeunit.

(** A string literal of the source. *)
Definition js (s : string) : jsstring :=
  map N_of_ascii (list_ascii_of_string s).

Fixpoint str_eqb (a b : jsstring) : bool :=
  match a, b with
  | [], [] => true
  | x :: a', y :: b' => N.eqb x y && str_eqb a' b'
  | _, _ => false
  end.

(** WhiteSpace and LineTerminator code points of ECMA-262, the ones
    [String.prototype.trim] strips. *)
Definition isWhiteSpace (c : codeunit) : bool :=
  existsb (N.eqb c)
    [9; 10; 11; 12; 13; 32; 160; 5760;
     8192; 8193; 8194; 8195; 8196; 8197; 8198; 8199; 8200; 8201; 8202;
     8232; 8233; 8239; 8287; 12288; 65279]%N.

Fixpoint trimStart (s : jsstring) : jsstring :=
  match s with
  | [] => []
  | c :: r => if isWhiteSpace c then trimStart r else s
  end.

Definition trimEnd (s : jsstring) : jsstring := rev (trimStart (rev s)).

Definition trim (s : jsstring) : jsstring := trimEnd (trimStart s).

(** Truthiness of a string: the empty string is the only falsy one. *)
Definition truthy (s : jsstring) : bool :=
  match s with [] => false | _ :: _ => true end.

(* ===================================================================== *)
(** ** Data model: the interfaces [Goal] and [StudyPlan] *)
(* ===================================================================== *)

Record Goal := mkGoal {
  id : jsstring;
  description : jsstring;
  targetDate : option jsstring;      (* string | null *)
  completed : bool
}.

Record StudyPlan := mkStudyPlan {
  userId : jsstring;
  goals : list Goal;
  subjects : list jsstring;
  lastUpdated : jsstring
}.

(** The constants of the component. *)
Module Fixed.
Definition userId : jsstring := js "localUser123".
Definition localStorageKey : jsstring := js "studyPlan_" ++ userId.
End Fixed.

(** [{ userId: userId, goals: [], subjects: [], lastUpdated: t }], the
    plan the load effect and the handlers fall back to. *)
Definition defaultPlan (t : jsstring) : StudyPlan :=
  {| userId := Fixed.userId; goals := []; subjects := []; lastUpdated := t |}.

(** [{ ...goal, completed: !goal.completed }] *)
Definition flip (g : Goal) : Goal :=
  {| id := id g; description := description g;
     targetDate := targetDate g; completed := negb (completed g) |}.

(** [{ ...currentPlan, goals: gs, lastUpdated: t }] *)
Definition with_goals (p : StudyPlan) (gs : list Goal) (t : jsstring) : StudyPlan :=
  {| userId := userId p; goals := gs; subjects := subjects p; lastUpdated := t |}.

(** [{ ...currentPlan, subjects: ss, lastUpdated: t }] *)
Definition with_subjects (p : StudyPlan) (ss : list jsstring) (t : jsstring) : StudyPlan :=
  {| userId := userId p; goals := goals p; subjects := ss; lastUpdated := t |}.

(** [Array.from(new Set(xs))]: a Set keeps its members in insertion
    order, and adding a member it already has changes nothing. *)
Definition Set_add (s : list jsstring) (x : jsstring) : list jsstring :=
  if existsb (str_eqb x) s then s else s ++ [x].

Definition new_Set (xs : list jsstring) : list jsstring :=
  fold_left Set_add xs [].

Definition Array_from (s : list jsstring) : list jsstring := s.

(* ===================================================================== *)
(** ** The store: React state, browser storage, platform counters *)
(* ===================================================================== *)

(** The entry of [localStorage] under [Fixed.localStorageKey].  Reading
    can be refused (storage disabled) and writing can be refused (quota
    exceeded); a refused write leaves the entry as it was. *)
Record Storage := mkStorage {
  item : option jsstring;
  readable : bool;
  writable : bool
}.

Record World := mkWorld {
  studyPlan : option StudyPlan;             (* useState<StudyPlan | null>(null) *)
  studyPlan_ref : nat;                      (* identity of the object held in studyPlan *)
  newGoalDescription : jsstring;
  newGoalTargetDate : jsstring;
  newSubject : jsstring;
  loading : bool;
  studyPlannerError : option jsstring;
  localStorage : Storage;
  uuid_calls : nat;                         (* calls of uuidv4() so far *)
  clock_reads : nat                         (* evaluations of new Date() so far *)
}.

Definition initial (st : Storage) : World :=
  {| studyPlan := None; studyPlan_ref := 0;
     newGoalDescription := []; newGoalTargetDate := []; newSubject := [];
     loading := false; studyPlannerError := None;
     localStorage := st; uuid_calls := 0; clock_reads := 0 |}.

Inductive Exn := RangeError | SyntaxError | SecurityError | QuotaExceededError.

Inductive Outcome (A : Type) :=
| Ok (a : A)
| Throw (e : Exn).
Arguments Throw {A} e.

(** Code that reads and writes the store and may throw. *)
Definition Eff (A : Type) := World -> Outcome A * World.

Definition ret {A} (a : A) : Eff A := fun w => (Ok a, w).

Definition bind {A B} (c : Eff A) (k : A -> Eff B) : Eff B :=
  fun w => match c w with
           | (Ok a, w') => k a w'
           | (Throw e, w') => (Throw e, w')
           end.

Definition throw {A} (e : Exn) : Eff A := fun w => (Throw e, w).

Declare Scope eff_scope.
Delimit Scope eff_scope with eff.
Notation "x <- c ;; k" := (bind c (fun x => k))
  (at level 61, c at next level, right associativity) : eff_scope.
Notation "c ;; k" := (bind c (fun _ => k))
  (at level 61, right associativity) : eff_scope.
Local Open Scope eff_scope.

(** [try { body } catch (e) { handler } finally { fin }], run to the end. *)
Definition try_catch_finally (body : Eff unit) (handler : Exn -> World -> World)
    (fin : World -> World) : World -> World :=
  fun w => match body w with
           | (Ok _, w') => fin w'
           | (Throw e, w') => fin (handler e w')
           end.

Definition try_catch (body : Eff unit) (handler : Exn -> World -> World)
    : World -> World :=
  try_catch_finally body handler (fun w => w).

(** The state setters. *)
Definition setLoading (b : bool) : World -> World := fun w =>
  {| studyPlan := studyPlan w; studyPlan_ref := studyPlan_ref w;
     newGoalDescription := newGoalDescription w;
     newGoalTargetDate := newGoalTargetDate w; newSubject := newSubject w;
     loading := b; studyPlannerError := studyPlannerError w;
     localStorage := localStorage w; uuid_calls := uuid_calls w;
     clock_reads := clock_reads w |}.

Definition setStudyPlannerError (e : option jsstring) : World -> World := fun w =>
  {| studyPlan := studyPlan w; studyPlan_ref := studyPlan_ref w;
     newGoalDescription := newGoalDescription w;
     newGoalTargetDate := newGoalTargetDate w; newSubject := newSubject w;
     loading := loading w; studyPlannerError := e;
     localStorage := localStorage w; uuid_calls := uuid_calls w;
     clock_reads := clock_reads w |}.

Definition setNewGoalDescription (s : jsstring) : World -> World := fun w =>
  {| studyPlan := studyPlan w; studyPlan_ref := studyPlan_ref w;
     newGoalDescription := s;
     newGoalTargetDate := newGoalTargetDate w; newSubject := newSubject w;
     loading := loading w; studyPlannerError := studyPlannerError w;
     localStorage := localStorage w; uuid_calls := uuid_calls w;
     clock_reads := clock_reads w |}.

Definition setNewGoalTargetDate (s : jsstring) : World -> World := fun w =>
  {| studyPlan := studyPlan w; studyPlan_ref := studyPlan_ref w;
     newGoalDescription := newGoalDescription w;
     newGoalTargetDate := s; newSubject := newSubject w;
     loading := loading w; studyPlannerError := studyPlannerError w;
     localStorage := localStorage w; uuid_calls := uuid_calls w;
     clock_reads := clock_reads w |}.

Definition setNewSubject (s : jsstring) : World -> World := fun w =>
  {| studyPlan := studyPlan w; studyPlan_ref := studyPlan_ref w;
     newGoalDescription := newGoalDescription w;
     newGoalTargetDate := newGoalTargetDate w; newSubject := s;
     loading := loading w; studyPlannerError := studyPlannerError w;
     localStorage := localStorage w; uuid_calls := uuid_calls w;
     clock_reads := clock_reads w |}.

(** Storing a plan object in [studyPlan]; every object the handlers
    store is a new one, so the identity changes. *)
Definition store_plan (p : StudyPlan) : World -> World := fun w =>
  {| studyPlan := Some p; studyPlan_ref := S (studyPlan_ref w);
     newGoalDescription := newGoalDescription w;
     newGoalTargetDate := newGoalTargetDate w; newSubject := newSubject w;
     loading := loading w; studyPlannerError := studyPlannerError w;
     localStorage := localStorage w; uuid_calls := uuid_calls w;
     clock_reads := clock_reads w |}.

Definition set_localStorage (st : Storage) : World -> World := fun w =>
  {| studyPlan := studyPlan w; studyPlan_ref := studyPlan_ref w;
     newGoalDescription := newGoalDescription w;
     newGoalTargetDate := newGoalTargetDate w; newSubject := newSubject w;
     loading := loading w; studyPlannerError := studyPlannerError w;
     localStorage := st; uuid_calls := uuid_calls w;
     clock_reads := clock_reads w |}.

Definition lift (f : World -> World) : Eff unit := fun w => (Ok tt, f w).

(* ===================================================================== *)
(** ** The persisted text form: [JSON.stringify] and [JSON.parse]

    The two built-ins are modelled after ECMA-262 (sections
    JSON.stringify, QuoteJSONString and the JSON grammar of JSON.parse),
    for the values a plan is made of.  A number keeps its lexeme, so no
    floating point enters the model. *)
(* ===================================================================== *)

Inductive json :=
| JNull
| JBool (b : bool)
| JNumber (lexeme : jsstring)
| JString (s : jsstring)
| JArray (elems : list json)
| JObject (members : list (jsstring * json)).

Inductive token :=
| TLBrace | TRBrace | TLBracket | TRBracket | TColon | TComma
| TString (s : jsstring)
| TNumber (lexeme : jsstring)
| TTrue | TFalse | TNull.

(** *** Printing *)

Definition hexdigit (n : N) : codeunit :=
  (if n <? 10 then 48 + n else 87 + n)%N.

(** [\uXXXX] with lower-case digits. *)
Definition UnicodeEscape (c : codeunit) : jsstring :=
  [92; 117; hexdigit ((c / 4096) mod 16); hexdigit ((c / 256) mod 16);
   hexdigit ((c / 16) mod 16); hexdigit (c mod 16)]%N.

Definition isLeadingSurrogate (c : codeunit) : bool :=
  ((55296 <=? c) && (c <=? 56319))%N.

Definition isTrailingSurrogate (c : codeunit) : bool :=
  ((56320 <=? c) && (c <=? 57343))%N.

(** One code point that is a single code unit. *)
Definition quote_unit (c : codeunit) : jsstring :=
  (if c =? 8 then [92; 98]
   else if c =? 9 then [92; 116]
   else if c =? 10 then [92; 110]
   else if c =? 12 then [92; 102]
   else if c =? 13 then [92; 114]
   else if c =? 34 then [92; 34]
   else if c =? 92 then [92; 92]
   else if (c <? 32) || isLeadingSurrogate c || isTrailingSurrogate c
        then UnicodeEscape c
   else [c])%N.

(** The string is read by code points: a leading surrogate followed by
    a trailing one is one code point and is copied; a surrogate on its
    own is escaped. *)
Fixpoint quote_units (s : jsstring) : jsstring :=
  match s with
  | [] => []
  | c :: r =>
      match r with
      | d :: r' =>
          if isLeadingSurrogate c && isTrailingSurrogate d
          then c :: d :: quote_units r'
          else quote_unit c ++ quote_units r
      | [] => quote_unit c
      end
  end.

Definition QuoteJSONString (s : jsstring) : jsstring :=
  (34 :: quote_units s ++ [34])%N.

Definition print_token (t : token) : jsstring :=
  match t with
  | TLBrace => js "{" | TRBrace => js "}"
  | TLBracket => js "[" | TRBracket => js "]"
  | TColon => js ":" | TComma => js ","
  | TString s => QuoteJSONString s
  | TNumber l => l
  | TTrue => js "true" | TFalse => js "false" | TNull => js "null"
  end.

Fixpoint tokens (v : json) : list token :=
  match v with
  | JNull => [TNull]
  | JBool true => [TTrue]
  | JBool false => [TFalse]
  | JNumber l => [TNumber l]
  | JString s => [TString s]
  | JArray [] => [TLBracket; TRBracket]
  | JArray vs =>
      TLBracket ::
      (fix elems (l : list json) : list token :=
         match l with
         | [] => [TRBracket]
         | x :: l' =>
             tokens x ++ match l' with
                         | [] => [TRBracket]
                         | _ :: _ => TComma :: elems l'
                         end
         end) vs
  | JObject [] => [TLBrace; TRBrace]
  | JObject ms =>
      TLBrace ::
      (fix membs (l : list (jsstring * json)) : list token :=
         match l with
         | [] => [TRBrace]
         | (k, x) :: l' =>
             TString k :: TColon :: tokens x ++
               match l' with
               | [] => [TRBrace]
               | _ :: _ => TComma :: membs l'
               end
         end) ms
  end.

(** [JSON.stringify(value)] with no indentation. *)
Definition stringify (v : json) : jsstring :=
  concat (map print_token (tokens v)).

(** *** Lexing: a machine that reads one code unit at a time *)

Inductive numstate :=
| NMinus        (* after '-': a digit is due *)
| NZero         (* after a leading 0 *)
| NInt          (* in the digits of the integer part *)
| NDot          (* after '.': a digit is due *)
| NFrac         (* in the digits of the fraction *)
| NExp          (* after 'e' or 'E': a sign or a digit is due *)
| NExpSign      (* after the sign of the exponent: a digit is due *)
| NExpDigits.   (* in the digits of the exponent *)

Inductive lexstate :=
| LDefault
| LString (acc : jsstring)
| LEscape (acc : jsstring)
| LUnicode (acc : jsstring) (digits : list N)
| LWord (expect : jsstring) (t : token)
| LNumber (st : numstate) (lexeme : jsstring)
| LError.

Definition isDigit (c : codeunit) : bool := ((48 <=? c) && (c <=? 57))%N.

Definition hexval (c : codeunit) : option N :=
  (if (48 <=? c) && (c <=? 57) then Some (c - 48)
   else if (97 <=? c) && (c <=? 102) then Some (c - 87)
   else if (65 <=? c) && (c <=? 70) then Some (c - 55)
   else None)%N.

(** The white space of the JSON grammar: tab, line feed, carriage
    return, space. *)
Definition isJSONWhiteSpace (c : codeunit) : bool :=
  ((c =? 9) || (c =? 10) || (c =? 13) || (c =? 32))%N.

Definition numFinal (st : numstate) : bool :=
  match st with
  | NZero | NInt | NFrac | NExpDigits => true
  | _ => false
  end.

(** The next state of a number on [c]; [None] when [c] does not
    continue the number. *)
Definition numNext (st : numstate) (c : codeunit) : option numstate :=
  (match st with
   | NMinus => if c =? 48 then Some NZero else if isDigit c then Some NInt else None
   | NZero => if c =? 46 then Some NDot
              else if (c =? 101) || (c =? 69) then Some NExp else None
   | NInt => if isDigit c then Some NInt
             else if c =? 46 then Some NDot
             else if (c =? 101) || (c =? 69) then Some NExp else None
   | NDot => if isDigit c then Some NFrac else None
   | NFrac => if isDigit c then Some NFrac
              else if (c =? 101) || (c =? 69) then Some NExp else None
   | NExp => if (c =? 43) || (c =? 45) then Some NExpSign
             else if isDigit c then Some NExpDigits else None
   | NExpSign => if isDigit c then Some NExpDigits else None
   | NExpDigits => if isDigit c then Some NExpDigits else None
   end)%N.

(** A code unit met outside of any token. *)
Definition lex_start (ts : list token) (c : codeunit) : lexstate * list token :=
  (if isJSONWhiteSpace c then (LDefault, ts)
   else if c =? 123 then (LDefault, ts ++ [TLBrace])
   else if c =? 125 then (LDefault, ts ++ [TRBrace])
   else if c =? 91 then (LDefault, ts ++ [TLBracket])
   else if c =? 93 then (LDefault, ts ++ [TRBracket])
   else if c =? 58 then (LDefault, ts ++ [TColon])
   else if c =? 44 then (LDefault, ts ++ [TComma])
   else if c =? 34 then (LString [], ts)
   else if c =? 116 then (LWord (js "rue") TTrue, ts)
   else if c =? 102 then (LWord (js "alse") TFalse, ts)
   else if c =? 110 then (LWord (js "ull") TNull, ts)
   else if c =? 45 then (LNumber NMinus [c], ts)
   else if c =? 48 then (LNumber NZero [c], ts)
   else if isDigit c then (LNumber NInt [c], ts)
   else (LError, ts))%N.

Definition lex_step (st : lexstate * list token) (c : codeunit)
    : lexstate * list token :=
  let (s, ts) := st in
  (match s with
   | LDefault => lex_start ts c
   | LString acc =>
       if c =? 34 then (LDefault, ts ++ [TString acc])
       else if c =? 92 then (LEscape acc, ts)
       else if c <? 32 then (LError, ts)
       else (LString (acc ++ [c]), ts)
   | LEscape acc =>
       if c =? 34 then (LString (acc ++ [34]), ts)
       else if c =? 92 then (LString (acc ++ [92]), ts)
       else if c =? 47 then (LString (acc ++ [47]), ts)
       else if c =? 98 then (LString (acc ++ [8]), ts)
       else if c =? 102 then (LString (acc ++ [12]), ts)
       else if c =? 110 then (LString (acc ++ [10]), ts)
       else if c =? 114 then (LString (acc ++ [13]), ts)
       else if c =? 116 then (LString (acc ++ [9]), ts)
       else if c =? 117 then (LUnicode acc [], ts)
       else (LError, ts)
   | LUnicode acc ds =>
       match hexval c with
       | None => (LError, ts)
       | Some d =>
           match ds with
           | [d3; d2; d1] =>
               (LString (acc ++ [((d3 * 16 + d2) * 16 + d1) * 16 + d]), ts)
           | _ => (LUnicode acc (ds ++ [d]), ts)
           end
       end
   | LWord expect t =>
       match expect with
       | [] => (LError, ts)
       | [e] => if c =? e then (LDefault, ts ++ [t]) else (LError, ts)
       | e :: rest => if c =? e then (LWord rest t, ts) else (LError, ts)
       end
   | LNumber n lexeme =>
       match numNext n c with
       | Some n' => (LNumber n' (lexeme ++ [c]), ts)
       | None =>
           if numFinal n
           then match lex_start (ts ++ [TNumber lexeme]) c with
                | (LNumber _ _, _) => (LError, ts)
                | r => r
                end
           else (LError, ts)
       end
   | LError => (LError, ts)
   end)%N.

Definition lex_end (st : lexstate * list token) : option (list token) :=
  match st with
  | (LDefault, ts) => Some ts
  | (LNumber n lexeme, ts) =>
      if numFinal n then Some (ts ++ [TNumber lexeme]) else None
  | _ => None
  end.

Definition lex (text : jsstring) : option (list token) :=
  lex_end (fold_left lex_step text (LDefault, [])).

(** *** Parsing the tokens *)

Fixpoint parse_value (fuel : nat) (ts : list token) : option (json * list token) :=
  match fuel with
  | 0 => None
  | S fuel' =>
      match ts with
      | TNull :: r => Some (JNull, r)
      | TTrue :: r => Some (JBool true, r)
      | TFalse :: r => Some (JBool false, r)
      | TString s :: r => Some (JString s, r)
      | TNumber l :: r => Some (JNumber l, r)
      | TLBracket :: TRBracket :: r => Some (JArray [], r)
      | TLBracket :: r =>
          match parse_elements fuel' r with
          | Some (vs, r') => Some (JArray vs, r')
          | None => None
          end
      | TLBrace :: TRBrace :: r => Some (JObject [], r)
      | TLBrace :: r =>
          match parse_members fuel' r with
          | Some (ms, r') => Some (JObject ms, r')
          | None => None
          end
      | _ => None
      end
  end
with parse_elements (fuel : nat) (ts : list token) : option (list json * list token) :=
  match fuel with
  | 0 => None
  | S fuel' =>
      match parse_value fuel' ts with
      | Some (v, TComma :: r) =>
          match parse_elements fuel' r with
          | Some (vs, r') => Some (v :: vs, r')
          | None => None
          end
      | Some (v, TRBracket :: r) => Some ([v], r)
      | _ => None
      end
  end
with parse_members (fuel : nat) (ts : list token)
    : option (list (jsstring * json) * list token) :=
  match fuel with
  | 0 => None
  | S fuel' =>
      match ts with
      | TString k :: TColon :: r =>
          match parse_value fuel' r with
          | Some (v, TComma :: r1) =>
              match parse_members fuel' r1 with
              | Some (ms, r') => Some ((k, v) :: ms, r')
              | None => None
              end
          | Some (v, TRBrace :: r1) => Some ([(k, v)], r1)
          | _ => None
          end
      | _ => None
      end
  end.

(** [JSON.parse(text)]; [None] stands for the SyntaxError it throws.
    Every step of the parser consumes a token, so the number of tokens
    is fuel enough. *)
Definition JSON_parse (text : jsstring) : option json :=
  match lex text with
  | None => None
  | Some ts =>
      match parse_value (S (length ts)) ts with
      | Some (v, []) => Some v
      | _ => None
      end
  end.

(** *** Auxiliary notions for reasoning about the text form *)

(** The tokens of the elements of an array, up to the closing bracket,
    and of the members of an object, up to the closing brace. *)
Fixpoint elems_tokens (l : list json) : list token :=
  match l with
  | [] => [TRBracket]
  | x :: l' =>
      tokens x ++ match l' with
                  | [] => [TRBracket]
                  | _ :: _ => TComma :: elems_tokens l'
                  end
  end.

Fixpoint membs_tokens (l : list (jsstring * json)) : list token :=
  match l with
  | [] => [TRBrace]
  | (k, x) :: l' =>
      TString k :: TColon :: tokens x ++
        match l' with
        | [] => [TRBrace]
        | _ :: _ => TComma :: membs_tokens l'
        end
  end.

Definition not_number (t : token) : bool :=
  match t with TNumber _ => false | _ => true end.

Fixpoint number_free (v : json) : bool :=
  match v with
  | JNumber _ => false
  | JArray vs => forallb number_free vs
  | JObject ms => forallb (fun m => number_free (snd m)) ms
  | _ => true
  end.

(** The first token of a value opens it: it is neither a closing
    bracket nor a closing brace. *)
Definition opens (t : token) : bool :=
  match t with
  | TRBracket | TRBrace | TComma | TColon => false
  | _ => true
  end.

(** *** A plan as a JSON value, and back *)

Definition Goal_json (g : Goal) : json :=
  JObject [ (js "id", JString (id g));
            (js "description", JString (description g));
            (js "targetDate",
               match targetDate g with Some d => JString d | None => JNull end);
            (js "completed", JBool (completed g)) ].

Definition StudyPlan_json (p : StudyPlan) : json :=
  JObject [ (js "userId", JString (userId p));
            (js "goals", JArray (map Goal_json (goals p)));
            (js "subjects", JArray (map JString (subjects p)));
            (js "lastUpdated", JString (lastUpdated p)) ].

(** [JSON.stringify(studyPlan)] *)
Definition JSON_stringify (p : StudyPlan) : jsstring :=
  stringify (StudyPlan_json p).

(** Property lookup in a parsed object: of two members with the same
    key the later one is the property's value. *)
Fixpoint get (k : jsstring) (ms : list (jsstring * json)) : option json :=
  match ms with
  | [] => None
  | (k', v) :: r =>
      match get k r with
      | Some v' => Some v'
      | None => if str_eqb k k' then Some v else None
      end
  end.

Fixpoint all_some {A} (l : list (option A)) : option (list A) :=
  match l with
  | [] => Some []
  | Some a :: r => option_map (cons a) (all_some r)
  | None :: _ => None
  end.

Definition as_string (j : json) : option jsstring :=
  match j with JString s => Some s | _ => None end.

(** The parsed value read at the type [Goal]. *)
Definition as_Goal (j : json) : option Goal :=
  match j with
  | JObject ms =>
      match get (js "id") ms, get (js "description") ms,
            get (js "targetDate") ms, get (js "completed") ms with
      | Some (JString i), Some (JString d), Some (JString t), Some (JBool c) =>
          Some (mkGoal i d (Some t) c)
      | Some (JString i), Some (JString d), Some JNull, Some (JBool c) =>
          Some (mkGoal i d None c)
      | _, _, _, _ => None
      end
  | _ => None
  end.

(** The parsed value read at the type [StudyPlan | null] of the state
    it is stored in; [None] when it is a value of neither.  The record
    keeps the four properties of the interface: other properties of
    the parsed object, and the order its properties came in, are not
    part of it, and a value of another shape, which line 82 would put
    into the state as it is, has no reading here. *)
Definition as_StudyPlan (j : json) : option (option StudyPlan) :=
  match j with
  | JNull => Some None
  | JObject ms =>
      match get (js "userId") ms, get (js "goals") ms,
            get (js "subjects") ms, get (js "lastUpdated") ms with
      | Some (JString u), Some (JArray gs), Some (JArray ss), Some (JString t) =>
          match all_some (map as_Goal gs), all_some (map as_string ss) with
          | Some gs', Some ss' => Some (Some (mkStudyPlan u gs' ss' t))
          | _, _ => None
          end
      | _, _, _, _ => None
      end
  | _ => None
  end.

(* ===================================================================== *)
(** ** Local storage *)
(* ===================================================================== *)

(** [localStorage.getItem(localStorageKey)] *)
Definition getItem : Eff (option jsstring) := fun w =>
  if readable (localStorage w)
  then (Ok (item (localStorage w)), w)
  else (Throw SecurityError, w).

(** [localStorage.setItem(localStorageKey, value)] *)
Definition setItem (value : jsstring) : Eff unit := fun w =>
  if writable (localStorage w)
  then (Ok tt,
        set_localStorage
          {| item := Some value;
             readable := readable (localStorage w);
             writable := writable (localStorage w) |} w)
  else (Throw QuotaExceededError, w).

(** The save effect (lines 100-109), run after a render in which the
    object held in [studyPlan] has changed. *)
Definition saveEffect : World -> World := fun w =>
  match studyPlan w with
  | Some p =>
      try_catch
        (setItem (JSON_stringify p))
        (fun _ => setStudyPlannerError
                    (Some (js "Failed to save study plan to local storage.")))
        w
  | None => w
  end.

(** What React does once a handler has returned: the component renders
    again and the effects whose dependencies changed are run. *)
Definition commit (before : World) (after : World) : World :=
  if Nat.eqb (studyPlan_ref after) (studyPlan_ref before)
  then after
  else saveEffect after.

Definition bump_uuid : World -> World := fun w =>
  {| studyPlan := studyPlan w; studyPlan_ref := studyPlan_ref w;
     newGoalDescription := newGoalDescription w;
     newGoalTargetDate := newGoalTargetDate w; newSubject := newSubject w;
     loading := loading w; studyPlannerError := studyPlannerError w;
     localStorage := localStorage w; uuid_calls := S (uuid_calls w);
     clock_reads := clock_reads w |}.

Definition bump_clock : World -> World := fun w =>
  {| studyPlan := studyPlan w; studyPlan_ref := studyPlan_ref w;
     newGoalDescription := newGoalDescription w;
     newGoalTargetDate := newGoalTargetDate w; newSubject := newSubject w;
     loading := loading w; studyPlannerError := studyPlannerError w;
     localStorage := localStorage w; uuid_calls := uuid_calls w;
     clock_reads := S (clock_reads w) |}.

(** [JSON.parse(storedPlan)] at the type of the state it is handed to:
    [Some (Throw SyntaxError)] when the text is not JSON, [Some (Ok p)]
    when it is a plan or [null], and [None] when it is JSON of another
    shape: the source adopts such a value unchecked, and the states of
    this model, which are typed, have no counterpart for it. *)
Definition JSON_parse_StudyPlan (text : jsstring)
    : option (Outcome (option StudyPlan)) :=
  match JSON_parse text with
  | None => Some (Throw SyntaxError)
  | Some j => option_map (@Ok _) (as_StudyPlan j)
  end.

(** [setStudyPlan(value)] with a value: storing [null] over [null]
    changes nothing. *)
Definition setStudyPlan_value (p : option StudyPlan) : World -> World :=
  match p with
  | Some p' => store_plan p'
  | None => fun w => w
  end.

Section Planner.

(** The platform. *)
Variable uuidv4 : nat -> jsstring.
      (* the identifier returned by the n-th call of uuidv4() *)
Variable clock : nat -> jsstring.
      (* new Date().toISOString() at the n-th reading of the clock *)
Variable Date_parse : jsstring -> option Z.
      (* the time value of new Date(s); None when it is NaN *)
Variable toISOString : Z -> jsstring.
      (* Date.prototype.toISOString on a time value *)

Definition uuid : Eff jsstring := fun w =>
  (Ok (uuidv4 (uuid_calls w)), bump_uuid w).

Definition now : Eff jsstring := fun w =>
  (Ok (clock (clock_reads w)), bump_clock w).

(** [new Date(s).toISOString()]: RangeError on an invalid date. *)
Definition Date_toISOString (s : jsstring) : Eff jsstring :=
  match Date_parse s with
  | Some t => ret (toISOString t)
  | None => throw RangeError
  end.

(** [prevPlan || { userId: userId, goals: [], subjects: [],
    lastUpdated: new Date().toISOString() }] *)
Definition orDefault (prevPlan : option StudyPlan) : Eff StudyPlan :=
  match prevPlan with
  | Some p => ret p
  | None => t <- now ;; ret (defaultPlan t)
  end.

(** [setStudyPlan(updater)] *)
Definition setStudyPlan (updater : option StudyPlan -> Eff StudyPlan)
    : Eff unit :=
  p <- (fun w => updater (studyPlan w) w) ;;
  lift (store_plan p).

(** *** The load effect (lines 78-97) *)

Definition onLoadError (e : Exn) : World -> World :=
  setStudyPlannerError
    (Some (js "Failed to load study plan from local storage.")).

Definition createDefaultPlan : Eff unit :=
  t <- now ;;
  let defaultPlan := defaultPlan t in
  lift (store_plan defaultPlan) ;;
  setItem (JSON_stringify defaultPlan).

Definition loadEffect (w : World) : option World :=
  match getItem w with
  | (Throw e, w1) => Some (onLoadError e w1)
  | (Ok storedPlan, w1) =>
      match storedPlan with
      | Some ((_ :: _) as text) =>
          match JSON_parse_StudyPlan text with
          | Some (Ok p) => Some (setStudyPlan_value p w1)
          | Some (Throw e) => Some (onLoadError e w1)
          | None => None
          end
      | _ => Some (try_catch createDefaultPlan onLoadError w1)
      end
  end.

(** Mounting the component: both effects run on the first render
    (the save effect still sees [studyPlan = null]), then the save
    effect runs again if the load has stored a plan. *)
Definition mount (st : Storage) : option World :=
  match loadEffect (initial st) with
  | Some w => Some (commit (initial st) w)
  | None => None
  end.

(** *** The handlers (lines 112-233) *)

Definition handleAddGoal : World -> World := fun w =>
  if negb (truthy (trim (newGoalDescription w))) then w
  else
    try_catch_finally
      (i <- uuid ;;
       d <- (if truthy (newGoalTargetDate w)
             then (s <- Date_toISOString (newGoalTargetDate w) ;; ret (Some s))
             else ret None) ;;
       let newGoal :=
         {| id := i; description := trim (newGoalDescription w);
            targetDate := d; completed := false |} in
       setStudyPlan (fun prevPlan =>
         currentPlan <- orDefault prevPlan ;;
         t <- now ;;
         ret (with_goals currentPlan (goals currentPlan ++ [newGoal]) t)) ;;
       lift (setNewGoalDescription []) ;;
       lift (setNewGoalTargetDate []))
      (fun _ => setStudyPlannerError (Some (js "Failed to add goal.")))
      (setLoading false)
      (setLoading true w).

Definition handleToggleGoalCompletion (goalId : jsstring) : World -> World :=
  fun w =>
  match studyPlan w with
  | None => w
  | Some plan =>
      try_catch_finally
        (let updatedGoals :=
           map (fun goal => if str_eqb (id goal) goalId then flip goal else goal)
               (goals plan) in
         setStudyPlan (fun prevPlan =>
           currentPlan <- orDefault prevPlan ;;
           t <- now ;;
           ret (with_goals currentPlan updatedGoals t)))
        (fun _ => setStudyPlannerError (Some (js "Failed to update goal.")))
        (setLoading false)
        (setLoading true w)
  end.

Definition handleDeleteGoal (goalId : jsstring) : World -> World :=
  fun w =>
  match studyPlan w with
  | None => w
  | Some plan =>
      try_catch_finally
        (let updatedGoals :=
           filter (fun goal => negb (str_eqb (id goal) goalId)) (goals plan) in
         setStudyPlan (fun prevPlan =>
           currentPlan <- orDefault prevPlan ;;
           t <- now ;;
           ret (with_goals currentPlan updatedGoals t)))
        (fun _ => setStudyPlannerError (Some (js "Failed to delete goal.")))
        (setLoading false)
        (setLoading true w)
  end.

Definition handleAddSubject : World -> World := fun w =>
  if negb (truthy (trim (newSubject w))) then w
  else
    try_catch_finally
      (let updatedSubjects :=
         match studyPlan w with
         | Some plan => subjects plan
         | None => []
         end ++ [trim (newSubject w)] in
       setStudyPlan (fun prevPlan =>
         currentPlan <- orDefault prevPlan ;;
         t <- now ;;
         ret (with_subjects currentPlan
                (Array_from (new_Set updatedSubjects)) t)) ;;
       lift (setNewSubject []))
      (fun _ => setStudyPlannerError (Some (js "Failed to add subject.")))
      (setLoading false)
      (setLoading true w).

Definition handleDeleteSubject (subjectToDelete : jsstring) : World -> World :=
  fun w =>
  match studyPlan w with
  | None => w
  | Some plan =>
      try_catch_finally
        (let updatedSubjects :=
           filter (fun subject => negb (str_eqb subject subjectToDelete))
                  (subjects plan) in
         setStudyPlan (fun prevPlan =>
           currentPlan <- orDefault prevPlan ;;
           t <- now ;;
           ret (with_subjects currentPlan updatedSubjects t)))
        (fun _ => setStudyPlannerError (Some (js "Failed to delete subject.")))
        (setLoading false)
        (setLoading true w)
  end.

(** *** The operations of the store, as the user performs them

    [addGoal] and [addSubject] fill the form fields and submit the
    form; the other three are clicks on a goal or a subject.  Every
    one is followed by the render it causes. *)

Inductive Op :=
| addGoal (description targetDate : jsstring)
| toggleGoal (goalId : jsstring)
| deleteGoal (goalId : jsstring)
| addSubject (name : jsstring)
| deleteSubject (name : jsstring).

Definition handler (o : Op) : World -> World :=
  match o with
  | addGoal d t => fun w =>
      handleAddGoal (setNewGoalTargetDate t (setNewGoalDescription d w))
  | toggleGoal i => handleToggleGoalCompletion i
  | deleteGoal i => handleDeleteGoal i
  | addSubject n => fun w => handleAddSubject (setNewSubject n w)
  | deleteSubject n => handleDeleteSubject n
  end.

Definition step (o : Op) (w : World) : World := commit w (handler o w).

Definition run (ops : list Op) (w : World) : World :=
  fold_left (fun w o => step o w) ops w.

(** *** What the operations are expected to leave behind

    These definitions follow the description of the store, not the
    handlers: they are what the handlers are compared with. *)

Definition is_toggle (i : jsstring) (o : Op) : bool :=
  match o with toggleGoal j => str_eqb j i | _ => false end.

Definition is_delete (i : jsstring) (o : Op) : bool :=
  match o with deleteGoal j => str_eqb j i | _ => false end.

(** Number of [toggleGoal] calls made with the id [i]. *)
Definition toggles (i : jsstring) (ops : list Op) : nat :=
  List.length (filter (is_toggle i) ops).

Definition deleted (i : jsstring) (ops : list Op) : bool :=
  existsb (is_delete i) ops.

(** The stored form of the target date of a submission: [Some None]
    when the field is empty, [Some (Some iso)] when it parses, [None]
    when it does not. *)
Definition stored_date (t : jsstring) : option (option jsstring) :=
  match t with
  | [] => Some None
  | _ :: _ => match Date_parse t with
              | Some z => Some (Some (toISOString z))
              | None => None
              end
  end.

(** The goals added by [ops] and not deleted afterwards, in the order
    of their insertion; [n] counts the identifiers handed out before
    [ops], and [all] is the whole sequence of calls, in which the
    toggles of a goal are counted. *)
Fixpoint added_goals (all : list Op) (n : nat) (ops : list Op) : list Goal :=
  match ops with
  | [] => []
  | addGoal d t :: rest =>
      match trim d with
      | [] => added_goals all n rest
      | _ :: _ =>
          match stored_date t with
          | Some date =>
              (if deleted (uuidv4 n) rest then []
               else [ {| id := uuidv4 n; description := trim d;
                         targetDate := date;
                         completed :=
                           xorb false (Nat.odd (toggles (uuidv4 n) all)) |} ])
              ++ added_goals all (S n) rest
          | None => added_goals all (S n) rest
          end
      end
  | _ :: rest => added_goals all n rest
  end.

(** The goals that were there before [ops] and are not deleted by it. *)
Definition kept_goals (ops : list Op) (gs : list Goal) : list Goal :=
  map (fun g => {| id := id g; description := description g;
                   targetDate := targetDate g;
                   completed :=
                     xorb (completed g) (Nat.odd (toggles (id g) ops)) |})
      (filter (fun g => negb (deleted (id g) ops)) gs).

(** Identifiers are fresh: when [uuidv4] hands one out, no earlier
    [toggleGoal] or [deleteGoal] call has named it.  [seen] lists the
    identifiers named so far. *)
Fixpoint fresh_ids (seen : list jsstring) (n : nat) (ops : list Op) : bool :=
  match ops with
  | [] => true
  | addGoal d t :: rest =>
      match trim d with
      | [] => fresh_ids seen n rest
      | _ :: _ =>
          negb (existsb (str_eqb (uuidv4 n)) seen) && fresh_ids seen (S n) rest
      end
  | toggleGoal i :: rest => fresh_ids (i :: seen) n rest
  | deleteGoal i :: rest => fresh_ids (i :: seen) n rest
  | _ :: rest => fresh_ids seen n rest
  end.

(** *** One operation at a time

    What an operation does to the goals and to the subjects, read off
    the handlers; the facts below relate the two. *)

(** The goal [handleAddGoal] builds from the form fields. *)
Definition newGoal_of (w : World) (date : option jsstring) : Goal :=
  {| id := uuidv4 (uuid_calls w); description := trim (newGoalDescription w);
     targetDate := date; completed := false |}.

(** The effect of one operation on the list of goals. *)
Definition goals_after (o : Op) (n : nat) (gs : list Goal) : list Goal :=
  match o with
  | addGoal d t =>
      match trim d, stored_date t with
      | _ :: _, Some date =>
          gs ++ [ {| id := uuidv4 n; description := trim d;
                     targetDate := date; completed := false |} ]
      | _, _ => gs
      end
  | toggleGoal i =>
      map (fun goal => if str_eqb (id goal) i then flip goal else goal) gs
  | deleteGoal i => filter (fun goal => negb (str_eqb (id goal) i)) gs
  | _ => gs
  end.

End Planner.

(** The identifiers drawn so far, after one operation. *)
Definition uuids_after (o : Op) (n : nat) : nat :=
  match o with
  | addGoal d _ => match trim d with [] => n | _ :: _ => S n end
  | _ => n
  end.

(** The effect of one operation on the list of subjects. *)
Definition subjects_after (o : Op) (ss : list jsstring) : list jsstring :=
  match o with
  | addSubject n =>
      match trim n with
      | [] => ss
      | _ :: _ => Array_from (new_Set (ss ++ [trim n]))
      end
  | deleteSubject n => filter (fun subject => negb (str_eqb subject n)) ss
  | _ => ss
  end.

(** The store after a handler that stored the plan [p'] and read the
    clock [k] times. *)
Definition updated (w : World) (p' : StudyPlan) (k : nat) : World :=
  {| studyPlan := Some p'; studyPlan_ref := S (studyPlan_ref w);
     newGoalDescription := newGoalDescription w;
     newGoalTargetDate := newGoalTargetDate w; newSubject := newSubject w;
     loading := false; studyPlannerError := studyPlannerError w;
     localStorage := localStorage w; uuid_calls := uuid_calls w;
     clock_reads := k + clock_reads w |}.

(** The plan a handler works on when the state holds [prevPlan], and
    the number of clock readings it takes to get it. *)
Definition plan_or_default (clock : nat -> jsstring) (w : World) : StudyPlan :=
  match studyPlan w with
  | Some p => p
  | None => defaultPlan (clock (clock_reads w))
  end.

Definition default_reads (w : World) : nat :=
  match studyPlan w with Some _ => 0 | None => 1 end.

(** The text of the banner after a load that failed. *)
Definition load_error : jsstring :=
  js "Failed to load study plan from local storage.".

(** The store after a load that failed: nothing but the banner is set. *)
Definition load_failed (st : Storage) : World :=
  setStudyPlannerError (Some load_error) (initial st).

(* ===================================================================== *)
(** ** Derived metrics (lines 236-241) *)
(* ===================================================================== *)

Definition currentGoals (w : World) : list Goal :=
  match studyPlan w with
  | Some plan => goals plan
  | None => []
  end.

(** [studyPlan?.subjects || []] *)
Definition currentSubjects (w : World) : list jsstring :=
  match studyPlan w with
  | Some plan => subjects plan
  | None => []
  end.

Definition incompleteGoals (w : World) : list Goal :=
  filter (fun g => negb (completed g)) (currentGoals w).

Definition completedGoals (w : World) : list Goal :=
  filter (fun g => completed g) (currentGoals w).

Definition completedGoalsCount (w : World) : nat := List.length (completedGoals w).

Definition totalGoalsCount (w : World) : nat := List.length (currentGoals w).

(** A number of the source is an IEEE 754 binary64 value; its
    arithmetic is that of [SpecFloat], at the precision and the
    exponent range of binary64. *)
Definition Number := spec_float.

Definition binary64_prec : Z := 53.
Definition binary64_emax : Z := 1024.

(** The number that a [length] is. *)
Definition number (n : nat) : Number :=
  binary_normalize binary64_prec binary64_emax (Z.of_nat n) 0 false.

(** [x / y] and [x * y] *)
Definition Number_div : Number -> Number -> Number :=
  SFdiv binary64_prec binary64_emax.

Definition Number_mul : Number -> Number -> Number :=
  SFmul binary64_prec binary64_emax.

(** The quotient of line 241, before it is scaled to a percentage. *)
Definition completionRatio (w : World) : Number :=
  if 0 <? totalGoalsCount w
  then Number_div (number (completedGoalsCount w)) (number (totalGoalsCount w))
  else number 0.

Definition progressWidth (w : World) : Number :=
  if 0 <? totalGoalsCount w
  then Number_mul
         (Number_div (number (completedGoalsCount w))
                     (number (totalGoalsCount w)))
         (number 100)
  else number 0.

(** The ratio as the specification words it, over a list of goals:
    [completedCount / totalCount] when there are goals, else [0]. *)
Fixpoint completedCount (gs : list Goal) : nat :=
  match gs with
  | [] => 0
  | g :: rest =>
      if completed g then S (completedCount rest) else completedCount rest
  end.

Definition totalCount (gs : list Goal) : nat := List.length gs.

Definition completionRatio_of (gs : list Goal) : Number :=
  match gs with
  | [] => number 0
  | _ :: _ => Number_div (number (completedCount gs)) (number (totalCount gs))
  end.

(** A positive number that is [2 ^ (e + 52)] at most. *)
Definition below (e : Z) (r : Number) : Prop :=
  exists m e', r = S754_finite false m e'
               /\ ((e' < e)%Z \/ (e' = e /\ m = 4503599627370496%positive)).

(** De-duplication that keeps the first occurrence of every string, as
    the description of [addSubject] words it. *)
Fixpoint dedup_first (l : list jsstring) : list jsstring :=
  match l with
  | [] => []
  | x :: r => x :: filter (fun y => negb (str_eqb y x)) (dedup_first r)
  end.

(* ===================================================================== *)
(** ** A platform to run the store on

    One concrete choice for the four services: identifiers numbered in
    the layout of a version-4 UUID, a clock that advances by one
    millisecond per reading, and dates in the date-only form
    [YYYY-MM-DD] of the ECMAScript date-time string format, which is
    what an [<input type="date">] delivers and which is read as UTC. *)
(* ===================================================================== *)

Module Platform.

Local Open Scope Z_scope.

(** The last [k] decimal digits of [n], padded with zeros. *)
Fixpoint dec (k : nat) (n : Z) : jsstring :=
  match k with
  | O => []
  | S k' => dec k' (n / 10) ++ [Z.to_N (48 + n mod 10)]
  end.

Definition uuidv4 (n : nat) : jsstring :=
  js "00000000-0000-4000-8000-" ++ dec 12 (Z.of_nat n).

Definition msPerDay : Z := 86400000.

(** Day number of a civil date, counted from 1970-01-01. *)
Definition days_from_civil (y m d : Z) : Z :=
  let y' := if m <=? 2 then y - 1 else y in
  let era := y' / 400 in
  let yoe := y' - era * 400 in
  let doy := (153 * (if 2 <? m then m - 3 else m + 9) + 2) / 5 + d - 1 in
  let doe := yoe * 365 + yoe / 4 - yoe / 100 + doy in
  era * 146097 + doe - 719468.

(** The civil date of a day number. *)
Definition civil_from_days (z : Z) : Z * Z * Z :=
  let z' := z + 719468 in
  let era := z' / 146097 in
  let doe := z' - era * 146097 in
  let yoe := (doe - doe / 1460 + doe / 36524 - doe / 146096) / 365 in
  let doy := doe - (365 * yoe + yoe / 4 - yoe / 100) in
  let mp := (5 * doy + 2) / 153 in
  let d := doy - (153 * mp + 2) / 5 + 1 in
  let m := if mp <? 10 then mp + 3 else mp - 9 in
  (if m <=? 2 then yoe + era * 400 + 1 else yoe + era * 400, m, d).

Definition year_digits (y : Z) : jsstring :=
  if (0 <=? y) && (y <=? 9999) then dec 4 y
  else if 0 <=? y then js "+" ++ dec 6 y
  else js "-" ++ dec 6 (- y).

Definition toISOString (t : Z) : jsstring :=
  let '(y, m, d) := civil_from_days (t / msPerDay) in
  let ms := t mod msPerDay in
  year_digits y ++ js "-" ++ dec 2 m ++ js "-" ++ dec 2 d ++ js "T"
    ++ dec 2 (ms / 3600000) ++ js ":" ++ dec 2 (ms / 60000 mod 60) ++ js ":"
    ++ dec 2 (ms / 1000 mod 60) ++ js "." ++ dec 3 (ms mod 1000) ++ js "Z".

Definition digit (c : codeunit) : option Z :=
  if isDigit c then Some (Z.of_N c - 48) else None.

(** [new Date(s)] for a date-only string, as V8 reads it: a day up to
    31 that the month does not have is carried over into the next
    month.  Any other string is an invalid date. *)
Definition Date_parse (s : jsstring) : option Z :=
  match s with
  | [y1; y2; y3; y4; 45%N; m1; m2; 45%N; d1; d2] =>
      match digit y1, digit y2, digit y3, digit y4,
            digit m1, digit m2, digit d1, digit d2 with
      | Some a, Some b, Some c, Some e, Some f, Some g, Some h, Some i =>
          let y := ((a * 10 + b) * 10 + c) * 10 + e in
          let m := f * 10 + g in
          let d := h * 10 + i in
          if (1 <=? m) && (m <=? 12) && (1 <=? d) && (d <=? 31)
          then Some (days_from_civil y m d * msPerDay)
          else None
      | _, _, _, _, _, _, _, _ => None
      end
  | _ => None
  end.

(** The clock starts at 2025-01-01T00:00:00.000Z. *)
Definition clock (n : nat) : jsstring :=
  toISOString (1735689600000 + Z.of_nat n).

End Platform.

(* ===================================================================== *)
(** ** Concrete stores and calls *)
(* ===================================================================== *)

(** A store to try things on: the component mounted on an empty,
    working storage of the platform of [Platform]. *)
Definition fresh_storage : Storage :=
  {| item := None; readable := true; writable := true |}.

Definition mounted : World :=
  match mount Platform.clock fresh_storage with
  | Some w => w
  | None => initial fresh_storage
  end.

Abbreviation P_step :=
  (step Platform.uuidv4 Platform.clock Platform.Date_parse Platform.toISOString).
Abbreviation P_run :=
  (run Platform.uuidv4 Platform.clock Platform.Date_parse Platform.toISOString).

Abbreviation P_stored_date :=
  (stored_date Platform.Date_parse Platform.toISOString).

(** Two goals, one toggled twice and the other deleted, with a subject
    added in between. *)
Definition demo_ops : list Op :=
  [ addGoal (js "Master React Hooks") (js "2025-06-01");
    addGoal (js "Read chapter 3") [];
    toggleGoal (Platform.uuidv4 0);
    addSubject (js "Biology");
    deleteGoal (Platform.uuidv4 1);
    toggleGoal (Platform.uuidv4 0);
    toggleGoal (Platform.uuidv4 0) ].

(** A store whose plan is not the default one. *)
Definition two_goals : World :=
  P_run [ addGoal (js "Master React Hooks") (js "2025-06-01");
          addGoal (js "Read chapter 3") [] ] mounted.

Definition goal_0 : Goal :=
  {| id := Platform.uuidv4 0; description := js "Master React Hooks";
     targetDate := Some (js "2025-06-01T00:00:00.000Z"); completed := false |}.

Definition goal_1 : Goal :=
  {| id := Platform.uuidv4 1; description := js "Read chapter 3";
     targetDate := None; completed := false |}.

Definition two_goals_plan : StudyPlan :=
  {| userId := Fixed.userId; goals := [goal_0; goal_1]; subjects := [];
     lastUpdated := js "2025-01-01T00:00:00.002Z" |}.

(** Three goals, the first of them completed. *)
Definition one_of_three : World :=
  P_run [ addGoal (js "Master React Hooks") (js "2025-06-01");
          addGoal (js "Read chapter 3") [];
          addGoal (js "Revise notes") [];
          toggleGoal (Platform.uuidv4 0) ] mounted.

(** The store after a load that failed on a broken text. *)
Definition unloaded : World :=
  load_failed {| item := Some (js "{"); readable := true; writable := true |}.

(** The store with the text of a submission typed into the form. *)
Definition typed (o : Op) (w : World) : World :=
  match o with
  | addGoal d t => setNewGoalTargetDate t (setNewGoalDescription d w)
  | addSubject n => setNewSubject n w
  | _ => w
  end.

(** The text of the banner after a save that failed. *)
Definition save_error : jsstring :=
  js "Failed to save study plan to local storage.".

(** The stored text is the text form of the plan in memory. *)
Definition in_sync (w : World) : Prop :=
  match studyPlan w with
  | Some p => item (localStorage w) = Some (JSON_stringify p)
  | None => True
  end.

(** The storage holds no plan, or a text that the component has
    written: the text form of some plan. *)
Definition own_text (st : Storage) : Prop :=
  item st = None \/ item st = Some []
  \/ exists p, item st = Some (JSON_stringify p).

(** The plan in memory, if any, carries the last reading of the clock. *)
Definition stamped (clock : nat -> jsstring) (w : World) : Prop :=
  match studyPlan w with
  | Some p => 0 < clock_reads w /\ lastUpdated p = clock (clock_reads w - 1)
  | None => True
  end.

(** [formatLocalDate] (lines 36-43) and its use. *)
Section Display.

Variable Date_parse : jsstring -> option Z.
Variable toLocaleDateString : Z -> jsstring.

Definition formatLocalDate (dateString : option jsstring) : jsstring :=
  match dateString with
  | None => js "N/A"
  | Some [] => js "N/A"
  | Some ((_ :: _) as s) =>
      match Date_parse s with
      | None => js "Invalid Date"
      | Some t => toLocaleDateString t
      end
  end.

(** The text of a goal in the two lists (lines 645-648 and 686-689;
    lines 1111-1114 in the standalone component): the description, and
    after it the target date when the goal has one.
    [formatLocalDate] is called nowhere else. *)
Definition goalLabel (g : Goal) : jsstring :=
  description g
    ++ match targetDate g with
       | Some ((_ :: _) as date) =>
           js " (Target: " ++ formatLocalDate (Some date) ++ js ")"
       | _ => []
       end.

End Display.

(** A goal as the planner keeps it: a description that is not empty and
    has no white space around it; likewise a subject. *)
Definition trimmed (s : jsstring) : Prop := s <> [] /\ trim s = s.

Definition tidy (w : World) : Prop :=
  Forall (fun g => trimmed (description g)) (currentGoals w)
  /\ Forall trimmed (currentSubjects w).

(** Every goal carries an identifier that [uuidv4] has handed out. *)
Definition issued (uuidv4 : nat -> jsstring) (n : nat) (gs : list Goal) : Prop :=
  forall g, In g gs -> exists k, k < n /\ id g = uuidv4 k.

(* ===================================================================== *)
(** ** The standalone component (nextjs-app/components/StudyPlanner.tsx)

    The second copy of the planner has the same handlers (lines
    907-1033 are lines 112-233 with [error] for [studyPlannerError]);
    it starts with [loading = true], ends its load effect with
    [setLoading(false)], saves only when it is not loading, and shows
    nothing but a message while it loads or once an error is set.  Its
    state is a [World] with [studyPlannerError] read as [error]. *)
(* ===================================================================== *)

Module StudyPlanner.

Definition initial (st : Storage) : World := setLoading true (initial st).

(** The load effect (lines 868-892). *)
Definition loadEffect (clock : nat -> jsstring) (w : World) : option World :=
  match getItem w with
  | (Throw e, w1) => Some (setLoading false (onLoadError e w1))
  | (Ok storedPlan, w1) =>
      match storedPlan with
      | Some ((_ :: _) as text) =>
          match JSON_parse_StudyPlan text with
          | Some (Ok p) => Some (setLoading false (setStudyPlan_value p w1))
          | Some (Throw e) => Some (setLoading false (onLoadError e w1))
          | None => None
          end
      | _ =>
          Some (try_catch_finally (createDefaultPlan clock) onLoadError
                  (setLoading false) w1)
      end
  end.

(** The save effect (lines 895-905), with dependencies
    [[studyPlan, loading]]. *)
Definition saveEffect : World -> World := fun w =>
  match studyPlan w with
  | Some p =>
      if loading w then w
      else
        try_catch
          (setItem (JSON_stringify p))
          (fun _ => setStudyPlannerError
                      (Some (js "Failed to save study plan to local storage.")))
          w
  | None => w
  end.

Definition commit (before : World) (after : World) : World :=
  if Nat.eqb (studyPlan_ref after) (studyPlan_ref before)
     && Bool.eqb (loading after) (loading before)
  then after
  else saveEffect after.

Definition mount (clock : nat -> jsstring) (st : Storage) : option World :=
  match loadEffect clock (initial st) with
  | Some w => Some (commit (initial st) w)
  | None => None
  end.

Definition step (uuidv4 clock : nat -> jsstring)
    (Date_parse : jsstring -> option Z) (toISOString : Z -> jsstring)
    (o : Op) (w : World) : World :=
  commit w (handler uuidv4 clock Date_parse toISOString o w).

Definition run (uuidv4 clock : nat -> jsstring)
    (Date_parse : jsstring -> option Z) (toISOString : Z -> jsstring)
    (ops : list Op) (w : World) : World :=
  fold_left (fun w o => step uuidv4 clock Date_parse toISOString o w) ops w.

(** What the component renders (lines 1042-1053). *)
Inductive View :=
| Spinner
| ErrorMessage (error : jsstring)
| Planner.

Definition view (w : World) : View :=
  if loading w then Spinner
  else match studyPlannerError w with
       | Some ((_ :: _) as error) => ErrorMessage error
       | _ => Planner
       end.

End StudyPlanner.

(** An error message is set. *)
Definition reported (w : World) : Prop :=
  match studyPlannerError w with Some (_ :: _) => True | _ => False end.

(* ===================================================================== *)
(** ** The other tabs of the page: flashcards, quiz, study buddy

    Each tab works on its own part of the component's state, together
    with the [loading] flag.  A request to one of the three endpoints
    is answered some time after it is sent, so the function that sends
    it is modelled in two parts: what runs up to the [await], and what
    runs when the answer is there.  An answer is either a failure (the
    request or the reading of its body threw) or the field of the body
    that the function looks at, absent when it is missing or [null];
    a field that is there is taken to be of its declared type.

    The [loading] flag is the one flag of the component, which the
    three tabs share: each module carries it beside the fields that
    its own functions read and write. *)
(* ===================================================================== *)

(** [JSON.stringify({ key: text })], the body of a request. *)
Definition request_body (key : string) (text : jsstring) : jsstring :=
  stringify (JObject [(js key, JString text)]).

Module Flashcards.

Record Flashcard := mkFlashcard {
  front : jsstring;
  back : jsstring
}.

Record State := mkState {
  notes : jsstring;
  flashcards : list Flashcard;
  currentCard : Z;
  flipped : bool;
  loading : bool;
  in_flight : nat                 (* requests sent and not yet answered *)
}.

Definition initial : State :=
  {| notes := []; flashcards := []; currentCard := 0; flipped := false;
     loading := false; in_flight := 0 |}.

Inductive Response :=
| Failed
| Data (flashcards : option (list Flashcard)).

Definition setNotes (text : jsstring) (s : State) : State :=
  {| notes := text; flashcards := flashcards s; currentCard := currentCard s;
     flipped := flipped s; loading := loading s; in_flight := in_flight s |}.

Definition setLoading (b : bool) (s : State) : State :=
  {| notes := notes s; flashcards := flashcards s; currentCard := currentCard s;
     flipped := flipped s; loading := b; in_flight := in_flight s |}.

(** [generateFlashcards] up to the [await] (lines 245-254): the state
    it leaves and the body it sends, if it sends one. *)
Definition generateFlashcards_send (s : State) : State * option jsstring :=
  if negb (truthy (trim (notes s))) then (s, None)
  else ({| notes := notes s; flashcards := flashcards s;
           currentCard := currentCard s; flipped := flipped s;
           loading := true; in_flight := S (in_flight s) |},
        Some (request_body "notes" (notes s))).

(** [generateFlashcards] from the answer on (lines 256-265). *)
Definition generateFlashcards_receive (r : Response) (s : State) : State :=
  match in_flight s with
  | O => s
  | S n =>
      match r with
      | Data (Some cards) =>
          {| notes := notes s; flashcards := cards; currentCard := 0;
             flipped := false; loading := false; in_flight := n |}
      | _ =>
          {| notes := notes s; flashcards := flashcards s;
             currentCard := currentCard s; flipped := flipped s;
             loading := false; in_flight := n |}
      end
  end.

(** Lines 268-273. *)
Definition nextCard (s : State) : State :=
  if (currentCard s <? Z.of_nat (List.length (flashcards s)) - 1)%Z
  then {| notes := notes s; flashcards := flashcards s;
          currentCard := currentCard s + 1; flipped := false;
          loading := loading s; in_flight := in_flight s |}
  else s.

(** Lines 275-280. *)
Definition prevCard (s : State) : State :=
  if (0 <? currentCard s)%Z
  then {| notes := notes s; flashcards := flashcards s;
          currentCard := currentCard s - 1; flipped := false;
          loading := loading s; in_flight := in_flight s |}
  else s.

(** [onClick={() => setFlipped(!flipped)}] (line 414). *)
Definition flip (s : State) : State :=
  {| notes := notes s; flashcards := flashcards s; currentCard := currentCard s;
     flipped := negb (flipped s); loading := loading s;
     in_flight := in_flight s |}.

(** [onClick={() => setFlashcards([])}] (line 435). *)
Definition newFlashcards (s : State) : State :=
  {| notes := notes s; flashcards := []; currentCard := currentCard s;
     flipped := flipped s; loading := loading s; in_flight := in_flight s |}.

(** [flashcards[currentCard]], the card on display. *)
Definition shown (s : State) : option Flashcard :=
  if (0 <=? currentCard s)%Z
  then nth_error (flashcards s) (Z.to_nat (currentCard s))
  else None.

Inductive Event :=
| Type_notes (text : jsstring)
| Generate
| Answer (r : Response)
| Next
| Prev
| Flip
| New.

Definition handle (e : Event) (s : State) : State :=
  match e with
  | Type_notes text => setNotes text s
  | Generate => fst (generateFlashcards_send s)
  | Answer r => generateFlashcards_receive r s
  | Next => nextCard s
  | Prev => prevCard s
  | Flip => flip s
  | New => newFlashcards s
  end.

Definition run (es : list Event) (s : State) : State :=
  fold_left (fun s e => handle e s) es s.

End Flashcards.

Module Quiz.

Record QuizQuestion := mkQuizQuestion {
  question : jsstring;
  options : list jsstring;
  correct : Z;
  explanation : jsstring
}.

(** The callback handed to [setTimeout] at line 315, with the
    [currentQuestion] and the [quiz] of the render it was made in. *)
Record Timer := mkTimer {
  at_question : Z;
  over : list QuizQuestion
}.

Record State := mkState {
  quizText : jsstring;
  quiz : list QuizQuestion;
  currentQuestion : Z;
  selectedAnswer : option Z;
  showResults : bool;
  score : Z;
  loading : bool;
  in_flight : nat;                (* requests sent and not yet answered *)
  timers : list Timer             (* callbacks waiting for their 1500 ms *)
}.

Definition initial : State :=
  {| quizText := []; quiz := []; currentQuestion := 0; selectedAnswer := None;
     showResults := false; score := 0; loading := false; in_flight := 0;
     timers := [] |}.

Inductive Response :=
| Failed
| Data (quiz : option (list QuizQuestion)).

Definition setQuizText (text : jsstring) (s : State) : State :=
  {| quizText := text; quiz := quiz s; currentQuestion := currentQuestion s;
     selectedAnswer := selectedAnswer s; showResults := showResults s;
     score := score s; loading := loading s; in_flight := in_flight s;
     timers := timers s |}.

(** [generateQuiz] up to the [await] (lines 283-292). *)
Definition generateQuiz_send (s : State) : State * option jsstring :=
  if negb (truthy (trim (quizText s))) then (s, None)
  else ({| quizText := quizText s; quiz := quiz s;
           currentQuestion := currentQuestion s;
           selectedAnswer := selectedAnswer s; showResults := showResults s;
           score := score s; loading := true; in_flight := S (in_flight s);
           timers := timers s |},
        Some (request_body "text" (quizText s))).

(** [generateQuiz] from the answer on (lines 294-305). *)
Definition generateQuiz_receive (r : Response) (s : State) : State :=
  match in_flight s with
  | O => s
  | S n =>
      match r with
      | Data (Some questions) =>
          {| quizText := quizText s; quiz := questions; currentQuestion := 0;
             selectedAnswer := None; showResults := false; score := 0;
             loading := false; in_flight := n; timers := timers s |}
      | _ =>
          {| quizText := quizText s; quiz := quiz s;
             currentQuestion := currentQuestion s;
             selectedAnswer := selectedAnswer s; showResults := showResults s;
             score := score s; loading := false; in_flight := n;
             timers := timers s |}
      end
  end.

(** [quiz[currentQuestion]] *)
Definition lookup (qs : list QuizQuestion) (i : Z) : option QuizQuestion :=
  if (0 <=? i)%Z then nth_error qs (Z.to_nat i) else None.

Inductive Completion := Returned | TypeError.

(** [selectAnswer] (lines 308-323): reading [.correct] of a question
    that is not there throws, after the selection has been recorded. *)
Definition selectAnswer (answerIndex : Z) (s : State) : State * Completion :=
  match lookup (quiz s) (currentQuestion s) with
  | None =>
      ({| quizText := quizText s; quiz := quiz s;
          currentQuestion := currentQuestion s;
          selectedAnswer := Some answerIndex; showResults := showResults s;
          score := score s; loading := loading s; in_flight := in_flight s;
          timers := timers s |},
       TypeError)
  | Some q =>
      ({| quizText := quizText s; quiz := quiz s;
          currentQuestion := currentQuestion s;
          selectedAnswer := Some answerIndex; showResults := showResults s;
          score := if (answerIndex =? correct q)%Z then score s + 1 else score s;
          loading := loading s; in_flight := in_flight s;
          timers := timers s ++ [ {| at_question := currentQuestion s;
                                     over := quiz s |} ] |},
       Returned)
  end.

(** The oldest waiting callback runs (lines 315-322). *)
Definition timeout (s : State) : State :=
  match timers s with
  | [] => s
  | t :: rest =>
      if (at_question t <? Z.of_nat (List.length (over t)) - 1)%Z
      then {| quizText := quizText s; quiz := quiz s;
              currentQuestion := at_question t + 1;
              selectedAnswer := None; showResults := showResults s;
              score := score s; loading := loading s;
              in_flight := in_flight s; timers := rest |}
      else {| quizText := quizText s; quiz := quiz s;
              currentQuestion := currentQuestion s;
              selectedAnswer := selectedAnswer s; showResults := true;
              score := score s; loading := loading s;
              in_flight := in_flight s; timers := rest |}
  end.

(** "Take Another Quiz" (lines 481-485). *)
Definition takeAnotherQuiz (s : State) : State :=
  {| quizText := quizText s; quiz := []; currentQuestion := currentQuestion s;
     selectedAnswer := selectedAnswer s; showResults := false; score := 0;
     loading := loading s; in_flight := in_flight s; timers := timers s |}.

(** What the tab shows (lines 458, 474, 492). *)
Inductive Screen := Form | Results | Question.

Definition screen (s : State) : Screen :=
  match quiz s, showResults s with
  | [], false => Form
  | _, true => Results
  | _, false => Question
  end.

(** Answering the questions one after the other, each answer followed
    by the callback it has set going (the options are disabled while
    an answer is selected, line 507). *)
Fixpoint play (answers : list Z) (s : State) : State :=
  match answers with
  | [] => s
  | a :: rest => play rest (timeout (fst (selectAnswer a s)))
  end.

(** The number of answers that are the correct ones. *)
Fixpoint right_answers (qs : list QuizQuestion) (answers : list Z) : Z :=
  match qs, answers with
  | q :: qs', a :: answers' =>
      (if (a =? correct q)%Z then 1 else 0) + right_answers qs' answers'
  | _, _ => 0
  end.

End Quiz.

Module StudyBuddy.

Module Chat.
Record t := mk {
  question : jsstring;
  answer : jsstring
}.
End Chat.

Record State := mkState {
  question : jsstring;
  answer : jsstring;
  chatHistory : list Chat.t;
  loading : bool;
  in_flight : list jsstring       (* the [question] of every request sent
                                     and not yet answered *)
}.

Definition initial : State :=
  {| question := []; answer := []; chatHistory := []; loading := false;
     in_flight := [] |}.

Inductive Response :=
| Failed
| Data (answer : option jsstring).

Definition setQuestion (text : jsstring) (s : State) : State :=
  {| question := text; answer := answer s; chatHistory := chatHistory s;
     loading := loading s; in_flight := in_flight s |}.

(** [askStudyBuddy] up to the [await] (lines 326-335). *)
Definition askStudyBuddy_send (s : State) : State * option jsstring :=
  if negb (truthy (trim (question s))) then (s, None)
  else ({| question := question s; answer := answer s;
           chatHistory := chatHistory s; loading := true;
           in_flight := in_flight s ++ [question s] |},
        Some (request_body "question" (question s))).

(** [askStudyBuddy] from the answer on (lines 337-347), for the [k]-th
    of the requests in flight; [asked] is the [question] that request
    was sent with. *)
Definition askStudyBuddy_receive (k : nat) (r : Response) (s : State) : State :=
  match nth_error (in_flight s) k with
  | None => s
  | Some asked =>
      let rest := firstn k (in_flight s) ++ skipn (S k) (in_flight s) in
      match r with
      | Data (Some ((_ :: _) as text)) =>
          {| question := []; answer := text;
             chatHistory := chatHistory s
                              ++ [ {| Chat.question := asked;
                                      Chat.answer := text |} ];
             loading := false; in_flight := rest |}
      | _ =>
          {| question := question s; answer := answer s;
             chatHistory := chatHistory s; loading := false;
             in_flight := rest |}
      end
  end.

Inductive Event :=
| Type_question (text : jsstring)
| Ask
| Answer (k : nat) (r : Response).

Definition handle (e : Event) (s : State) : State :=
  match e with
  | Type_question text => setQuestion text s
  | Ask => fst (askStudyBuddy_send s)
  | Answer k r => askStudyBuddy_receive k r s
  end.

Definition run (es : list Event) (s : State) : State :=
  fold_left (fun s e => handle e s) es s.

End StudyBuddy.

(** The card index is in the deck, when there is a deck. *)
Definition Flashcards_within (s : Flashcards.State) : Prop :=
  (0 <= Flashcards.currentCard s)%Z
  /\ (Flashcards.flashcards s = []
      \/ (Flashcards.currentCard s
          < Z.of_nat (List.length (Flashcards.flashcards s)))%Z).

(** A chat entry as the study buddy records it: a question that is not
    blank, with an answer that is not empty. *)
Definition asked_and_answered (c : StudyBuddy.Chat.t) : Prop :=
  trim (StudyBuddy.Chat.question c) <> [] /\ StudyBuddy.Chat.answer c <> [].

Definition is_answer (e : StudyBuddy.Event) : bool :=
  match e with StudyBuddy.Answer _ _ => true | _ => false end.

(* ===================================================================== *)
(** ** More concrete stores and calls *)
(* ===================================================================== *)

(** A platform that reads back the dates it writes, and shows them the
    way the [en-US] locale does in the time zone UTC. *)
Module Locale.

Local Open Scope Z_scope.

(** [new Date(s)] for a date-only string and for a string of the form
    [toISOString] gives; any other string is an invalid date. *)
Definition Date_parse (s : jsstring) : option Z :=
  match skipn 10 s with
  | [] => Platform.Date_parse s
  | [84%N; h1; h2; 58%N; n1; n2; 58%N; s1; s2; 46%N; f1; f2; f3; 90%N] =>
      match Platform.Date_parse (firstn 10 s),
            Platform.digit h1, Platform.digit h2,
            Platform.digit n1, Platform.digit n2,
            Platform.digit s1, Platform.digit s2,
            Platform.digit f1, Platform.digit f2, Platform.digit f3 with
      | Some day, Some a, Some b, Some c, Some d, Some e, Some f,
        Some g, Some h, Some i =>
          let hours := a * 10 + b in
          let minutes := c * 10 + d in
          let seconds := e * 10 + f in
          if (hours <=? 23) && (minutes <=? 59) && (seconds <=? 59)
          then Some (day + hours * 3600000 + minutes * 60000 + seconds * 1000
                     + ((g * 10 + h) * 10 + i))
          else None
      | _, _, _, _, _, _, _, _, _, _ => None
      end
  | _ => None
  end.

(** A decimal numeral without its leading zeros. *)
Fixpoint strip (s : jsstring) : jsstring :=
  match s with
  | 48%N :: ((_ :: _) as rest) => strip rest
  | _ => s
  end.

Definition decimal (n : Z) : jsstring :=
  strip (Platform.dec (S (Z.to_nat (Z.log2 n))) n).

(** [toLocaleDateString()]: month/day/year. *)
Definition toLocaleDateString (t : Z) : jsstring :=
  let '(y, m, d) := Platform.civil_from_days (t / Platform.msPerDay) in
  decimal m ++ js "/" ++ decimal d ++ js "/" ++ decimal y.

End Locale.

Abbreviation L_step :=
  (step Platform.uuidv4 Platform.clock Locale.Date_parse Platform.toISOString).

Abbreviation L_goalLabel :=
  (goalLabel Locale.Date_parse Locale.toLocaleDateString).

(** The store of [two_goals] on a storage that has stopped taking
    writes. *)
Definition locked : World :=
  set_localStorage
    {| item := item (localStorage two_goals); readable := true;
       writable := false |}
    two_goals.

Definition toggled_plan : StudyPlan :=
  {| userId := Fixed.userId; goals := [flip goal_0; goal_1]; subjects := [];
     lastUpdated := js "2025-01-01T00:00:00.003Z" |}.

(** A storage with the text that the component writes for the plan
    of [two_goals]. *)
Definition saved_storage : Storage :=
  {| item := Some (JSON_stringify two_goals_plan); readable := true;
     writable := true |}.

(** A storage whose text is not JSON. *)
Definition broken_storage : Storage :=
  {| item := Some (js "{"); readable := true; writable := true |}.

(** A deck of three cards, with the second one on display. *)
Definition three_cards : Flashcards.State :=
  {| Flashcards.notes := js "The cell";
     Flashcards.flashcards :=
       [ {| Flashcards.front := js "Nucleus";
            Flashcards.back := js "Holds the DNA" |};
         {| Flashcards.front := js "Ribosome";
            Flashcards.back := js "Builds proteins" |};
         {| Flashcards.front := js "Mitochondrion";
            Flashcards.back := js "Makes ATP" |} ];
     Flashcards.currentCard := 1; Flashcards.flipped := true;
     Flashcards.loading := false; Flashcards.in_flight := 0 |}.

Definition two_questions : list Quiz.QuizQuestion :=
  [ {| Quiz.question := js "Where is the DNA?";
       Quiz.options := [js "Ribosome"; js "Nucleus"];
       Quiz.correct := 1; Quiz.explanation := js "The nucleus holds it." |};
    {| Quiz.question := js "What makes ATP?";
       Quiz.options := [js "Ribosome"; js "Mitochondrion"];
       Quiz.correct := 1; Quiz.explanation := js "The mitochondrion." |} ].

(** The quiz tab with a request out. *)
Definition quiz_requested : Quiz.State :=
  fst (Quiz.generateQuiz_send (Quiz.setQuizText (js "The cell") Quiz.initial)).

(** The study buddy with a question typed in. *)
Definition question_typed : StudyBuddy.State :=
  StudyBuddy.setQuestion (js " What is ATP? ") StudyBuddy.initial.

(* ===================================================================== *)
(** * Properties *)
(* ===================================================================== *)

(** ** Strings *)

Lemma str_eqb_eq (a b : jsstring) : str_eqb a b = true <-> a = b.
Proof.
  revert b; induction a as [|x a IH]; intros [|y b]; simpl;
    try (split; [discriminate | discriminate]); try tauto.
  rewrite andb_true_iff, N.eqb_eq, IH.
  split; [intros [-> ->]; reflexivity | intros H; injection H; auto].
Qed.

Lemma str_eqb_refl (a : jsstring) : str_eqb a a = true.
Proof. apply str_eqb_eq; reflexivity. Qed.

Lemma str_eqb_neq (a b : jsstring) : str_eqb a b = false <-> a <> b.
Proof.
  rewrite <- str_eqb_eq. destruct (str_eqb a b); split; congruence.
Qed.

Lemma str_eqb_sym (a b : jsstring) : str_eqb a b = str_eqb b a.
Proof.
  destruct (str_eqb a b) eqn:E.
  - apply str_eqb_eq in E; subst; symmetry; apply str_eqb_refl.
  - symmetry; apply str_eqb_neq; apply str_eqb_neq in E; congruence.
Qed.

Lemma existsb_str_eqb (x : jsstring) (l : list jsstring) :
  existsb (str_eqb x) l = true <-> In x l.
Proof.
  rewrite existsb_exists; split.
  - intros (y & Hy & E); apply str_eqb_eq in E; subst; assumption.
  - intros H; exists x; split; [assumption | apply str_eqb_refl].
Qed.

Lemma trimStart_blank (s : jsstring) :
  trimStart s = [] <-> forallb isWhiteSpace s = true.
Proof.
  induction s as [|c s IH]; simpl; [tauto|].
  destruct (isWhiteSpace c); simpl; [exact IH | split; discriminate].
Qed.

Lemma trimStart_head (s : jsstring) :
  match trimStart s with
  | [] => True
  | c :: _ => isWhiteSpace c = false
  end.
Proof.
  induction s as [|c s IH]; simpl; [exact I|].
  destruct (isWhiteSpace c) eqn:E; [exact IH | exact E].
Qed.

(** [trim] returns the empty string exactly on the strings made of
    white space only. *)
Lemma trim_blank (s : jsstring) :
  trim s = [] <-> forallb isWhiteSpace s = true.
Proof.
  unfold trim, trimEnd; split.
  - intros H.
    assert (H1 : trimStart (rev (trimStart s)) = []).
    { rewrite <- (rev_involutive (trimStart (rev (trimStart s)))), H.
      reflexivity. }
    apply trimStart_blank in H1.
    pose proof (trimStart_head s) as Hh.
    destruct (trimStart s) as [|c r] eqn:E.
    + apply trimStart_blank; assumption.
    + rewrite forallb_forall in H1.
      rewrite (H1 c) in Hh; [discriminate|].
      apply in_rev; rewrite rev_involutive; left; reflexivity.
  - intros H. apply trimStart_blank in H. rewrite H. reflexivity.
Qed.

Lemma truthy_trim (s : jsstring) :
  truthy (trim s) = false <-> forallb isWhiteSpace s = true.
Proof.
  rewrite <- trim_blank. destruct (trim s); simpl; split; congruence.
Qed.

(** ** Sets of subjects *)

Lemma filter_filter_comm {A} (f g : A -> bool) (l : list A) :
  filter f (filter g l) = filter g (filter f l).
Proof.
  induction l as [|x l IH]; simpl; [reflexivity|].
  destruct (g x) eqn:G, (f x) eqn:F; simpl; rewrite ?G, ?F, IH; reflexivity.
Qed.

Lemma filter_all {A} (f : A -> bool) (l : list A) :
  (forall x, In x l -> f x = true) -> filter f l = l.
Proof.
  induction l as [|x l IH]; simpl; intros H; [reflexivity|].
  rewrite (H x (or_introl eq_refl)), IH; [reflexivity|].
  intros z Hz; apply H; right; assumption.
Qed.

Lemma dedup_first_filter (f : jsstring -> bool) (l : list jsstring) :
  dedup_first (filter f l) = filter f (dedup_first l).
Proof.
  induction l as [|y l IH]; simpl; [reflexivity|].
  destruct (f y) eqn:F; simpl.
  - rewrite IH, filter_filter_comm. reflexivity.
  - rewrite IH, filter_filter_comm. symmetry. apply filter_all.
    intros z Hz. apply filter_In in Hz. destruct Hz as [_ Hz].
    destruct (str_eqb z y) eqn:E; [|reflexivity].
    apply str_eqb_eq in E; subst. rewrite F in Hz. discriminate.
Qed.

Lemma filter_notin_snoc (acc xs : list jsstring) (x : jsstring) :
  filter (fun z => negb (existsb (str_eqb z) (acc ++ [x]))) xs =
  filter (fun z => negb (str_eqb z x))
         (filter (fun z => negb (existsb (str_eqb z) acc)) xs).
Proof.
  induction xs as [|y xs IH]; simpl; [reflexivity|].
  rewrite existsb_app; simpl. rewrite orb_false_r, negb_orb.
  destruct (existsb (str_eqb y) acc); simpl; [exact IH|].
  destruct (str_eqb y x); simpl; rewrite IH; reflexivity.
Qed.

Lemma new_Set_from (xs acc : list jsstring) :
  fold_left Set_add xs acc =
  acc ++ dedup_first (filter (fun x => negb (existsb (str_eqb x) acc)) xs).
Proof.
  revert acc; induction xs as [|x xs IH]; intros acc; simpl.
  - rewrite app_nil_r; reflexivity.
  - unfold Set_add at 2. destruct (existsb (str_eqb x) acc) eqn:E; simpl.
    + apply IH.
    + rewrite IH, <- app_assoc; simpl. f_equal. f_equal.
      rewrite filter_notin_snoc, dedup_first_filter. reflexivity.
Qed.

(** [Array.from(new Set(xs))] keeps the first occurrence of every
    member of [xs]. *)
Lemma new_Set_dedup_first (xs : list jsstring) :
  Array_from (new_Set xs) = dedup_first xs.
Proof.
  unfold Array_from, new_Set. rewrite new_Set_from; simpl.
  f_equal. clear. induction xs as [|x xs IH]; simpl; congruence.
Qed.

Lemma dedup_first_In (x : jsstring) (l : list jsstring) :
  In x (dedup_first l) <-> In x l.
Proof.
  induction l as [|y l IH]; simpl; [tauto|].
  rewrite filter_In, IH.
  destruct (str_eqb x y) eqn:E.
  - apply str_eqb_eq in E; subst; simpl. intuition discriminate.
  - apply str_eqb_neq in E; simpl. intuition congruence.
Qed.

Lemma dedup_first_NoDup (l : list jsstring) : NoDup (dedup_first l).
Proof.
  induction l as [|y l IH]; simpl; constructor.
  - rewrite filter_In, str_eqb_refl; simpl. intros [_ H]; discriminate.
  - apply NoDup_filter; assumption.
Qed.

Lemma dedup_first_id (l : list jsstring) : NoDup l -> dedup_first l = l.
Proof.
  induction 1 as [|x l Hx Hl IH]; simpl; [reflexivity|].
  rewrite IH. f_equal. apply filter_all.
  intros z Hz. apply negb_true_iff, str_eqb_neq. congruence.
Qed.

Lemma dedup_first_snoc (l : list jsstring) (x : jsstring) :
  dedup_first (l ++ [x]) =
  dedup_first l ++ (if existsb (str_eqb x) l then [] else [x]).
Proof.
  induction l as [|y l IH]; simpl; [reflexivity|].
  rewrite IH, filter_app. f_equal. f_equal.
  destruct (str_eqb x y) eqn:E; simpl.
  - destruct (existsb (str_eqb x) l); simpl; rewrite ?E; reflexivity.
  - destruct (existsb (str_eqb x) l); simpl; rewrite ?E; reflexivity.
Qed.

(** ** What a handler leaves in the store *)

Ltac run_handler :=
  unfold try_catch_finally, try_catch, setStudyPlan, orDefault, bind, ret,
    throw, lift, now, uuid, Date_toISOString, plan_or_default, default_reads,
    updated; simpl.

Section HandlerFacts.

Variable uuidv4 : nat -> jsstring.
Variable clock : nat -> jsstring.
Variable Date_parse : jsstring -> option Z.
Variable toISOString : Z -> jsstring.

Local Abbreviation handleAddGoal := (handleAddGoal uuidv4 clock Date_parse toISOString).
Local Abbreviation handleToggleGoalCompletion := (handleToggleGoalCompletion clock).
Local Abbreviation handleDeleteGoal := (handleDeleteGoal clock).
Local Abbreviation handleAddSubject := (handleAddSubject clock).
Local Abbreviation handleDeleteSubject := (handleDeleteSubject clock).
Local Abbreviation step := (step uuidv4 clock Date_parse toISOString).
Local Abbreviation run := (run uuidv4 clock Date_parse toISOString).
Local Abbreviation stored_date := (stored_date Date_parse toISOString).
Local Abbreviation newGoal_of := (newGoal_of uuidv4).

Lemma handleToggleGoalCompletion_Some (i : jsstring) (w : World) (p : StudyPlan) :
  studyPlan w = Some p ->
  handleToggleGoalCompletion i w =
  updated w
    (with_goals p
       (map (fun goal => if str_eqb (id goal) i then flip goal else goal) (goals p))
       (clock (clock_reads w))) 1.
Proof.
  intros E. unfold handleToggleGoalCompletion. rewrite E.
  run_handler. rewrite E. reflexivity.
Qed.

Lemma handleDeleteGoal_Some (i : jsstring) (w : World) (p : StudyPlan) :
  studyPlan w = Some p ->
  handleDeleteGoal i w =
  updated w
    (with_goals p
       (filter (fun goal => negb (str_eqb (id goal) i)) (goals p))
       (clock (clock_reads w))) 1.
Proof.
  intros E. unfold handleDeleteGoal. rewrite E.
  run_handler. rewrite E. reflexivity.
Qed.

Lemma handleDeleteSubject_Some (s : jsstring) (w : World) (p : StudyPlan) :
  studyPlan w = Some p ->
  handleDeleteSubject s w =
  updated w
    (with_subjects p
       (filter (fun subject => negb (str_eqb subject s)) (subjects p))
       (clock (clock_reads w))) 1.
Proof.
  intros E. unfold handleDeleteSubject. rewrite E.
  run_handler. rewrite E. reflexivity.
Qed.

Lemma handleAddSubject_ok (w : World) :
  trim (newSubject w) <> [] ->
  handleAddSubject w =
  setNewSubject []
    (updated w
       (with_subjects (plan_or_default clock w)
          (Array_from (new_Set (currentSubjects w ++ [trim (newSubject w)])))
          (clock (default_reads w + clock_reads w)))
       (S (default_reads w))).
Proof.
  intros H. unfold handleAddSubject.
  destruct (trim (newSubject w)) as [|c r] eqn:E; [congruence|]. simpl.
  run_handler. unfold currentSubjects. destruct (studyPlan w); reflexivity.
Qed.

Lemma handleAddGoal_ok (w : World) (date : option jsstring) :
  trim (newGoalDescription w) <> [] ->
  stored_date (newGoalTargetDate w) = Some date ->
  handleAddGoal w =
  setNewGoalTargetDate []
    (setNewGoalDescription []
       (bump_uuid
          (updated w
             (with_goals (plan_or_default clock w)
                (goals (plan_or_default clock w) ++ [newGoal_of w date])
                (clock (default_reads w + clock_reads w)))
             (S (default_reads w))))).
Proof.
  intros H D. unfold handleAddGoal, newGoal_of.
  destruct (trim (newGoalDescription w)) as [|c r] eqn:E; [congruence|]. simpl.
  run_handler. unfold stored_date in D.
  destruct (newGoalTargetDate w) as [|c' r'] eqn:T; simpl.
  - injection D as <-. destruct (studyPlan w); reflexivity.
  - destruct (Date_parse (c' :: r')); [|discriminate].
    injection D as <-. simpl. destruct (studyPlan w); reflexivity.
Qed.

(** An invalid target date: the RangeError is caught, the banner is
    set, and an identifier has been drawn for nothing. *)
Lemma handleAddGoal_invalid_date (w : World) :
  trim (newGoalDescription w) <> [] ->
  stored_date (newGoalTargetDate w) = None ->
  handleAddGoal w =
  setLoading false
    (setStudyPlannerError (Some (js "Failed to add goal."))
       (bump_uuid (setLoading true w))).
Proof.
  intros H D. unfold handleAddGoal.
  destruct (trim (newGoalDescription w)) as [|c r] eqn:E; [congruence|]. simpl.
  run_handler. unfold stored_date in D.
  destruct (newGoalTargetDate w) as [|c' r'] eqn:T; simpl; [discriminate|].
  destruct (Date_parse (c' :: r')); [discriminate|]. reflexivity.
Qed.

Lemma handleAddGoal_blank (w : World) :
  trim (newGoalDescription w) = [] -> handleAddGoal w = w.
Proof. intros E. unfold handleAddGoal. rewrite E. reflexivity. Qed.

Lemma handleAddSubject_blank (w : World) :
  trim (newSubject w) = [] -> handleAddSubject w = w.
Proof. intros E. unfold handleAddSubject. rewrite E. reflexivity. Qed.

(** The save effect touches the storage and the banner only. *)
Lemma saveEffect_studyPlan (w : World) : studyPlan (saveEffect w) = studyPlan w.
Proof.
  unfold saveEffect. destruct (studyPlan w) eqn:E; [|assumption].
  unfold try_catch, try_catch_finally, setItem.
  destruct (writable (localStorage w)); simpl; assumption.
Qed.

Lemma saveEffect_uuid_calls (w : World) : uuid_calls (saveEffect w) = uuid_calls w.
Proof.
  unfold saveEffect. destruct (studyPlan w) eqn:E; [|reflexivity].
  unfold try_catch, try_catch_finally, setItem.
  destruct (writable (localStorage w)); reflexivity.
Qed.

Lemma saveEffect_clock_reads (w : World) : clock_reads (saveEffect w) = clock_reads w.
Proof.
  unfold saveEffect. destruct (studyPlan w) eqn:E; [|reflexivity].
  unfold try_catch, try_catch_finally, setItem.
  destruct (writable (localStorage w)); reflexivity.
Qed.

Lemma commit_studyPlan (w w' : World) : studyPlan (commit w w') = studyPlan w'.
Proof.
  unfold commit. destruct (Nat.eqb _ _); [reflexivity | apply saveEffect_studyPlan].
Qed.

Lemma commit_uuid_calls (w w' : World) : uuid_calls (commit w w') = uuid_calls w'.
Proof.
  unfold commit. destruct (Nat.eqb _ _); [reflexivity | apply saveEffect_uuid_calls].
Qed.

Lemma commit_clock_reads (w w' : World) : clock_reads (commit w w') = clock_reads w'.
Proof.
  unfold commit. destruct (Nat.eqb _ _); [reflexivity | apply saveEffect_clock_reads].
Qed.

Lemma commit_same (w : World) : commit w w = w.
Proof. unfold commit. rewrite Nat.eqb_refl. reflexivity. Qed.

Lemma currentGoals_commit (w w' : World) :
  currentGoals (commit w w') = currentGoals w'.
Proof. unfold currentGoals. rewrite commit_studyPlan. reflexivity. Qed.

End HandlerFacts.

(** ** Sequences of operations on the goals *)

Lemma flip_flip (g : Goal) : flip (flip g) = g.
Proof. destruct g; unfold flip; simpl. rewrite negb_involutive. reflexivity. Qed.

Section Sequences.

Variable uuidv4 : nat -> jsstring.
Variable clock : nat -> jsstring.
Variable Date_parse : jsstring -> option Z.
Variable toISOString : Z -> jsstring.

Local Abbreviation step := (step uuidv4 clock Date_parse toISOString).
Local Abbreviation run := (run uuidv4 clock Date_parse toISOString).
Local Abbreviation stored_date := (stored_date Date_parse toISOString).
Local Abbreviation added_goals := (added_goals uuidv4 Date_parse toISOString).
Local Abbreviation fresh_ids := (fresh_ids uuidv4).
Local Abbreviation goals_after := (goals_after uuidv4 Date_parse toISOString).
Local Abbreviation newGoal_of := (newGoal_of uuidv4).

Lemma currentGoals_step (o : Op) (w : World) :
  currentGoals (step o w) = goals_after o (uuid_calls w) (currentGoals w).
Proof.
  unfold step. rewrite currentGoals_commit.
  destruct o as [d t|i|i|s|s]; simpl.
  - set (w1 := setNewGoalTargetDate t (setNewGoalDescription d w)).
    destruct (trim d) as [|c r] eqn:E.
    + rewrite handleAddGoal_blank; [reflexivity | exact E].
    + assert (Hd : trim (newGoalDescription w1) <> []) by (simpl; congruence).
      destruct (stored_date t) as [date|] eqn:D.
      * rewrite (handleAddGoal_ok uuidv4 clock Date_parse toISOString w1 Hd D).
        unfold currentGoals, plan_or_default, newGoal_of; simpl.
        rewrite E. destruct (studyPlan w); reflexivity.
      * rewrite (handleAddGoal_invalid_date uuidv4 clock Date_parse toISOString w1 Hd D).
        reflexivity.
  - unfold currentGoals. destruct (studyPlan w) as [p|] eqn:E.
    + rewrite (handleToggleGoalCompletion_Some clock i w E). reflexivity.
    + unfold handleToggleGoalCompletion. rewrite E, E. reflexivity.
  - unfold currentGoals. destruct (studyPlan w) as [p|] eqn:E.
    + rewrite (handleDeleteGoal_Some clock i w E). reflexivity.
    + unfold handleDeleteGoal. rewrite E, E. reflexivity.
  - set (w1 := setNewSubject s w).
    destruct (trim s) as [|c r] eqn:E.
    + rewrite handleAddSubject_blank; [reflexivity | exact E].
    + assert (Hd : trim (newSubject w1) <> []) by (simpl; congruence).
      rewrite (handleAddSubject_ok clock w1 Hd).
      unfold currentGoals, plan_or_default; simpl.
      destruct (studyPlan w); reflexivity.
  - unfold currentGoals. destruct (studyPlan w) as [p|] eqn:E.
    + rewrite (handleDeleteSubject_Some clock s w E). simpl. reflexivity.
    + unfold handleDeleteSubject. rewrite E, E. reflexivity.
Qed.

Lemma uuid_calls_step (o : Op) (w : World) :
  uuid_calls (step o w) = uuids_after o (uuid_calls w).
Proof.
  unfold step. rewrite commit_uuid_calls.
  destruct o as [d t|i|i|s|s]; simpl.
  - set (w1 := setNewGoalTargetDate t (setNewGoalDescription d w)).
    destruct (trim d) as [|c r] eqn:E.
    + rewrite handleAddGoal_blank; [reflexivity | exact E].
    + assert (Hd : trim (newGoalDescription w1) <> []) by (simpl; congruence).
      destruct (stored_date t) as [date|] eqn:D.
      * rewrite (handleAddGoal_ok uuidv4 clock Date_parse toISOString w1 Hd D).
        reflexivity.
      * rewrite (handleAddGoal_invalid_date uuidv4 clock Date_parse toISOString w1 Hd D).
        reflexivity.
  - destruct (studyPlan w) as [p|] eqn:E.
    + rewrite (handleToggleGoalCompletion_Some clock i w E). reflexivity.
    + unfold handleToggleGoalCompletion. rewrite E. reflexivity.
  - destruct (studyPlan w) as [p|] eqn:E.
    + rewrite (handleDeleteGoal_Some clock i w E). reflexivity.
    + unfold handleDeleteGoal. rewrite E. reflexivity.
  - set (w1 := setNewSubject s w).
    destruct (trim s) as [|c r] eqn:E.
    + rewrite handleAddSubject_blank; [reflexivity | exact E].
    + assert (Hd : trim (newSubject w1) <> []) by (simpl; congruence).
      rewrite (handleAddSubject_ok clock w1 Hd). reflexivity.
  - destruct (studyPlan w) as [p|] eqn:E.
    + rewrite (handleDeleteSubject_Some clock s w E). reflexivity.
    + unfold handleDeleteSubject. rewrite E. reflexivity.
Qed.

Lemma run_cons (o : Op) (ops : list Op) (w : World) :
  run (o :: ops) w = run ops (step o w).
Proof. reflexivity. Qed.

Lemma toggles_app (i : jsstring) (a b : list Op) :
  toggles i (a ++ b) = toggles i a + toggles i b.
Proof. unfold toggles. rewrite filter_app, length_app. reflexivity. Qed.

Lemma toggles_cons (i : jsstring) (o : Op) (ops : list Op) :
  toggles i (o :: ops) = (if is_toggle i o then 1 else 0) + toggles i ops.
Proof. unfold toggles; simpl. destruct (is_toggle i o); reflexivity. Qed.

Lemma kept_goals_app (ops : list Op) (a b : list Goal) :
  kept_goals ops (a ++ b) = kept_goals ops a ++ kept_goals ops b.
Proof. unfold kept_goals. rewrite filter_app, map_app. reflexivity. Qed.

Lemma kept_goals_toggle (i : jsstring) (ops : list Op) (gs : list Goal) :
  kept_goals (toggleGoal i :: ops) gs =
  kept_goals ops
    (map (fun goal => if str_eqb (id goal) i then flip goal else goal) gs).
Proof.
  unfold kept_goals.
  induction gs as [|g gs IH]; [reflexivity|].
  cbn [map filter].
  change (deleted (id g) (toggleGoal i :: ops)) with (deleted (id g) ops).
  assert (Hid : id (if str_eqb (id g) i then flip g else g) = id g)
    by (destruct (str_eqb (id g) i); reflexivity).
  rewrite Hid.
  destruct (negb (deleted (id g) ops)); cbn [map]; rewrite IH; [|reflexivity].
  f_equal. rewrite Hid, toggles_cons. cbn [is_toggle].
  rewrite (str_eqb_sym i (id g)).
  destruct (str_eqb (id g) i); cbn [Nat.add].
  - rewrite Nat.odd_succ, <- Nat.negb_odd. unfold flip; cbn.
    destruct (completed g), (Nat.odd (toggles (id g) ops)); reflexivity.
  - reflexivity.
Qed.

Lemma kept_goals_delete (i : jsstring) (ops : list Op) (gs : list Goal) :
  kept_goals (deleteGoal i :: ops) gs =
  kept_goals ops (filter (fun goal => negb (str_eqb (id goal) i)) gs).
Proof.
  unfold kept_goals.
  induction gs as [|g gs IH]; [reflexivity|].
  cbn [map filter].
  change (deleted (id g) (deleteGoal i :: ops))
    with (str_eqb i (id g) || deleted (id g) ops).
  rewrite (str_eqb_sym i (id g)).
  destruct (str_eqb (id g) i); cbn [negb orb filter map]; [exact IH|].
  destruct (negb (deleted (id g) ops)); cbn [map]; rewrite IH; reflexivity.
Qed.

(** The goals that were there are treated one operation at a time. *)
Lemma kept_goals_cons (o : Op) (n : nat) (ops : list Op) (gs : list Goal) :
  kept_goals (o :: ops) gs =
  kept_goals ops
    (match o with
     | addGoal _ _ => gs
     | _ => goals_after o n gs
     end).
Proof.
  destruct o as [d t|i|i|s|s];
    [reflexivity | apply kept_goals_toggle | apply kept_goals_delete
    | reflexivity | reflexivity].
Qed.

(** The general form: [pre] is what was called before [ops], and no
    identifier outside [seen] has been toggled in it. *)
Lemma run_goals (ops pre : list Op) (seen : list jsstring) (w : World) :
  (forall i, ~ In i seen -> toggles i pre = 0) ->
  fresh_ids seen (uuid_calls w) ops = true ->
  currentGoals (run ops w) =
  kept_goals ops (currentGoals w)
    ++ added_goals (pre ++ ops) (uuid_calls w) ops.
Proof.
  revert pre seen w.
  induction ops as [|o ops IH]; intros pre seen w Hpre Hfresh.
  - simpl. unfold kept_goals. simpl. rewrite app_nil_r.
    induction (currentGoals w) as [|g gs IHg]; simpl; [reflexivity|].
    rewrite <- IHg. unfold flip. destruct g as [i d t c]; simpl.
    destruct c; reflexivity.
  - rewrite run_cons.
    assert (Hsplit : pre ++ o :: ops = (pre ++ [o]) ++ ops)
      by (rewrite <- app_assoc; reflexivity).
    destruct o as [d t|i|i|s|s].
    + (* addGoal *)
      simpl in Hfresh.
      rewrite (kept_goals_cons (addGoal d t) (uuid_calls w)).
      simpl added_goals.
      destruct (trim d) as [|c r] eqn:E.
      * rewrite Hsplit.
        rewrite (IH (pre ++ [addGoal d t]) seen (step (addGoal d t) w)).
        -- rewrite currentGoals_step, uuid_calls_step; simpl. rewrite E.
           reflexivity.
        -- intros i Hi. rewrite toggles_app, (Hpre i Hi). reflexivity.
        -- rewrite uuid_calls_step; simpl. rewrite E. exact Hfresh.
      * apply andb_true_iff in Hfresh. destruct Hfresh as [Hnew Hfresh].
        apply negb_true_iff in Hnew.
        assert (Hx : ~ In (uuidv4 (uuid_calls w)) seen).
        { intros Hin. apply existsb_str_eqb in Hin. congruence. }
        assert (Ht : toggles (uuidv4 (uuid_calls w)) (pre ++ addGoal d t :: ops)
                     = toggles (uuidv4 (uuid_calls w)) ops).
        { rewrite toggles_app, toggles_cons, (Hpre _ Hx). reflexivity. }
        rewrite Ht, Hsplit.
        rewrite (IH (pre ++ [addGoal d t]) seen (step (addGoal d t) w)).
        -- rewrite currentGoals_step, uuid_calls_step; simpl. rewrite E.
           destruct (stored_date t) as [date|] eqn:D; [|reflexivity].
           rewrite kept_goals_app, <- app_assoc. f_equal. f_equal.
           unfold kept_goals; simpl.
           destruct (deleted (uuidv4 (uuid_calls w)) ops); reflexivity.
        -- intros i Hi. rewrite toggles_app, (Hpre i Hi). reflexivity.
        -- rewrite uuid_calls_step; simpl. rewrite E. exact Hfresh.
    + (* toggleGoal *)
      simpl in Hfresh.
      rewrite (kept_goals_cons (toggleGoal i) (uuid_calls w)).
      simpl added_goals. rewrite Hsplit.
      rewrite (IH (pre ++ [toggleGoal i]) (i :: seen) (step (toggleGoal i) w)).
      * rewrite currentGoals_step, uuid_calls_step. reflexivity.
      * intros j Hj. rewrite toggles_app, toggles_cons; simpl.
        rewrite Hpre by (intros H; apply Hj; right; exact H).
        destruct (str_eqb i j) eqn:E; [|reflexivity].
        apply str_eqb_eq in E. exfalso; apply Hj; left; exact E.
      * rewrite uuid_calls_step. exact Hfresh.
    + (* deleteGoal *)
      simpl in Hfresh.
      rewrite (kept_goals_cons (deleteGoal i) (uuid_calls w)).
      simpl added_goals. rewrite Hsplit.
      rewrite (IH (pre ++ [deleteGoal i]) (i :: seen) (step (deleteGoal i) w)).
      * rewrite currentGoals_step, uuid_calls_step. reflexivity.
      * intros j Hj. rewrite toggles_app, toggles_cons; simpl.
        rewrite Hpre by (intros H; apply Hj; right; exact H). reflexivity.
      * rewrite uuid_calls_step. exact Hfresh.
    + (* addSubject *)
      simpl in Hfresh.
      rewrite (kept_goals_cons (addSubject s) (uuid_calls w)).
      simpl added_goals. rewrite Hsplit.
      rewrite (IH (pre ++ [addSubject s]) seen (step (addSubject s) w)).
      * rewrite currentGoals_step, uuid_calls_step. reflexivity.
      * intros j Hj. rewrite toggles_app, toggles_cons; simpl.
        rewrite Hpre by exact Hj. reflexivity.
      * rewrite uuid_calls_step. exact Hfresh.
    + (* deleteSubject *)
      simpl in Hfresh.
      rewrite (kept_goals_cons (deleteSubject s) (uuid_calls w)).
      simpl added_goals. rewrite Hsplit.
      rewrite (IH (pre ++ [deleteSubject s]) seen (step (deleteSubject s) w)).
      * rewrite currentGoals_step, uuid_calls_step. reflexivity.
      * intros j Hj. rewrite toggles_app, toggles_cons; simpl.
        rewrite Hpre by exact Hj. reflexivity.
      * rewrite uuid_calls_step. exact Hfresh.
Qed.

End Sequences.

(** ** The persisted text form *)

Lemma hexval_hexdigit (n : N) : (n < 16)%N -> hexval (hexdigit n) = Some n.
Proof.
  intros H.
  assert (E : In n [0; 1; 2; 3; 4; 5; 6; 7; 8; 9; 10; 11; 12; 13; 14; 15]%N)
    by (simpl; lia).
  simpl in E.
  repeat (destruct E as [<-|E]; [reflexivity|]). destruct E.
Qed.

Lemma hex4_value (c : N) :
  (c < 65536)%N ->
  ((((c / 4096) mod 16 * 16 + (c / 256) mod 16) * 16 + (c / 16) mod 16) * 16
     + c mod 16 = c)%N.
Proof.
  intros H.
  assert (E1 : (c / 256 = c / 16 / 16)%N) by (rewrite N.Div0.div_div; reflexivity).
  assert (E2 : (c / 4096 = c / 256 / 16)%N) by (rewrite N.Div0.div_div; reflexivity).
  pose proof (N.div_mod c 16 ltac:(discriminate)) as H0.
  pose proof (N.div_mod (c / 16) 16 ltac:(discriminate)) as H1.
  pose proof (N.div_mod (c / 256) 16 ltac:(discriminate)) as H2.
  rewrite <- E1 in H1. rewrite <- E2 in H2.
  assert (Hs : (c / 4096 < 16)%N) by (apply N.Div0.div_lt_upper_bound; exact H).
  rewrite (N.mod_small (c / 4096) 16 Hs).
  lia.
Qed.

Lemma mod16_lt (n : N) : (n mod 16 < 16)%N.
Proof. apply N.mod_upper_bound. discriminate. Qed.

(** Reading an escape [\uXXXX] gives the code unit back. *)
Lemma lex_UnicodeEscape (c : codeunit) (acc : jsstring) (ts : list token) :
  (c < 65536)%N ->
  fold_left lex_step (UnicodeEscape c) (LString acc, ts) = (LString (acc ++ [c]), ts).
Proof.
  intros H. unfold UnicodeEscape.
  cbn [fold_left]. 
  change (lex_step (LString acc, ts) 92%N) with (LEscape acc, ts).
  change (lex_step (LEscape acc, ts) 117%N) with (LUnicode acc [], ts).
  unfold lex_step at 4. rewrite (hexval_hexdigit (mod16_lt _)). cbn [app].
  unfold lex_step at 3. rewrite (hexval_hexdigit (mod16_lt _)). cbn [app].
  unfold lex_step at 2. rewrite (hexval_hexdigit (mod16_lt _)). cbn [app].
  unfold lex_step at 1. rewrite (hexval_hexdigit (mod16_lt _)).
  rewrite (hex4_value H). reflexivity.
Qed.

Lemma lex_verbatim (c : codeunit) (acc : jsstring) (ts : list token) :
  (c =? 34)%N = false -> (c =? 92)%N = false -> (c <? 32)%N = false ->
  lex_step (LString acc, ts) c = (LString (acc ++ [c]), ts).
Proof. intros H1 H2 H3. unfold lex_step. rewrite H1, H2, H3. reflexivity. Qed.

Lemma surrogate_verbatim (c : codeunit) :
  isLeadingSurrogate c || isTrailingSurrogate c = true ->
  (c =? 34)%N = false /\ (c =? 92)%N = false /\ (c <? 32)%N = false
  /\ (c < 65536)%N.
Proof.
  unfold isLeadingSurrogate, isTrailingSurrogate.
  rewrite orb_true_iff, !andb_true_iff, !N.leb_le.
  rewrite !N.eqb_neq, N.ltb_ge. lia.
Qed.

(** Reading what [quote_unit] wrote gives the code unit back. *)
Lemma lex_quote_unit (c : codeunit) (acc : jsstring) (ts : list token) :
  fold_left lex_step (quote_unit c) (LString acc, ts) = (LString (acc ++ [c]), ts).
Proof.
  unfold quote_unit.
  destruct (c =? 8)%N eqn:E8; [apply N.eqb_eq in E8; subst; reflexivity|].
  destruct (c =? 9)%N eqn:E9; [apply N.eqb_eq in E9; subst; reflexivity|].
  destruct (c =? 10)%N eqn:E10; [apply N.eqb_eq in E10; subst; reflexivity|].
  destruct (c =? 12)%N eqn:E12; [apply N.eqb_eq in E12; subst; reflexivity|].
  destruct (c =? 13)%N eqn:E13; [apply N.eqb_eq in E13; subst; reflexivity|].
  destruct (c =? 34)%N eqn:E34; [apply N.eqb_eq in E34; subst; reflexivity|].
  destruct (c =? 92)%N eqn:E92; [apply N.eqb_eq in E92; subst; reflexivity|].
  destruct (c <? 32)%N eqn:E32.
  - apply lex_UnicodeEscape. apply N.ltb_lt in E32. lia.
  - cbn [orb].
    destruct (isLeadingSurrogate c || isTrailingSurrogate c) eqn:Es.
    + apply lex_UnicodeEscape. apply surrogate_verbatim in Es. tauto.
    + cbn [fold_left]. apply lex_verbatim; assumption.
Qed.

Lemma quote_units_cons (c d : codeunit) (r : jsstring) :
  quote_units (c :: d :: r) =
  if isLeadingSurrogate c && isTrailingSurrogate d
  then c :: d :: quote_units r
  else quote_unit c ++ quote_units (d :: r).
Proof. reflexivity. Qed.

Lemma lex_quote_units (s : jsstring) (acc : jsstring) (ts : list token) :
  fold_left lex_step (quote_units s) (LString acc, ts) = (LString (acc ++ s), ts).
Proof.
  remember (List.length s) as n eqn:Hn.
  assert (Hle : List.length s <= n) by lia. clear Hn.
  revert s acc Hle.
  induction n as [|n IH]; intros s acc Hle.
  - destruct s; [|simpl in Hle; lia]. simpl. rewrite app_nil_r. reflexivity.
  - destruct s as [|c [|d r]].
    + simpl. rewrite app_nil_r. reflexivity.
    + apply lex_quote_unit.
    + rewrite quote_units_cons.
      destruct (isLeadingSurrogate c && isTrailingSurrogate d) eqn:Ep.
      * apply andb_true_iff in Ep. destruct Ep as [Hc Hd].
        assert (Hc' := surrogate_verbatim c ltac:(rewrite Hc; reflexivity)).
        assert (Hd' := surrogate_verbatim d ltac:(rewrite Hd; apply orb_true_r)).
        destruct Hc' as (c1 & c2 & c3 & _). destruct Hd' as (d1 & d2 & d3 & _).
        cbn [fold_left].
        rewrite lex_verbatim by assumption.
        rewrite lex_verbatim by assumption.
        rewrite IH by (simpl in Hle; lia).
        rewrite <- !app_assoc. reflexivity.
      * rewrite fold_left_app, lex_quote_unit.
        rewrite IH by (simpl in Hle |- *; lia).
        rewrite <- app_assoc. reflexivity.
Qed.

(** Reading what [print_token] wrote gives the token back. *)
Lemma lex_print_token (t : token) (ts : list token) :
  not_number t = true ->
  fold_left lex_step (print_token t) (LDefault, ts) = (LDefault, ts ++ [t]).
Proof.
  destruct t; intros H; try reflexivity; [|discriminate].
  unfold print_token, QuoteJSONString. cbn [fold_left].
  change (lex_step (LDefault, ts) 34%N) with (LString [], ts).
  rewrite fold_left_app, lex_quote_units. reflexivity.
Qed.

Lemma lex_print_tokens (l ts : list token) :
  forallb not_number l = true ->
  fold_left lex_step (concat (map print_token l)) (LDefault, ts)
  = (LDefault, ts ++ l).
Proof.
  revert ts; induction l as [|t l IH]; intros ts H; simpl.
  - rewrite app_nil_r; reflexivity.
  - simpl in H. apply andb_true_iff in H. destruct H as [Ht Hl].
    rewrite fold_left_app, lex_print_token by exact Ht.
    rewrite IH by exact Hl. rewrite <- app_assoc.
    reflexivity.
Qed.

Lemma tokens_JArray (x : json) (l : list json) :
  tokens (JArray (x :: l)) = TLBracket :: elems_tokens (x :: l).
Proof. reflexivity. Qed.

Lemma tokens_JObject (m : jsstring * json) (l : list (jsstring * json)) :
  tokens (JObject (m :: l)) = TLBrace :: membs_tokens (m :: l).
Proof. reflexivity. Qed.

(** Induction on a JSON value, with the property at hand for the
    elements of an array and for the values of the members of an
    object. *)
Lemma json_induction (P : json -> Prop) :
  P JNull -> (forall b, P (JBool b)) -> (forall l, P (JNumber l)) ->
  (forall s, P (JString s)) ->
  (forall vs, Forall P vs -> P (JArray vs)) ->
  (forall ms, Forall (fun m => P (snd m)) ms -> P (JObject ms)) ->
  forall v, P v.
Proof.
  intros Hnull Hbool Hnum Hstr Harr Hobj.
  fix IH 1. intros [| b | l | s | vs | ms].
  - exact Hnull.
  - apply Hbool.
  - apply Hnum.
  - apply Hstr.
  - apply Harr. induction vs as [|x vs IHvs]; constructor; [apply IH | exact IHvs].
  - apply Hobj. induction ms as [|[k x] ms IHms]; constructor;
      [apply IH | exact IHms].
Qed.

Lemma tokens_head (v : json) :
  exists t r, tokens v = t :: r /\ opens t = true.
Proof.
  destruct v as [| [|] | l | s | [|x vs] | [|m ms]];
    try (eexists; eexists; split; [reflexivity | reflexivity]).
Qed.

Lemma parse_value_open (fuel : nat) (t : token) (r : list token) :
  opens t = true ->
  parse_value (S fuel) (TLBracket :: t :: r) =
  match parse_elements fuel (t :: r) with
  | Some (vs, r') => Some (JArray vs, r')
  | None => None
  end.
Proof. destruct t; intros H; try discriminate H; reflexivity. Qed.

Lemma parse_value_open_brace (fuel : nat) (k : jsstring) (r : list token) :
  parse_value (S fuel) (TLBrace :: TString k :: r) =
  match parse_members fuel (TString k :: r) with
  | Some (ms, r') => Some (JObject ms, r')
  | None => None
  end.
Proof. reflexivity. Qed.

Lemma parse_tokens (v : json) :
  forall fuel rest,
    List.length (tokens v) <= fuel ->
    parse_value fuel (tokens v ++ rest) = Some (v, rest).
Proof.
  induction v as [| b | l | s | vs IHvs | ms IHms] using json_induction;
    intros fuel rest Hfuel.
  - destruct fuel; [simpl in Hfuel; lia | reflexivity].
  - destruct fuel; [simpl in Hfuel; destruct b; simpl in Hfuel; lia |].
    destruct b; reflexivity.
  - destruct fuel; [simpl in Hfuel; lia | reflexivity].
  - destruct fuel; [simpl in Hfuel; lia | reflexivity].
  - (* arrays *)
    assert (Helems : forall fuel rest,
              vs <> [] -> List.length (elems_tokens vs) <= fuel ->
              parse_elements fuel (elems_tokens vs ++ rest) = Some (vs, rest)).
    { clear fuel rest Hfuel.
      induction IHvs as [|x vs Hx Hvs IH]; intros fuel rest Hne Hfuel;
        [congruence|].
      destruct fuel as [|fuel];
        [destruct (tokens_head x) as (t & r & E & _);
         simpl in Hfuel; rewrite E in Hfuel; simpl in Hfuel; lia|].
      cbn [elems_tokens] in Hfuel |- *. rewrite length_app in Hfuel.
      cbn [parse_elements]. rewrite <- app_assoc.
      destruct vs as [|y vs].
      - rewrite Hx by (simpl in Hfuel; lia). reflexivity.
      - rewrite Hx by (simpl in Hfuel; lia). cbn [app].
        rewrite IH; [reflexivity | discriminate | simpl in Hfuel |- *; lia]. }
    destruct vs as [|x vs].
    + destruct fuel; [simpl in Hfuel; lia | reflexivity].
    + rewrite tokens_JArray in Hfuel |- *.
      destruct fuel as [|fuel]; [simpl in Hfuel; lia|].
      destruct (tokens_head x) as (t & r & E & Ht).
      cbn [app]. 
      assert (E' : elems_tokens (x :: vs) ++ rest
                   = t :: (r ++ match vs with
                                | [] => [TRBracket]
                                | _ :: _ => TComma :: elems_tokens vs
                                end ++ rest)).
      { cbn [elems_tokens]. rewrite E, <- app_assoc. reflexivity. }
      rewrite E', parse_value_open by exact Ht. rewrite <- E'.
      rewrite Helems;
        [reflexivity | discriminate | cbn [List.length] in Hfuel; lia].
  - (* objects *)
    assert (Hmembs : forall fuel rest,
              ms <> [] -> List.length (membs_tokens ms) <= fuel ->
              parse_members fuel (membs_tokens ms ++ rest) = Some (ms, rest)).
    { clear fuel rest Hfuel.
      induction IHms as [|[k x] ms Hx Hms IH]; intros fuel rest Hne Hfuel;
        [congruence|].
      destruct fuel as [|fuel]; [simpl in Hfuel; lia|].
      cbn [membs_tokens] in Hfuel |- *. cbn [List.length] in Hfuel.
      rewrite length_app in Hfuel.
      cbn [parse_members app]. rewrite <- app_assoc. simpl snd in Hx.
      destruct ms as [|y ms].
      - rewrite Hx by (simpl in Hfuel; lia). reflexivity.
      - rewrite Hx by (simpl in Hfuel; lia). cbn [app].
        rewrite IH; [reflexivity | discriminate | simpl in Hfuel |- *; lia]. }
    destruct ms as [|m ms].
    + destruct fuel; [simpl in Hfuel; lia | reflexivity].
    + rewrite tokens_JObject in Hfuel |- *.
      destruct fuel as [|fuel]; [simpl in Hfuel; lia|].
      destruct m as [k x]. cbn [app].
      assert (E' : membs_tokens ((k, x) :: ms) ++ rest
                   = TString k :: (TColon :: tokens x ++
                       match ms with
                       | [] => [TRBrace]
                       | _ :: _ => TComma :: membs_tokens ms
                       end) ++ rest) by reflexivity.
      rewrite E', parse_value_open_brace, <- E'.
      rewrite Hmembs;
        [reflexivity | discriminate | cbn [List.length] in Hfuel; lia].
Qed.

Lemma tokens_number_free (v : json) :
  number_free v = true -> forallb not_number (tokens v) = true.
Proof.
  induction v as [| b | l | s | vs IHvs | ms IHms] using json_induction;
    intros H; try reflexivity.
  - destruct b; reflexivity.
  - discriminate H.
  - assert (He : forallb number_free vs = true ->
                 forallb not_number (elems_tokens vs) = true).
    { clear H. induction IHvs as [|y l Hy Hl IH]; intros H; [reflexivity|].
      cbn [forallb] in H. apply andb_true_iff in H. destruct H as [H1 H2].
      cbn [elems_tokens]. rewrite forallb_app, (Hy H1). cbn [andb].
      destruct l as [|z l]; [reflexivity|].
      cbn [forallb not_number andb]. apply IH; exact H2. }
    destruct vs as [|x vs]; [reflexivity|].
    rewrite tokens_JArray. cbn [forallb not_number andb].
    apply He. exact H.
  - assert (He : forallb (fun m => number_free (snd m)) ms = true ->
                 forallb not_number (membs_tokens ms) = true).
    { clear H. induction IHms as [|[k y] l Hy Hl IH]; intros H; [reflexivity|].
      cbn [forallb snd] in H. apply andb_true_iff in H. destruct H as [H1 H2].
      cbn [membs_tokens forallb not_number andb]. cbn [snd] in Hy.
      rewrite forallb_app, (Hy H1). cbn [andb].
      destruct l as [|z l]; [reflexivity|].
      cbn [forallb not_number andb]. apply IH; exact H2. }
    destruct ms as [|m ms]; [reflexivity|].
    rewrite tokens_JObject. cbn [forallb not_number andb].
    apply He. exact H.
Qed.

(** [JSON.parse] reads back what [JSON.stringify] wrote. *)
Lemma JSON_parse_stringify (v : json) :
  number_free v = true -> JSON_parse (stringify v) = Some v.
Proof.
  intros H. unfold JSON_parse, stringify, lex.
  rewrite lex_print_tokens by (apply tokens_number_free; exact H).
  cbn [app lex_end].
  rewrite <- (app_nil_r (tokens v)) at 2.
  rewrite parse_tokens by lia. reflexivity.
Qed.

Lemma as_Goal_json (g : Goal) : as_Goal (Goal_json g) = Some g.
Proof. destruct g as [i d [t|] c]; reflexivity. Qed.

Lemma all_some_map {A B} (f : A -> B) (g : B -> option A) (l : list A) :
  (forall a, g (f a) = Some a) -> all_some (map g (map f l)) = Some l.
Proof.
  intros H. induction l as [|a l IH]; simpl; [reflexivity|].
  rewrite H, IH. reflexivity.
Qed.

Lemma as_StudyPlan_json (p : StudyPlan) :
  as_StudyPlan (StudyPlan_json p) = Some (Some p).
Proof.
  destruct p as [u gs ss t]. unfold StudyPlan_json, as_StudyPlan.
  cbn [userId goals subjects lastUpdated].
  change (get (js "userId") _) with (Some (JString u)).
  change (get (js "goals") _) with (Some (JArray (map Goal_json gs))).
  change (get (js "subjects") _) with (Some (JArray (map JString ss))).
  change (get (js "lastUpdated") _) with (Some (JString t)).
  cbv beta iota.
  rewrite (all_some_map Goal_json as_Goal gs as_Goal_json).
  rewrite (all_some_map JString as_string ss (fun s => eq_refl)).
  reflexivity.
Qed.

Lemma StudyPlan_json_number_free (p : StudyPlan) :
  number_free (StudyPlan_json p) = true.
Proof.
  unfold StudyPlan_json. cbn [number_free forallb snd andb].
  assert (Hg : forallb number_free (map Goal_json (goals p)) = true).
  { induction (goals p) as [|g gs IH]; [reflexivity|].
    cbn [map forallb]. rewrite IH.
    destruct g as [i d [t|] c]; reflexivity. }
  assert (Hs : forallb number_free (map JString (subjects p)) = true).
  { induction (subjects p) as [|s ss IH]; [reflexivity|].
    cbn [map forallb]. rewrite IH. reflexivity. }
  rewrite Hg, Hs. reflexivity.
Qed.

Lemma JSON_parse_StudyPlan_stringify (p : StudyPlan) :
  JSON_parse_StudyPlan (JSON_stringify p) = Some (Ok (Some p)).
Proof.
  unfold JSON_parse_StudyPlan, JSON_stringify.
  rewrite JSON_parse_stringify by apply StudyPlan_json_number_free.
  rewrite as_StudyPlan_json. reflexivity.
Qed.

(** ** Loading *)

Lemma JSON_stringify_truthy (p : StudyPlan) :
  exists c r, JSON_stringify p = c :: r.
Proof. eexists. eexists. reflexivity. Qed.

(** Nothing stored, and the storage takes the write. *)
Lemma mount_absent_written (clock : nat -> jsstring) (st : Storage) :
  readable st = true -> item st = None \/ item st = Some [] ->
  writable st = true ->
  exists w, mount clock st = Some w
    /\ studyPlan w = Some (defaultPlan (clock 0))
    /\ item (localStorage w) = Some (JSON_stringify (defaultPlan (clock 0)))
    /\ studyPlannerError w = None.
Proof.
  intros Hr Hi Hw.
  assert (E : loadEffect clock (initial st)
              = Some (try_catch (createDefaultPlan clock) onLoadError (initial st))).
  { unfold loadEffect, getItem. simpl. rewrite Hr.
    destruct Hi as [-> | ->]; reflexivity. }
  unfold mount. rewrite E. eexists. split; [reflexivity|].
  unfold try_catch, try_catch_finally, createDefaultPlan, bind, now, lift,
    setItem, commit, saveEffect. simpl. rewrite Hw. simpl.
  repeat split.
Qed.

(** Nothing stored, and the storage refuses the write. *)
Lemma mount_absent_refused (clock : nat -> jsstring) (st : Storage) :
  readable st = true -> item st = None \/ item st = Some [] ->
  writable st = false ->
  exists w w', loadEffect clock (initial st) = Some w
    /\ studyPlannerError w = Some load_error
    /\ mount clock st = Some w'
    /\ studyPlan w' = Some (defaultPlan (clock 0))
    /\ localStorage w' = st
    /\ studyPlannerError w' <> None.
Proof.
  intros Hr Hi Hw.
  assert (E : loadEffect clock (initial st)
              = Some (try_catch (createDefaultPlan clock) onLoadError (initial st))).
  { unfold loadEffect, getItem. simpl. rewrite Hr.
    destruct Hi as [-> | ->]; reflexivity. }
  unfold mount. rewrite E. eexists. eexists.
  split; [reflexivity|].
  assert (Hdef : try_catch (createDefaultPlan clock) onLoadError (initial st)
                 = onLoadError QuotaExceededError
                     (store_plan (defaultPlan (clock 0))
                        (bump_clock (initial st)))).
  { unfold try_catch, try_catch_finally, createDefaultPlan, bind, now, lift,
      setItem. simpl. rewrite Hw. reflexivity. }
  rewrite Hdef.
  split; [reflexivity|]. split; [reflexivity|].
  unfold commit, saveEffect, try_catch, try_catch_finally, setItem. simpl.
  rewrite Hw. simpl.
  split; [reflexivity|]. split; [reflexivity | discriminate].
Qed.

(** A stored text that is not JSON. *)
Lemma mount_unparsable (clock : nat -> jsstring) (st : Storage) (text : jsstring) :
  readable st = true -> item st = Some text -> text <> [] ->
  JSON_parse text = None ->
  mount clock st = Some (load_failed st).
Proof.
  intros Hr Hi Ht Hp.
  unfold mount, loadEffect, getItem. simpl. rewrite Hr, Hi.
  destruct text as [|c r]; [congruence|].
  unfold JSON_parse_StudyPlan. rewrite Hp. reflexivity.
Qed.

(** A storage that cannot be read. *)
Lemma mount_unreadable (clock : nat -> jsstring) (st : Storage) :
  readable st = false -> mount clock st = Some (load_failed st).
Proof.
  intros Hr. unfold mount, loadEffect, getItem. simpl. rewrite Hr.
  reflexivity.
Qed.

(** With nothing stored the plan, if there is one, has no subjects. *)
Lemma mount_absent_subjects (clock : nat -> jsstring) (st : Storage) (w : World) :
  item st = None \/ item st = Some [] ->
  mount clock st = Some w -> currentSubjects w = [].
Proof.
  intros Hi Hm. destruct (readable st) eqn:Hr.
  - destruct (writable st) eqn:Hw.
    + destruct (mount_absent_written clock st Hr Hi Hw) as (w1 & E & Hp & _).
      rewrite E in Hm. injection Hm as <-.
      unfold currentSubjects. rewrite Hp. reflexivity.
    + destruct (mount_absent_refused clock st Hr Hi Hw)
        as (w0 & w1 & _ & _ & E & Hp & _).
      rewrite E in Hm. injection Hm as <-.
      unfold currentSubjects. rewrite Hp. reflexivity.
  - rewrite (mount_unreadable clock st Hr) in Hm. injection Hm as <-.
    reflexivity.
Qed.

(* ===================================================================== *)
(** * The properties of the store *)
(* ===================================================================== *)

Example mounted_plan :
  studyPlan mounted = Some (defaultPlan (js "2025-01-01T00:00:00.000Z")).
Proof. reflexivity. Qed.

Example scenario_master_react_hooks :
  currentGoals
    (P_step (addGoal (js "Master React Hooks") (js "2025-06-01")) mounted)
  = [ {| id := js "00000000-0000-4000-8000-000000000000";
         description := js "Master React Hooks";
         targetDate := Some (js "2025-06-01T00:00:00.000Z");
         completed := false |} ].
Proof. vm_compute. reflexivity. Qed.

Example scenario_biology_twice :
  currentSubjects
    (P_run [addSubject (js "Biology"); addSubject (js "Biology")] mounted)
  = [js "Biology"].
Proof. vm_compute. reflexivity. Qed.

Section Claims.

Variable uuidv4 : nat -> jsstring.
Variable clock : nat -> jsstring.
Variable Date_parse : jsstring -> option Z.
Variable toISOString : Z -> jsstring.

Local Abbreviation step := (step uuidv4 clock Date_parse toISOString).
Local Abbreviation run := (run uuidv4 clock Date_parse toISOString).
Local Abbreviation handler := (handler uuidv4 clock Date_parse toISOString).
Local Abbreviation stored_date := (stored_date Date_parse toISOString).
Local Abbreviation added_goals := (added_goals uuidv4 Date_parse toISOString).
Local Abbreviation fresh_ids := (fresh_ids uuidv4).
Local Abbreviation goals_after := (goals_after uuidv4 Date_parse toISOString).
Local Abbreviation newGoal_of := (newGoal_of uuidv4).

(** C1. After any sequence of operations in which identifiers are
    fresh, the goals are those that were there and those added, less
    the ones deleted afterwards, in the order of insertion; the
    [completed] flag of an added goal is [false] xor the parity of
    the number of [toggleGoal] calls made with its id, that of a goal
    that was there is its old flag xor that parity.  Toggling twice
    with the same id gives the list of goals back. *)
Theorem C1_goals_after_operations (ops : list Op) (w : World) :
  fresh_ids [] (uuid_calls w) ops = true ->
  currentGoals (run ops w)
    = kept_goals ops (currentGoals w) ++ added_goals ops (uuid_calls w) ops
  /\ (currentGoals w = [] ->
      currentGoals (run ops w) = added_goals ops (uuid_calls w) ops)
  /\ (forall i,
      currentGoals (step (toggleGoal i) (step (toggleGoal i) w))
      = currentGoals w).
Proof.
  intros Hfresh.
  assert (H : currentGoals (run ops w)
              = kept_goals ops (currentGoals w)
                  ++ added_goals ops (uuid_calls w) ops).
  { apply (run_goals uuidv4 clock Date_parse toISOString ops [] [] w).
    - intros i _. reflexivity.
    - exact Hfresh. }
  split; [exact H|]. split.
  - intros E. rewrite H, E. reflexivity.
  - intros i. rewrite !currentGoals_step. cbn [goals_after].
    rewrite map_map. rewrite <- (map_id (currentGoals w)) at 2.
    apply map_ext. intros g.
    destruct (str_eqb (id g) i) eqn:E; cbn [flip id]; rewrite E;
      [apply flip_flip | reflexivity].
Qed.


(** What the store holds after a submission with an invalid date. *)
Lemma step_addGoal_invalid_date (d t : jsstring) (w : World) :
  trim d <> [] -> stored_date t = None ->
  step (addGoal d t) w =
  setLoading false
    (setStudyPlannerError (Some (js "Failed to add goal."))
       (bump_uuid (setLoading true
          (setNewGoalTargetDate t (setNewGoalDescription d w))))).
Proof.
  intros Hd Ht. unfold step, handler.
  rewrite handleAddGoal_invalid_date by assumption.
  unfold commit. simpl. rewrite Nat.eqb_refl. reflexivity.
Qed.

Lemma NoDup_snoc {A} (l : list A) (x : A) :
  NoDup l -> ~ In x l -> NoDup (l ++ [x]).
Proof.
  intros Hl Hx. apply NoDup_app; [exact Hl | repeat constructor; intros [] | ].
  intros y Hy [<-|[]]. exact (Hx Hy).
Qed.

(** C3 (amended). A submission whose description does not trim to the
    empty string draws the next identifier from [uuidv4].  With an
    empty date field, or a date that parses, it appends a goal with
    that id, the trimmed description, [completed = false] and the date
    as [null] or as the ISO string of the parsed date, and sets no
    error.  With a date that does not parse the operation fails: the
    plan is as before and the banner reads "Failed to add goal.".  An
    identifier that no goal carries keeps the ids distinct. *)
Theorem C3_addGoal_constructs_goal (d t : jsstring) (w : World) :
  trim d <> [] ->
  let w' := step (addGoal d t) w in
  let goal date :=
    {| id := uuidv4 (uuid_calls w); description := trim d;
       targetDate := date; completed := false |} in
  uuid_calls w' = S (uuid_calls w)
  /\ (t = [] ->
      currentGoals w' = currentGoals w ++ [goal None]
      /\ studyPlannerError (handler (addGoal d t) w) = studyPlannerError w)
  /\ (forall z, t <> [] -> Date_parse t = Some z ->
      currentGoals w' = currentGoals w ++ [goal (Some (toISOString z))]
      /\ studyPlannerError (handler (addGoal d t) w) = studyPlannerError w)
  /\ (t <> [] -> Date_parse t = None ->
      studyPlan w' = studyPlan w
      /\ studyPlannerError w' = Some (js "Failed to add goal."))
  /\ ((forall g, In g (currentGoals w) -> id g <> uuidv4 (uuid_calls w)) ->
      NoDup (map id (currentGoals w)) -> NoDup (map id (currentGoals w'))).
Proof.
  intros Hd w' goal. subst w'.
  assert (Hw1 : trim (newGoalDescription
                  (setNewGoalTargetDate t (setNewGoalDescription d w))) <> [])
    by exact Hd.
  assert (Hg : currentGoals (step (addGoal d t) w)
               = match stored_date t with
                 | Some date => currentGoals w ++ [goal date]
                 | None => currentGoals w
                 end).
  { rewrite currentGoals_step. cbn [goals_after].
    destruct (trim d) as [|c r] eqn:E; [congruence|].
    destruct (stored_date t); reflexivity. }
  assert (He : forall date, stored_date t = Some date ->
               studyPlannerError (handler (addGoal d t) w) = studyPlannerError w).
  { intros date D. unfold handler.
    rewrite (handleAddGoal_ok uuidv4 clock Date_parse toISOString _ Hw1 D).
    reflexivity. }
  split; [|split; [|split; [|split]]].
  - rewrite uuid_calls_step. cbn [uuids_after].
    destruct (trim d); [congruence | reflexivity].
  - intros ->. rewrite Hg. split; [reflexivity | apply (He None); reflexivity].
  - intros z Ht Hz.
    assert (D : stored_date t = Some (Some (toISOString z))).
    { unfold stored_date. destruct t; [congruence|]. rewrite Hz.
      reflexivity. }
    rewrite Hg, D. split; [reflexivity | apply (He _ D)].
  - intros Ht Hz.
    assert (D : stored_date t = None).
    { unfold stored_date. destruct t; [congruence|]. rewrite Hz.
      reflexivity. }
    rewrite step_addGoal_invalid_date by assumption. split; reflexivity.
  - intros Hnew Hnd. rewrite Hg. destruct (stored_date t); [|exact Hnd].
    rewrite map_app. apply NoDup_snoc; [exact Hnd|].
    cbn [map id goal]. intros Hin. apply in_map_iff in Hin.
    destruct Hin as (g & Eg & Hin). exact (Hnew g Hin Eg).
Qed.



Lemma currentSubjects_commit (w w' : World) :
  currentSubjects (commit w w') = currentSubjects w'.
Proof. unfold currentSubjects. rewrite commit_studyPlan. reflexivity. Qed.

Lemma currentSubjects_step (o : Op) (w : World) :
  currentSubjects (step o w) = subjects_after o (currentSubjects w).
Proof.
  unfold step. rewrite currentSubjects_commit.
  destruct o as [d t|i|i|s|s]; cbn [handler subjects_after].
  - set (w1 := setNewGoalTargetDate t (setNewGoalDescription d w)).
    destruct (trim d) as [|c r] eqn:E.
    + rewrite handleAddGoal_blank; [reflexivity | exact E].
    + assert (Hd : trim (newGoalDescription w1) <> []) by (simpl; congruence).
      destruct (stored_date t) as [date|] eqn:D.
      * rewrite (handleAddGoal_ok uuidv4 clock Date_parse toISOString w1 Hd D).
        unfold currentSubjects, plan_or_default; simpl.
        destruct (studyPlan w); reflexivity.
      * rewrite (handleAddGoal_invalid_date uuidv4 clock Date_parse toISOString w1 Hd D).
        reflexivity.
  - unfold currentSubjects. destruct (studyPlan w) as [p|] eqn:E.
    + rewrite (handleToggleGoalCompletion_Some clock i w E). reflexivity.
    + unfold handleToggleGoalCompletion. rewrite E, E. reflexivity.
  - unfold currentSubjects. destruct (studyPlan w) as [p|] eqn:E.
    + rewrite (handleDeleteGoal_Some clock i w E). reflexivity.
    + unfold handleDeleteGoal. rewrite E, E. reflexivity.
  - set (w1 := setNewSubject s w).
    destruct (trim s) as [|c r] eqn:E.
    + rewrite handleAddSubject_blank; [reflexivity | exact E].
    + assert (Hd : trim (newSubject w1) <> []) by (simpl; congruence).
      rewrite (handleAddSubject_ok clock w1 Hd).
      unfold currentSubjects; simpl. rewrite E. reflexivity.
  - unfold currentSubjects. destruct (studyPlan w) as [p|] eqn:E.
    + rewrite (handleDeleteSubject_Some clock s w E). reflexivity.
    + unfold handleDeleteSubject. rewrite E, E. reflexivity.
Qed.

Lemma filter_none (x : jsstring) (l : list jsstring) :
  ~ In x l -> filter (str_eqb x) l = [].
Proof.
  induction l as [|y l IH]; intros H; [reflexivity|]. cbn [filter].
  destruct (str_eqb x y) eqn:E.
  - apply str_eqb_eq in E. subst. destruct H. left. reflexivity.
  - apply IH. intros Hin. apply H. right. exact Hin.
Qed.

Lemma NoDup_occurs_once (x : jsstring) (l : list jsstring) :
  NoDup l -> In x l -> List.length (filter (str_eqb x) l) = 1.
Proof.
  induction 1 as [|y l Hy Hl IH]; intros Hin; [destruct Hin|].
  cbn [filter]. destruct (str_eqb x y) eqn:E.
  - apply str_eqb_eq in E. subst. rewrite filter_none by exact Hy. reflexivity.
  - apply IH. destruct Hin as [->|Hin]; [|exact Hin].
    rewrite str_eqb_refl in E. discriminate.
Qed.

(** C5. [addSubject] with a name that does not trim to the empty string
    appends the trimmed name to the subjects and removes the
    duplicates, keeping first occurrences in their order.  The result
    has no duplicates and holds the old subjects and the name; adding
    the same name again changes nothing, and the name occurs once.  On
    subjects without duplicates the name goes to the end when it is
    new and the list stays as it is when it is not. *)
Theorem C5_addSubject (name : jsstring) (w : World) :
  trim name <> [] ->
  let w1 := step (addSubject name) w in
  let w2 := step (addSubject name) w1 in
  currentSubjects w1 = dedup_first (currentSubjects w ++ [trim name])
  /\ NoDup (currentSubjects w1)
  /\ (forall x, In x (currentSubjects w1)
                <-> In x (currentSubjects w) \/ x = trim name)
  /\ currentSubjects w2 = currentSubjects w1
  /\ List.length (filter (str_eqb (trim name)) (currentSubjects w2)) = 1
  /\ (NoDup (currentSubjects w) ->
      currentSubjects w1 =
      if existsb (str_eqb (trim name)) (currentSubjects w)
      then currentSubjects w
      else currentSubjects w ++ [trim name]).
Proof.
  intros Hn w1 w2.
  assert (H1 : currentSubjects w1 = dedup_first (currentSubjects w ++ [trim name])).
  { subst w1. rewrite currentSubjects_step. cbn [subjects_after].
    destruct (trim name); [congruence | apply new_Set_dedup_first]. }
  assert (Hnd : NoDup (currentSubjects w1))
    by (rewrite H1; apply dedup_first_NoDup).
  assert (Hin : In (trim name) (currentSubjects w1)).
  { rewrite H1. apply dedup_first_In, in_or_app. right. left. reflexivity. }
  assert (H2 : currentSubjects w2 = currentSubjects w1).
  { subst w2. rewrite currentSubjects_step. cbn [subjects_after].
    destruct (trim name) as [|c r] eqn:E; [congruence|]. rewrite <- E in *.
    rewrite new_Set_dedup_first, dedup_first_snoc, (dedup_first_id Hnd).
    apply existsb_str_eqb in Hin. rewrite Hin. apply app_nil_r. }
  split; [exact H1|]. split; [exact Hnd|]. split; [|split; [exact H2|split]].
  - intros x. rewrite H1, dedup_first_In, in_app_iff. simpl.
    intuition congruence.
  - rewrite H2. apply NoDup_occurs_once; assumption.
  - intros Hw. rewrite H1, dedup_first_snoc, (dedup_first_id Hw).
    destruct (existsb (str_eqb (trim name)) (currentSubjects w));
      [apply app_nil_r | reflexivity].
Qed.

(** C7. A goal description, or a subject name, made of white space only
    is ignored: the store after the submission is the store with the
    text typed into the form; the plan with its [lastUpdated], the
    error banner and the storage are as they were. *)
Theorem C7_blank_submission_ignored (d t name : jsstring) (w : World) :
  forallb isWhiteSpace d = true ->
  forallb isWhiteSpace name = true ->
  (step (addGoal d t) w = setNewGoalTargetDate t (setNewGoalDescription d w)
   /\ studyPlan (step (addGoal d t) w) = studyPlan w
   /\ studyPlannerError (step (addGoal d t) w) = studyPlannerError w
   /\ localStorage (step (addGoal d t) w) = localStorage w)
  /\ (step (addSubject name) w = setNewSubject name w
      /\ studyPlan (step (addSubject name) w) = studyPlan w
      /\ studyPlannerError (step (addSubject name) w) = studyPlannerError w
      /\ localStorage (step (addSubject name) w) = localStorage w).
Proof.
  intros Hd Hn. apply trim_blank in Hd. apply trim_blank in Hn.
  assert (H1 : step (addGoal d t) w
               = setNewGoalTargetDate t (setNewGoalDescription d w)).
  { unfold step, handler. rewrite handleAddGoal_blank by exact Hd.
    unfold commit. simpl. rewrite Nat.eqb_refl. reflexivity. }
  assert (H2 : step (addSubject name) w = setNewSubject name w).
  { unfold step, handler. rewrite handleAddSubject_blank by exact Hn.
    unfold commit. simpl. rewrite Nat.eqb_refl. reflexivity. }
  rewrite H1, H2. repeat split.
Qed.

(** C9. The subjects hold no string twice: this is so in the store
    before the load, in the default plan and in the store mounted on a
    storage that holds no plan, and every operation, hence every
    sequence of operations, keeps it so. *)
Theorem C9_subjects_without_duplicates (ops : list Op) (w : World) :
  NoDup (currentSubjects w) ->
  (forall st, NoDup (currentSubjects (initial st)))
  /\ (forall t, NoDup (subjects (defaultPlan t)))
  /\ (forall st w0, item st = None \/ item st = Some [] ->
       mount clock st = Some w0 -> NoDup (currentSubjects w0))
  /\ (forall o, NoDup (currentSubjects (step o w)))
  /\ NoDup (currentSubjects (run ops w)).
Proof.
  assert (Hstep : forall o w', NoDup (currentSubjects w') ->
                               NoDup (currentSubjects (step o w'))).
  { intros o w' H. rewrite currentSubjects_step.
    destruct o as [d t|i|i|s|s]; cbn [subjects_after]; try exact H.
    - destruct (trim s); [exact H|].
      rewrite new_Set_dedup_first. apply dedup_first_NoDup.
    - apply NoDup_filter. exact H. }
  intros H. split; [|split; [|split; [|split]]].
  - intros st. constructor.
  - intros t. constructor.
  - intros st w0 Hi Hm. rewrite (mount_absent_subjects clock st Hi Hm).
    constructor.
  - intros o. apply Hstep. exact H.
  - revert w H. induction ops as [|o ops IH]; intros w H; [exact H|].
    rewrite run_cons. apply IH, Hstep, H.
Qed.

Lemma step_without_plan (o : Op) (w : World) :
  studyPlan w = None ->
  match o with
  | toggleGoal _ | deleteGoal _ | deleteSubject _ => step o w = w
  | _ => True
  end.
Proof.
  intros E. destruct o; try exact I; unfold step, handler.
  - unfold handleToggleGoalCompletion. rewrite E. apply commit_same.
  - unfold handleDeleteGoal. rewrite E. apply commit_same.
  - unfold handleDeleteSubject. rewrite E. apply commit_same.
Qed.

(** C10. With no plan in memory, [addGoal] and [addSubject] do not
    fail: they build the default plan (the fixed user, no goals, no
    subjects) and store it with the goal, or the subject, added and
    [lastUpdated] set to the time of the operation; [toggleGoal],
    [deleteGoal] and [deleteSubject] leave the store exactly as it
    is. *)
Theorem C10_operations_without_a_plan
    (d t name i : jsstring) (date : option jsstring) (w : World) :
  studyPlan w = None ->
  trim d <> [] -> stored_date t = Some date ->
  trim name <> [] ->
  studyPlan (step (addGoal d t) w)
    = Some {| userId := Fixed.userId;
              goals := [ {| id := uuidv4 (uuid_calls w); description := trim d;
                            targetDate := date; completed := false |} ];
              subjects := [];
              lastUpdated := clock (S (clock_reads w)) |}
  /\ studyPlan (step (addSubject name) w)
     = Some {| userId := Fixed.userId; goals := [];
               subjects := [trim name];
               lastUpdated := clock (S (clock_reads w)) |}
  /\ step (toggleGoal i) w = w
  /\ step (deleteGoal i) w = w
  /\ step (deleteSubject name) w = w.
Proof.
  intros E Hd D Hn. split; [|split; [|split; [|split]]].
  - unfold step, handler. rewrite commit_studyPlan.
    set (w1 := setNewGoalTargetDate t (setNewGoalDescription d w)).
    assert (Hd1 : trim (newGoalDescription w1) <> []) by exact Hd.
    rewrite (handleAddGoal_ok uuidv4 clock Date_parse toISOString w1 Hd1 D).
    unfold plan_or_default, default_reads, newGoal_of; simpl. rewrite E.
    reflexivity.
  - unfold step, handler. rewrite commit_studyPlan.
    set (w1 := setNewSubject name w).
    assert (Hn1 : trim (newSubject w1) <> []) by exact Hn.
    rewrite (handleAddSubject_ok clock w1 Hn1).
    unfold plan_or_default, default_reads, currentSubjects; simpl. rewrite E.
    reflexivity.
  - exact (step_without_plan (toggleGoal i) w E).
  - exact (step_without_plan (deleteGoal i) w E).
  - exact (step_without_plan (deleteSubject name) w E).
Qed.

End Claims.

(** ** Derived metrics *)

(** *** Binary64 quotients of counts *)

Section Binary64.

Local Open Scope Z_scope.

Lemma digits2_pos_bounds (p : positive) :
  2 ^ (Z.pos (digits2_pos p) - 1) <= Z.pos p < 2 ^ Z.pos (digits2_pos p).
Proof.
  induction p as [p IH|p IH|]; cbn [digits2_pos]; [| |simpl; lia];
    set (d := Z.pos (digits2_pos p)) in *;
    rewrite Pos2Z.inj_succ; fold d;
    replace (Z.succ d - 1) with d by lia;
    rewrite Z.pow_succ_r by lia;
    assert (E : 2 ^ d = 2 * 2 ^ (d - 1))
      by (rewrite <- Z.pow_succ_r by lia; f_equal; lia);
    lia.
Qed.

Lemma digits2_pos_unique (p : positive) (d : Z) :
  2 ^ (d - 1) <= Z.pos p < 2 ^ d -> Z.pos (digits2_pos p) = d.
Proof.
  intros [Hl Hu]. pose proof (digits2_pos_bounds p) as [Bl Bu].
  assert (0 < d).
  { destruct (Z.ltb_spec 0 d) as [|Hd]; [assumption|].
    assert (2 ^ d <= 2 ^ 0) by (destruct (Z.eq_dec d 0) as [->|]; [lia|rewrite Z.pow_neg_r by lia; simpl; lia]).
    simpl in *. lia. }
  destruct (Z.lt_trichotomy (Z.pos (digits2_pos p)) d) as [L|[E|G]]; [|exact E|].
  - assert (2 ^ Z.pos (digits2_pos p) <= 2 ^ (d - 1)) by (apply Z.pow_le_mono_r; lia). lia.
  - assert (2 ^ d <= 2 ^ (Z.pos (digits2_pos p) - 1)) by (apply Z.pow_le_mono_r; lia). lia.
Qed.

Lemma fexp_normal (e : Z) : -1021 <= e -> fexp binary64_prec binary64_emax e = e - 53.
Proof. intros H. unfold fexp, emin, binary64_prec, binary64_emax. lia. Qed.

Lemma loc_of_shr_record_of_loc (m : Z) (l : location) :
  loc_of_shr_record (shr_record_of_loc m l) = l.
Proof. destruct l as [|[| |]]; reflexivity. Qed.

Lemma shr_m_of_loc (m : Z) (l : location) : shr_m (shr_record_of_loc m l) = m.
Proof. destruct l as [|[| |]]; reflexivity. Qed.

Lemma shr_fexp_53 (m : positive) (e : Z) (l : location) :
  2 ^ 52 <= Z.pos m < 2 ^ 53 -> -1000 <= e ->
  shr_fexp binary64_prec binary64_emax (Z.pos m) e l = (shr_record_of_loc (Z.pos m) l, e).
Proof.
  intros Hm He. unfold shr_fexp. cbn [Zdigits2].
  rewrite (@digits2_pos_unique m 53) by exact Hm.
  rewrite fexp_normal by lia.
  replace (53 + e - 53 - e) with 0 by lia. reflexivity.
Qed.

Lemma shr_1_m (m : positive) (r s : bool) :
  shr_m (shr_1 {| shr_m := Z.pos m; shr_r := r; shr_s := s |}) = Z.pos m / 2.
Proof.
  destruct m as [p|p|]; cbn [shr_1 shr_m].
  - rewrite Pos2Z.inj_xI. apply Z.div_unique with (r := 1); lia.
  - rewrite Pos2Z.inj_xO. apply Z.div_unique with (r := 0); lia.
  - reflexivity.
Qed.

Lemma shr_fexp_54 (m : positive) (e : Z) (l : location) :
  2 ^ 53 <= Z.pos m < 2 ^ 54 -> -1000 <= e ->
  shr_fexp binary64_prec binary64_emax (Z.pos m) e l = (shr_1 (shr_record_of_loc (Z.pos m) l), e + 1).
Proof.
  intros Hm He. unfold shr_fexp. cbn [Zdigits2].
  rewrite (@digits2_pos_unique m 54) by exact Hm.
  rewrite fexp_normal by lia.
  replace (54 + e - 53 - e) with 1 by lia. reflexivity.
Qed.

Lemma round_nearest_even_cases (m : Z) (l : location) :
  round_nearest_even m l = m \/ round_nearest_even m l = m + 1.
Proof.
  destruct l as [|[| |]]; cbn [round_nearest_even]; auto.
  destruct (Z.even m); auto.
Qed.

Lemma below_le (e1 e2 : Z) (r : Number) : e1 <= e2 -> below e1 r -> below e2 r.
Proof.
  intros H (m & e' & E & [L|(Ee & Em)]); exists m, e'; split; try exact E.
  - left. lia.
  - destruct (Z.eq_dec e1 e2); [right; split; [lia | exact Em] | left; lia].
Qed.

(** Rounding a mantissa of 53 bits, with what is beyond it at [l]. *)
Lemma round_53 (m : positive) (e : Z) (l : location) :
  2 ^ 52 <= Z.pos m < 2 ^ 53 -> -1000 <= e <= 900 ->
  below (e + 1) (binary_round_aux binary64_prec binary64_emax false (Z.pos m) e l).
Proof.
  intros Hm He. unfold binary_round_aux.
  rewrite shr_fexp_53 by (try exact Hm; lia).
  rewrite loc_of_shr_record_of_loc, shr_m_of_loc.
  destruct (round_nearest_even_cases (Z.pos m) l) as [-> | ->].
  - rewrite shr_fexp_53 by (try exact Hm; lia). cbn [shr_record_of_loc shr_m].
    destruct (Z.leb_spec e (binary64_emax - binary64_prec)) as [_|H]; [|unfold binary64_emax, binary64_prec in H; lia].
    exists m, e. split; [reflexivity | left; lia].
  - destruct (Z.eq_dec (Z.pos m + 1) (2 ^ 53)) as [E|N].
    + rewrite E. change (2 ^ 53) with (Z.pos 9007199254740992).
      rewrite shr_fexp_54 by (simpl; lia).
      cbn [shr_record_of_loc shr_1 shr_m].
      destruct (Z.leb_spec (e + 1) (binary64_emax - binary64_prec)) as [_|H]; [|unfold binary64_emax, binary64_prec in H; lia].
      eexists _, _. split; [reflexivity | right; split; reflexivity].
    + assert (Hm' : 2 ^ 52 <= Z.pos (m + 1) < 2 ^ 53) by lia.
      change (Z.pos m + 1) with (Z.pos (m + 1)).
      rewrite shr_fexp_53 by (try exact Hm'; lia). cbn [shr_record_of_loc shr_m].
      destruct (Z.leb_spec e (binary64_emax - binary64_prec)) as [_|H]; [|unfold binary64_emax, binary64_prec in H; lia].
      exists (m + 1)%positive, e. split; [reflexivity | left; lia].
Qed.

(** Rounding a mantissa of 54 bits. *)
Lemma round_54 (m : positive) (e : Z) (l : location) :
  2 ^ 53 <= Z.pos m < 2 ^ 54 -> -1000 <= e <= 900 ->
  below (e + 2) (binary_round_aux binary64_prec binary64_emax false (Z.pos m) e l).
Proof.
  intros Hm He. unfold binary_round_aux.
  rewrite shr_fexp_54 by (try exact Hm; lia).
  set (mrs := shr_1 (shr_record_of_loc (Z.pos m) l)).
  assert (Hh : shr_m mrs = Z.pos m / 2).
  { subst mrs. destruct l as [|[| |]]; apply shr_1_m. }
  assert (Hb : 2 ^ 52 <= Z.pos m / 2 < 2 ^ 53).
  { change (2 ^ 54) with (2 * 2 ^ 53) in Hm. change (2 ^ 53) with (2 * 2 ^ 52) in Hm at 1.
    split; [apply Z.div_le_lower_bound; lia | apply Z.div_lt_upper_bound; lia]. }
  rewrite Hh.
  destruct (Z.pos m / 2) as [|h|h] eqn:Eh; try lia.
  destruct (round_nearest_even_cases (Z.pos h) (loc_of_shr_record mrs)) as [-> | ->].
  - rewrite shr_fexp_53 by (try exact Hb; lia). cbn [shr_record_of_loc shr_m].
    destruct (Z.leb_spec (e + 1) (binary64_emax - binary64_prec)) as [_|H]; [|unfold binary64_emax, binary64_prec in H; lia].
    exists h, (e + 1). split; [reflexivity | left; lia].
  - destruct (Z.eq_dec (Z.pos h + 1) (2 ^ 53)) as [E|N].
    + rewrite E. change (2 ^ 53) with (Z.pos 9007199254740992).
      rewrite shr_fexp_54 by (simpl; lia).
      cbn [shr_record_of_loc shr_1 shr_m].
      destruct (Z.leb_spec (e + 1 + 1) (binary64_emax - binary64_prec)) as [_|H]; [|unfold binary64_emax, binary64_prec in H; lia].
      eexists _, _. split; [reflexivity | right; split; [lia | reflexivity]].
    + assert (Hm' : 2 ^ 52 <= Z.pos (h + 1) < 2 ^ 53) by lia.
      change (Z.pos h + 1) with (Z.pos (h + 1)).
      rewrite shr_fexp_53 by (try exact Hm'; lia). cbn [shr_record_of_loc shr_m].
      destruct (Z.leb_spec (e + 1) (binary64_emax - binary64_prec)) as [_|H]; [|unfold binary64_emax, binary64_prec in H; lia].
      exists (h + 1)%positive, (e + 1). split; [reflexivity | left; lia].
Qed.

Lemma round_exact (m : positive) (e : Z) :
  2 ^ 52 <= Z.pos m < 2 ^ 53 -> -1000 <= e <= 900 ->
  binary_round_aux binary64_prec binary64_emax false (Z.pos m) e loc_Exact = S754_finite false m e.
Proof.
  intros Hm He. unfold binary_round_aux.
  rewrite shr_fexp_53 by (try exact Hm; lia).
  cbn [shr_record_of_loc loc_of_shr_record shr_m round_nearest_even].
  rewrite shr_fexp_53 by (try exact Hm; lia).
  cbn [shr_record_of_loc shr_m].
  destruct (Z.leb_spec e (binary64_emax - binary64_prec)) as [_|H]; [|unfold binary64_emax, binary64_prec in H; lia].
  reflexivity.
Qed.

Lemma iter_xO (p k : positive) : Z.pos (Pos.iter xO p k) = Z.pos p * 2 ^ Z.pos k.
Proof.
  induction k as [|k IH] using Pos.peano_ind.
  - simpl. lia.
  - rewrite Pos.iter_succ, Pos2Z.inj_xO, IH, Pos2Z.inj_succ, Z.pow_succ_r by lia. lia.
Qed.

(** A count below [2 ^ 53] is a double, exactly. *)
Lemma number_finite (n : nat) :
  (0 < n)%nat -> Z.of_nat n < 2 ^ 53 ->
  exists m e, number n = S754_finite false m e
              /\ 2 ^ 52 <= Z.pos m < 2 ^ 53 /\ -52 <= e <= 0
              /\ Z.pos m = Z.of_nat n * 2 ^ (- e).
Proof.
  intros Hn Hb. unfold number, binary_normalize.
  destruct (Z.of_nat n) as [|p|p] eqn:Ep; try lia.
  unfold binary_round.
  pose proof (digits2_pos_bounds p) as [Dl Du].
  set (d := Z.pos (digits2_pos p)) in *.
  assert (Hd : 1 <= d <= 53).
  { split; [subst d; lia|].
    destruct (Z.leb_spec d 53) as [|G]; [assumption|].
    assert (2 ^ 53 <= 2 ^ (d - 1)) by (apply Z.pow_le_mono_r; lia). lia. }
  rewrite fexp_normal by lia. unfold shl_align.
  destruct (d + 0 - 53 - 0) as [|k|k] eqn:Ek; try lia.
  - assert (d = 53) by lia.
    assert (Hp : 2 ^ 52 <= Z.pos p < 2 ^ 53)
      by (replace 52 with (d - 1) by lia; replace 53 with d by lia; auto).
    rewrite round_exact by (try exact Hp; lia).
    exists p, 0. split; [reflexivity|]. split; [exact Hp|]. split; [lia|].
    simpl. lia.
  - assert (Hk : Z.pos k = 53 - d) by lia.
    assert (Hp : 2 ^ 52 <= Z.pos (Pos.iter xO p k) < 2 ^ 53).
    { rewrite iter_xO, Hk.
      assert (E1 : 2 ^ 52 = 2 ^ (d - 1) * 2 ^ (53 - d))
        by (rewrite <- Z.pow_add_r by lia; f_equal; lia).
      assert (E2 : 2 ^ 53 = 2 ^ d * 2 ^ (53 - d))
        by (rewrite <- Z.pow_add_r by lia; f_equal; lia).
      assert (0 < 2 ^ (53 - d)) by (apply Z.pow_pos_nonneg; lia).
      rewrite E1, E2. split; [apply Z.mul_le_mono_nonneg_r; lia
                             | apply Z.mul_lt_mono_pos_r; lia]. }
    rewrite round_exact by (try exact Hp; lia).
    exists (Pos.iter xO p k), (d + 0 - 53). split; [reflexivity|].
    split; [exact Hp|]. split; [lia|].
    rewrite iter_xO. do 2 f_equal. lia.
Qed.

Lemma one_value : number 1 = S754_finite false 4503599627370496 (-52).
Proof. reflexivity. Qed.

Lemma below_one (r : Number) :
  below (-52) r ->
  SFleb (number 0) r = true /\ SFleb r (number 1) = true.
Proof.
  intros (m & e & -> & H). split; [reflexivity|].
  rewrite one_value. unfold SFleb, SFcompare.
  destruct H as [L | (-> & ->)].
  - apply Z.compare_lt_iff in L. rewrite L. reflexivity.
  - reflexivity.
Qed.

(** The quotient of two doubles with full mantissas. *)
Lemma Number_div_finite (mx my : positive) (ex ey : Z) :
  2 ^ 52 <= Z.pos mx < 2 ^ 53 -> 2 ^ 52 <= Z.pos my < 2 ^ 53 ->
  -52 <= ex <= 0 -> -52 <= ey <= 0 ->
  Number_div (S754_finite false mx ex) (S754_finite false my ey)
  = binary_round_aux binary64_prec binary64_emax false
      (Z.pos mx * 2 ^ 53 / Z.pos my) (ex - ey - 53)
      (new_location (Z.pos my) ((Z.pos mx * 2 ^ 53) mod Z.pos my)).
Proof.
  intros Hx Hy Hex Hey. unfold Number_div, SFdiv, SFdiv_core_binary.
  cbn [Zdigits2 xorb].
  rewrite (@digits2_pos_unique mx 53), (@digits2_pos_unique my 53) by assumption.
  rewrite fexp_normal by lia.
  replace (Z.min (53 + ex - (53 + ey) - 53) (ex - ey)) with (ex - ey - 53) by lia.
  replace (ex - ey - (ex - ey - 53)) with 53 by lia.
  rewrite Z.shiftl_mul_pow2 by lia.
  unfold Z.div, Z.modulo.
  destruct (Z.div_eucl (Z.pos mx * 2 ^ 53) (Z.pos my)) as [q r].
  reflexivity.
Qed.

Lemma quotient_bounds (mx my : Z) :
  2 ^ 52 <= mx < 2 ^ 53 -> 2 ^ 52 <= my < 2 ^ 53 ->
  2 ^ 52 <= mx * 2 ^ 53 / my < 2 ^ 54
  /\ (mx < my -> mx * 2 ^ 53 / my < 2 ^ 53).
Proof.
  intros Hx Hy.
  change (2 ^ 54) with (2 * 2 ^ 53) in *. change (2 ^ 53) with (2 * 2 ^ 52) in *.
  set (P := 2 ^ 52) in *. assert (0 < P) by (subst P; reflexivity).
  split; [split|].
  - apply Z.div_le_lower_bound; nia.
  - apply Z.div_lt_upper_bound; nia.
  - intros L. apply Z.div_lt_upper_bound; nia.
Qed.

(** The quotient of two counts, the first no more than the second. *)
Lemma Number_div_counts (c t : nat) :
  (c <= t)%nat -> (0 < t)%nat -> Z.of_nat t < 2 ^ 53 ->
  SFleb (number 0) (Number_div (number c) (number t)) = true
  /\ SFleb (Number_div (number c) (number t)) (number 1) = true
  /\ (c = O -> Number_div (number c) (number t) = (number 0))
  /\ (c = t -> Number_div (number c) (number t) = (number 1)).
Proof.
  intros Hct Ht Hb.
  destruct (@number_finite t Ht Hb) as (mt & et & Et & Bt & Rt & Vt).
  destruct c as [|c'].
  - rewrite Et. repeat split; try reflexivity; intros; try reflexivity; lia.
  - set (c := S c') in *.
    assert (Hc : (0 < c)%nat) by (subst c; lia).
    destruct (@number_finite c Hc ltac:(lia)) as (mc & ec & Ec & Bc & Rc & Vc).
    rewrite Ec, Et, Number_div_finite by assumption.
    destruct (@quotient_bounds _ _ Bc Bt) as (Bq & Bq').
    assert (Pt : 0 < 2 ^ (- et)) by (apply Z.pow_pos_nonneg; lia).
    assert (Pc : 0 < 2 ^ (- ec)) by (apply Z.pow_pos_nonneg; lia).
    assert (Hle : ec <= et).
    { destruct (Z.leb_spec ec et) as [|G]; [assumption|].
      assert (2 * 2 ^ (- ec) <= 2 ^ (- et)).
      { rewrite <- Z.pow_succ_r by lia. apply Z.pow_le_mono_r; lia. }
      nia. }
    assert (Hm : ec = et -> Z.pos mc <= Z.pos mt).
    { intros ->. rewrite Vc, Vt. apply Z.mul_le_mono_nonneg_r; lia. }
    assert (Hbelow : c <> t ->
              below (-52)
                (binary_round_aux binary64_prec binary64_emax false
                   (Z.pos mc * 2 ^ 53 / Z.pos mt) (ec - et - 53)
                   (new_location (Z.pos mt) ((Z.pos mc * 2 ^ 53) mod Z.pos mt)))).
    { intros Hne.
      destruct (Z.pos mc * 2 ^ 53 / Z.pos mt) as [|q|q] eqn:Eq; try lia.
      destruct (Z.ltb_spec (Z.pos q) (2 ^ 53)) as [L|G].
      - apply below_le with (e1 := ec - et - 53 + 1); [lia|].
        apply round_53; lia.
      - destruct (Z.eq_dec ec et) as [E|N].
        + exfalso. specialize (Hm E).
          assert (Z.pos mc <> Z.pos mt).
          { rewrite Vc, Vt, E. intros H. apply Z.mul_reg_r in H; lia. }
          assert (Z.pos q < 2 ^ 53) by (apply Bq'; lia). lia.
        + apply below_le with (e1 := ec - et - 53 + 2); [lia|].
          apply round_54; lia. }
    destruct (Nat.eq_dec c t) as [E|N].
    + assert (mc = mt /\ ec = et) as (-> & ->).
      { rewrite E, Et in Ec. injection Ec as -> ->. split; reflexivity. }
      assert (Q : Z.pos mt * 2 ^ 53 / Z.pos mt = 2 ^ 53)
        by (apply Z.div_mul_cancel_l || (rewrite Z.mul_comm; apply Z.div_mul; lia)).
      assert (R : (Z.pos mt * 2 ^ 53) mod Z.pos mt = 0)
        by (rewrite Z.mul_comm; apply Z.mod_mul; lia).
      rewrite Q, R. replace (et - et - 53) with (-53) by lia.
      assert (L : new_location (Z.pos mt) 0 = loc_Exact)
        by (unfold new_location, new_location_even, new_location_odd;
            destruct (Z.even _); reflexivity).
      rewrite L.
      assert (V : binary_round_aux binary64_prec binary64_emax false (2 ^ 53) (-53) loc_Exact = (number 1))
        by (vm_compute; reflexivity).
      rewrite V. repeat split; try reflexivity. discriminate.
    + destruct (@below_one _ (Hbelow N)) as (H0 & H1).
      repeat split; try assumption; [discriminate | intros; contradiction].
Qed.

End Binary64.

(** *** The counts *)

Lemma completedCount_filter (gs : list Goal) :
  completedCount gs = List.length (filter (fun g => completed g) gs).
Proof.
  induction gs as [|g gs IH]; [reflexivity|].
  cbn [completedCount filter]. destruct (completed g); cbn [List.length];
    rewrite IH; reflexivity.
Qed.

Lemma completedCount_le (gs : list Goal) : completedCount gs <= totalCount gs.
Proof.
  unfold totalCount. induction gs as [|g gs IH]; [apply Nat.le_refl|].
  cbn [completedCount List.length]. destruct (completed g); lia.
Qed.

Lemma completedCount_all (gs : list Goal) :
  Forall (fun g => completed g = true) gs -> completedCount gs = totalCount gs.
Proof.
  unfold totalCount. induction 1 as [|g gs Hg _ IH]; [reflexivity|].
  cbn [completedCount List.length]. rewrite Hg, IH. reflexivity.
Qed.

Lemma completedCount_none (gs : list Goal) :
  Forall (fun g => completed g = false) gs -> completedCount gs = 0.
Proof.
  induction 1 as [|g gs Hg _ IH]; [reflexivity|].
  cbn [completedCount]. rewrite Hg. exact IH.
Qed.

(** The ratio the component computes is the ratio of the goals in the
    plan. *)
Lemma completionRatio_currentGoals (w : World) :
  completionRatio w = completionRatio_of (currentGoals w).
Proof.
  unfold completionRatio, completionRatio_of, completedGoalsCount,
    completedGoals, totalGoalsCount.
  rewrite <- completedCount_filter.
  destruct (currentGoals w) as [|g gs]; reflexivity.
Qed.

Lemma Number_mul_zero : Number_mul (number 0) (number 100) = number 0.
Proof. reflexivity. Qed.

Section Metrics.

Variable uuidv4 : nat -> jsstring.
Variable clock : nat -> jsstring.
Variable Date_parse : jsstring -> option Z.
Variable toISOString : Z -> jsstring.

Local Abbreviation step := (step uuidv4 clock Date_parse toISOString).
Local Abbreviation goals_after := (goals_after uuidv4 Date_parse toISOString).

(** C6. For every store whose plan has fewer than 2^32 goals (the
    longest array there is), the completion ratio is the one the
    specification words: 0 when there are no goals, and otherwise the
    number of goals with [completed] set, divided, as numbers are, by
    the number of goals.  It lies between 0 and 1; it is exactly 1
    when every goal is completed and exactly 0 when none is.  The
    width of the progress bar is the ratio times 100.  Nothing of the
    ratio is kept: it is the same in two stores with the same goals,
    and the ratio read after an operation is that of the goals the
    operation leaves. *)
Theorem C6_completionRatio (w : World) :
  (Z.of_nat (totalGoalsCount w) < 2 ^ 32)%Z ->
  completionRatio w = completionRatio_of (currentGoals w)
  /\ (currentGoals w = [] -> completionRatio w = number 0)
  /\ (currentGoals w <> [] ->
      completionRatio w
      = Number_div (number (completedCount (currentGoals w)))
                   (number (totalCount (currentGoals w))))
  /\ SFleb (number 0) (completionRatio w) = true
  /\ SFleb (completionRatio w) (number 1) = true
  /\ (currentGoals w <> [] ->
      Forall (fun g => completed g = true) (currentGoals w) ->
      completionRatio w = number 1)
  /\ (Forall (fun g => completed g = false) (currentGoals w) ->
      completionRatio w = number 0)
  /\ progressWidth w = Number_mul (completionRatio w) (number 100)
  /\ (forall w', currentGoals w' = currentGoals w ->
                 completionRatio w' = completionRatio w)
  /\ (forall o, completionRatio (step o w)
                = completionRatio_of
                    (goals_after o (uuid_calls w) (currentGoals w))).
Proof.
  intros Hb. pose proof (completionRatio_currentGoals w) as E.
  assert (Hw : progressWidth w = Number_mul (completionRatio w) (number 100)).
  { unfold progressWidth, completionRatio.
    destruct (0 <? totalGoalsCount w); [reflexivity|].
    symmetry. exact Number_mul_zero. }
  assert (Hs : forall w', currentGoals w' = currentGoals w ->
                          completionRatio w' = completionRatio w).
  { intros w' Eg. rewrite E, completionRatio_currentGoals, Eg. reflexivity. }
  assert (Ho : forall o, completionRatio (step o w)
                         = completionRatio_of
                             (goals_after o (uuid_calls w) (currentGoals w))).
  { intros o. rewrite completionRatio_currentGoals, currentGoals_step.
    reflexivity. }
  assert (Hnil : currentGoals w = [] -> completionRatio w = number 0).
  { intros En. rewrite E, En. reflexivity. }
  assert (Hdiv : currentGoals w <> [] ->
            completionRatio w
            = Number_div (number (completedCount (currentGoals w)))
                         (number (totalCount (currentGoals w)))).
  { intros Hne. rewrite E. destruct (currentGoals w); [congruence | reflexivity]. }
  assert (Hq : currentGoals w <> [] ->
            SFleb (number 0) (completionRatio w) = true
            /\ SFleb (completionRatio w) (number 1) = true
            /\ (completedCount (currentGoals w) = 0 ->
                completionRatio w = number 0)
            /\ (completedCount (currentGoals w) = totalCount (currentGoals w) ->
                completionRatio w = number 1)).
  { intros Hne. rewrite (Hdiv Hne). apply Number_div_counts.
    - apply completedCount_le.
    - unfold totalCount. destruct (currentGoals w); [congruence | simpl; lia].
    - unfold totalCount. eapply Z.lt_trans; [exact Hb | reflexivity]. }
  split; [exact E|]. split; [exact Hnil|]. split; [exact Hdiv|].
  assert (Hd : currentGoals w = [] \/ currentGoals w <> [])
    by (destruct (currentGoals w); [left; reflexivity | right; discriminate]).
  destruct Hd as [En | Hne].
  - rewrite (Hnil En).
    split; [reflexivity|]. split; [reflexivity|].
    split; [intros Hne; congruence|]. split; [reflexivity|].
    split; [rewrite <- (Hnil En); exact Hw|]. split; [|exact Ho].
    intros w' Eg. rewrite <- (Hnil En). apply Hs, Eg.
  - destruct (Hq Hne) as (H0 & H1 & Hz & Ha).
    split; [exact H0|]. split; [exact H1|].
    split; [intros _ Hall; apply Ha, completedCount_all, Hall|].
    split; [intros Hnone; apply Hz, completedCount_none, Hnone|].
    split; [exact Hw|]. split; [exact Hs | exact Ho].
Qed.

End Metrics.

(** ** Loading and saving *)


(** C8. Writing a plan to its persisted text with [JSON.stringify] and
    reading the text with [JSON.parse] gives a plan equal to the
    original: the same [userId], the same goals in the same order with
    all their fields, the same subjects in the same order, the same
    [lastUpdated]. *)
Theorem C8_plan_round_trip (p : StudyPlan) :
  JSON_parse (JSON_stringify p) = Some (StudyPlan_json p)
  /\ as_StudyPlan (StudyPlan_json p) = Some (Some p)
  /\ JSON_parse_StudyPlan (JSON_stringify p) = Some (Ok (Some p)).
Proof.
  split; [|split].
  - apply JSON_parse_stringify, StudyPlan_json_number_free.
  - apply as_StudyPlan_json.
  - apply JSON_parse_StudyPlan_stringify.
Qed.

(** What the save effect has written is what a later mount loads. *)
Lemma saved_plan_is_loaded (clock : nat -> jsstring) (w : World) (p : StudyPlan) :
  studyPlan w = Some p ->
  readable (localStorage w) = true -> writable (localStorage w) = true ->
  exists w', mount clock (localStorage (saveEffect w)) = Some w'
             /\ studyPlan w' = Some p.
Proof.
  intros E Hr Hw.
  unfold saveEffect. rewrite E.
  unfold try_catch, try_catch_finally, setItem. rewrite Hw. simpl.
  unfold mount, loadEffect, getItem. simpl. rewrite Hr.
  destruct (JSON_stringify_truthy p) as (c & r & Es). rewrite Es, <- Es.
  rewrite JSON_parse_StudyPlan_stringify. simpl.
  eexists. split; [reflexivity|].
  rewrite commit_studyPlan. reflexivity.
Qed.

(** ** The properties at concrete inputs *)

Example demo_ops_goals :
  currentGoals (P_run demo_ops mounted)
  = [ {| id := js "00000000-0000-4000-8000-000000000000";
         description := js "Master React Hooks";
         targetDate := Some (js "2025-06-01T00:00:00.000Z");
         completed := true |} ].
Proof. vm_compute. reflexivity. Qed.

Lemma C1_witness :
  fresh_ids Platform.uuidv4 [] (uuid_calls mounted) demo_ops = true
  /\ currentGoals (P_run demo_ops mounted)
     = kept_goals demo_ops (currentGoals mounted)
         ++ added_goals Platform.uuidv4 Platform.Date_parse Platform.toISOString
              demo_ops (uuid_calls mounted) demo_ops.
Proof.
  assert (H : fresh_ids Platform.uuidv4 [] (uuid_calls mounted) demo_ops = true)
    by (vm_compute; reflexivity).
  split; [exact H|].
  exact (proj1 (@C1_goals_after_operations
                  Platform.uuidv4 Platform.clock Platform.Date_parse
                  Platform.toISOString demo_ops mounted H)).
Defined.

Example two_goals_studyPlan : studyPlan two_goals = Some two_goals_plan.
Proof. vm_compute. reflexivity. Qed.



(** A date field that does not parse: no goal is built, with a [null]
    date or otherwise, and the banner reports the failure. *)
Lemma C3_counterexample :
  let w' := P_step (addGoal (js "Read chapter 3") (js "soon")) mounted in
  trim (js "Read chapter 3") <> []
  /\ Platform.Date_parse (js "soon") = None
  /\ currentGoals mounted = []
  /\ currentGoals w' = []
  /\ studyPlannerError w' = Some (js "Failed to add goal.").
Proof. vm_compute. repeat split. discriminate. Qed.

Lemma C3_witness :
  trim (js " Master React Hooks ") <> []
  /\ currentGoals
       (P_step (addGoal (js " Master React Hooks ") (js "2025-06-01")) mounted)
     = currentGoals mounted
         ++ [ {| id := Platform.uuidv4 (uuid_calls mounted);
                 description := trim (js " Master React Hooks ");
                 targetDate := Some (Platform.toISOString 1748736000000);
                 completed := false |} ].
Proof.
  assert (H : trim (js " Master React Hooks ") <> [])
    by (vm_compute; discriminate).
  split; [exact H|].
  destruct (@C3_addGoal_constructs_goal
              Platform.uuidv4 Platform.clock Platform.Date_parse
              Platform.toISOString (js " Master React Hooks ")
              (js "2025-06-01") mounted H)
    as (_ & _ & Hz & _).
  apply (Hz 1748736000000%Z); [discriminate | reflexivity].
Defined.

(** A day that the month does not have is carried over. *)
Example Date_parse_carries_over :
  option_map Platform.toISOString (Platform.Date_parse (js "2025-02-30"))
  = Some (js "2025-03-02T00:00:00.000Z")
  /\ Platform.Date_parse (js "2025-02-32") = None.
Proof. vm_compute. split; reflexivity. Qed.



Lemma C5_witness :
  trim (js " Biology ") <> []
  /\ currentSubjects (P_step (addSubject (js " Biology ")) mounted)
     = dedup_first (currentSubjects mounted ++ [trim (js " Biology ")])
  /\ currentSubjects
       (P_step (addSubject (js " Biology "))
          (P_step (addSubject (js " Biology ")) mounted))
     = currentSubjects (P_step (addSubject (js " Biology ")) mounted).
Proof.
  assert (H : trim (js " Biology ") <> []) by (vm_compute; discriminate).
  split; [exact H|].
  destruct (@C5_addSubject
              Platform.uuidv4 Platform.clock Platform.Date_parse
              Platform.toISOString (js " Biology ") mounted H)
    as (H1 & _ & _ & H2 & _).
  split; [exact H1 | exact H2].
Defined.

(** One goal of three completed: the ratio is the double next to 1/3,
    and the width is that double times 100, 33.33333333333333, which
    is not the double next to 100/3. *)
Example one_of_three_progressWidth :
  completionRatio one_of_three = S754_finite false 6004799503160661 (-54)
  /\ progressWidth one_of_three = S754_finite false 4691249611844266 (-47)
  /\ Number_div (number 100) (number 3)
     = S754_finite false 4691249611844267 (-47).
Proof. vm_compute. repeat split. Qed.

Lemma C6_witness :
  (Z.of_nat (totalGoalsCount one_of_three) < 2 ^ 32)%Z
  /\ completionRatio mounted = number 0
  /\ completionRatio one_of_three = Number_div (number 1) (number 3)
  /\ SFleb (number 0) (completionRatio one_of_three) = true
  /\ SFleb (completionRatio one_of_three) (number 1) = true
  /\ completionRatio (P_step (toggleGoal (Platform.uuidv4 0)) one_of_three)
     = number 0.
Proof.
  assert (Hb : (Z.of_nat (totalGoalsCount one_of_three) < 2 ^ 32)%Z)
    by (vm_compute; reflexivity).
  assert (Hg : currentGoals one_of_three <> [])
    by (vm_compute; discriminate).
  assert (Ec : completedCount (currentGoals one_of_three) = 1)
    by (vm_compute; reflexivity).
  assert (Et : totalCount (currentGoals one_of_three) = 3)
    by (vm_compute; reflexivity).
  assert (Eg : completionRatio_of
                 (goals_after Platform.uuidv4 Platform.Date_parse
                    Platform.toISOString (toggleGoal (Platform.uuidv4 0))
                    (uuid_calls one_of_three) (currentGoals one_of_three))
               = number 0)
    by (vm_compute; reflexivity).
  destruct (@C6_completionRatio
              Platform.uuidv4 Platform.clock Platform.Date_parse
              Platform.toISOString one_of_three Hb)
    as (_ & _ & Hd & H0 & H1 & _ & _ & _ & _ & Ho).
  split; [exact Hb|]. split; [vm_compute; reflexivity|].
  split; [rewrite (Hd Hg), Ec, Et; reflexivity|].
  split; [exact H0|]. split; [exact H1|].
  rewrite Ho. exact Eg.
Defined.

Lemma C7_witness :
  forallb isWhiteSpace (js "   ") = true
  /\ forallb isWhiteSpace [] = true
  /\ studyPlan (P_step (addGoal (js "   ") (js "2025-06-01")) two_goals)
     = studyPlan two_goals
  /\ studyPlan (P_step (addSubject []) two_goals) = studyPlan two_goals.
Proof.
  split; [reflexivity|]. split; [reflexivity|].
  destruct (@C7_blank_submission_ignored
              Platform.uuidv4 Platform.clock Platform.Date_parse
              Platform.toISOString (js "   ") (js "2025-06-01") [] two_goals
              eq_refl eq_refl)
    as ((_ & H1 & _) & (_ & H2 & _)).
  split; [exact H1 | exact H2].
Defined.

Lemma C9_witness :
  NoDup (currentSubjects mounted)
  /\ NoDup (currentSubjects
              (P_run [addSubject (js "Biology"); addSubject (js "Physics");
                      addSubject (js "Biology"); deleteSubject (js "Physics")]
                 mounted)).
Proof.
  assert (H : NoDup (currentSubjects mounted)) by constructor.
  split; [exact H|].
  exact (proj2 (proj2 (proj2 (proj2
    (@C9_subjects_without_duplicates
       Platform.uuidv4 Platform.clock Platform.Date_parse Platform.toISOString
       [addSubject (js "Biology"); addSubject (js "Physics");
        addSubject (js "Biology"); deleteSubject (js "Physics")]
       mounted H))))).
Defined.

Lemma C10_witness :
  studyPlan unloaded = None
  /\ trim (js "Read chapter 3") <> []
  /\ P_stored_date [] = Some None
  /\ trim (js "Biology") <> []
  /\ studyPlan (P_step (addGoal (js "Read chapter 3") []) unloaded)
     = Some {| userId := Fixed.userId;
               goals := [ {| id := Platform.uuidv4 (uuid_calls unloaded);
                             description := trim (js "Read chapter 3");
                             targetDate := None; completed := false |} ];
               subjects := [];
               lastUpdated := Platform.clock (S (clock_reads unloaded)) |}
  /\ P_step (toggleGoal (js "x")) unloaded = unloaded.
Proof.
  assert (H1 : trim (js "Read chapter 3") <> []) by (vm_compute; discriminate).
  assert (H2 : trim (js "Biology") <> []) by (vm_compute; discriminate).
  split; [reflexivity|]. split; [exact H1|]. split; [reflexivity|].
  split; [exact H2|].
  destruct (@C10_operations_without_a_plan
              Platform.uuidv4 Platform.clock Platform.Date_parse
              Platform.toISOString (js "Read chapter 3") [] (js "Biology")
              (js "x") None unloaded eq_refl H1 eq_refl H2)
    as (Hg & _ & Ht & _).
  split; [exact Hg | exact Ht].
Defined.

(* ===================================================================== *)
(** * Further properties *)
(* ===================================================================== *)

Section StoreFacts.

Variable uuidv4 : nat -> jsstring.
Variable clock : nat -> jsstring.
Variable Date_parse : jsstring -> option Z.
Variable toISOString : Z -> jsstring.

Local Abbreviation step := (step uuidv4 clock Date_parse toISOString).
Local Abbreviation run := (run uuidv4 clock Date_parse toISOString).
Local Abbreviation handler := (handler uuidv4 clock Date_parse toISOString).
Local Abbreviation stored_date := (stored_date Date_parse toISOString).
Local Abbreviation stamped := (stamped clock).

(** What a handler can do to the store: either the plan, its identity
    and the clock are as they were, or a new plan has been stored,
    stamped with the last reading of the clock. *)
Lemma handler_effect (o : Op) (w : World) :
  localStorage (handler o w) = localStorage w
  /\ (studyPlannerError (handler o w) = studyPlannerError w
      \/ studyPlannerError (handler o w) = Some (js "Failed to add goal."))
  /\ ((studyPlan (handler o w) = studyPlan w
       /\ studyPlan_ref (handler o w) = studyPlan_ref w
       /\ clock_reads (handler o w) = clock_reads w
       /\ (handler o w = typed o w \/ loading (handler o w) = false))
      \/ (studyPlan_ref (handler o w) = S (studyPlan_ref w)
          /\ loading (handler o w) = false
          /\ studyPlannerError (handler o w) = studyPlannerError w
          /\ clock_reads w < clock_reads (handler o w)
          /\ exists p', studyPlan (handler o w) = Some p'
               /\ userId p' = userId (plan_or_default clock w)
               /\ lastUpdated p' = clock (clock_reads (handler o w) - 1))).
Proof.
  destruct o as [d t|i|i|s|s]; cbn [handler typed].
  - set (w1 := setNewGoalTargetDate t (setNewGoalDescription d w)).
    destruct (trim d) as [|c r] eqn:E.
    + rewrite handleAddGoal_blank by exact E.
      split; [reflexivity|]. split; [left; reflexivity|]. left. repeat split. left; reflexivity.
    + assert (Hd : trim (newGoalDescription w1) <> []) by (simpl; congruence).
      destruct (stored_date t) as [date|] eqn:D.
      * rewrite (handleAddGoal_ok uuidv4 clock Date_parse toISOString w1 Hd D).
        split; [reflexivity|]. split; [left; reflexivity|]. right.
        split; [reflexivity|]. split; [reflexivity|]. split; [reflexivity|].
        split; [simpl; lia|]. eexists. split; [reflexivity|].
        split; [reflexivity|]. cbn. f_equal. unfold default_reads. simpl.
        destruct (studyPlan w); simpl; lia.
      * rewrite (handleAddGoal_invalid_date uuidv4 clock Date_parse toISOString w1 Hd D).
        split; [reflexivity|]. split; [right; reflexivity|]. left.
        repeat split. right; reflexivity.
  - destruct (studyPlan w) as [p|] eqn:E.
    + rewrite (handleToggleGoalCompletion_Some clock i w E).
      split; [reflexivity|]. split; [left; reflexivity|]. right.
      split; [reflexivity|]. split; [reflexivity|]. split; [reflexivity|].
      split; [simpl; lia|]. eexists. split; [reflexivity|].
      unfold plan_or_default. rewrite E. split; [reflexivity|]. cbn.
      f_equal. lia.
    + unfold handleToggleGoalCompletion. rewrite E.
      split; [reflexivity|]. split; [left; reflexivity|]. left. repeat split; auto.
  - destruct (studyPlan w) as [p|] eqn:E.
    + rewrite (handleDeleteGoal_Some clock i w E).
      split; [reflexivity|]. split; [left; reflexivity|]. right.
      split; [reflexivity|]. split; [reflexivity|]. split; [reflexivity|].
      split; [simpl; lia|]. eexists. split; [reflexivity|].
      unfold plan_or_default. rewrite E. split; [reflexivity|]. cbn.
      f_equal. lia.
    + unfold handleDeleteGoal. rewrite E.
      split; [reflexivity|]. split; [left; reflexivity|]. left. repeat split; auto.
  - set (w1 := setNewSubject s w).
    destruct (trim s) as [|c r] eqn:E.
    + rewrite handleAddSubject_blank by exact E.
      split; [reflexivity|]. split; [left; reflexivity|]. left. repeat split. left; reflexivity.
    + assert (Hd : trim (newSubject w1) <> []) by (simpl; congruence).
      rewrite (handleAddSubject_ok clock w1 Hd).
      split; [reflexivity|]. split; [left; reflexivity|]. right.
      split; [reflexivity|]. split; [reflexivity|]. split; [reflexivity|].
      split; [simpl; lia|]. eexists. split; [reflexivity|].
      split; [reflexivity|]. cbn. f_equal. unfold default_reads. simpl.
      destruct (studyPlan w); simpl; lia.
  - destruct (studyPlan w) as [p|] eqn:E.
    + rewrite (handleDeleteSubject_Some clock s w E).
      split; [reflexivity|]. split; [left; reflexivity|]. right.
      split; [reflexivity|]. split; [reflexivity|]. split; [reflexivity|].
      split; [simpl; lia|]. eexists. split; [reflexivity|].
      unfold plan_or_default. rewrite E. split; [reflexivity|]. cbn.
      f_equal. lia.
    + unfold handleDeleteSubject. rewrite E.
      split; [reflexivity|]. split; [left; reflexivity|]. left. repeat split; auto.
Qed.


(** After a handler the effects run: the save effect if, and only if,
    a new plan has been stored. *)
Lemma step_effect (o : Op) (w : World) :
  (studyPlan_ref (handler o w) = studyPlan_ref w /\ step o w = handler o w)
  \/ (studyPlan_ref (handler o w) = S (studyPlan_ref w)
      /\ step o w = saveEffect (handler o w)).
Proof.
  unfold step, commit.
  destruct (handler_effect o w) as (_ & _ & [(_ & Hr & _) | (Hr & _)]).
  - left. rewrite Hr, Nat.eqb_refl. auto.
  - right. rewrite Hr.
    destruct (Nat.eqb (S (studyPlan_ref w)) (studyPlan_ref w)) eqn:E; [|auto].
    apply Nat.eqb_eq in E. lia.
Qed.

Lemma saveEffect_written (w : World) (p : StudyPlan) :
  studyPlan w = Some p -> writable (localStorage w) = true ->
  saveEffect w =
  set_localStorage
    {| item := Some (JSON_stringify p);
       readable := readable (localStorage w);
       writable := writable (localStorage w) |} w.
Proof.
  intros E Hw. unfold saveEffect, try_catch, try_catch_finally, setItem.
  rewrite E, Hw. reflexivity.
Qed.

Lemma saveEffect_refused (w : World) (p : StudyPlan) :
  studyPlan w = Some p -> writable (localStorage w) = false ->
  saveEffect w = setStudyPlannerError (Some save_error) w.
Proof.
  intros E Hw. unfold saveEffect, try_catch, try_catch_finally, setItem.
  rewrite E, Hw. reflexivity.
Qed.

Lemma saveEffect_None (w : World) : studyPlan w = None -> saveEffect w = w.
Proof. intros E. unfold saveEffect. rewrite E. reflexivity. Qed.

Lemma saveEffect_flags (w : World) :
  readable (localStorage (saveEffect w)) = readable (localStorage w)
  /\ writable (localStorage (saveEffect w)) = writable (localStorage w).
Proof.
  destruct (studyPlan w) as [p|] eqn:E.
  - destruct (writable (localStorage w)) eqn:Hw.
    + rewrite (saveEffect_written w E Hw). simpl. auto.
    + rewrite (saveEffect_refused w E Hw). simpl. auto.
  - rewrite (saveEffect_None w E). auto.
Qed.

Lemma saveEffect_in_sync (w : World) :
  writable (localStorage w) = true -> in_sync (saveEffect w).
Proof.
  intros Hw. unfold in_sync. destruct (studyPlan w) as [p|] eqn:E.
  - rewrite (saveEffect_written w E Hw). simpl. rewrite E. reflexivity.
  - rewrite (saveEffect_None w E), E. exact I.
Qed.

Lemma saveEffect_error (w : World) :
  studyPlannerError w <> None -> studyPlannerError (saveEffect w) <> None.
Proof.
  intros H. destruct (studyPlan w) as [p|] eqn:E.
  - destruct (writable (localStorage w)) eqn:Hw.
    + rewrite (saveEffect_written w E Hw). exact H.
    + rewrite (saveEffect_refused w E Hw). discriminate.
  - rewrite (saveEffect_None w E). exact H.
Qed.

Lemma step_flags (o : Op) (w : World) :
  readable (localStorage (step o w)) = readable (localStorage w)
  /\ writable (localStorage (step o w)) = writable (localStorage w).
Proof.
  destruct (handler_effect o w) as (Hs & _).
  destruct (step_effect o w) as [(_ & ->) | (_ & ->)].
  - rewrite Hs. auto.
  - destruct (saveEffect_flags (handler o w)) as (-> & ->). rewrite Hs. auto.
Qed.

Lemma step_in_sync (o : Op) (w : World) :
  writable (localStorage w) = true -> in_sync w -> in_sync (step o w).
Proof.
  intros Hw Hs.
  destruct (handler_effect o w) as (Hst & _ & Hc).
  destruct (step_effect o w) as [(Hr & ->) | (Hr & ->)].
  - destruct Hc as [(Hp & _) | (Hr' & _)]; [|lia].
    unfold in_sync in *. rewrite Hp, Hst. exact Hs.
  - apply saveEffect_in_sync. rewrite Hst. exact Hw.
Qed.

Lemma run_flags (ops : list Op) (w : World) :
  readable (localStorage (run ops w)) = readable (localStorage w)
  /\ writable (localStorage (run ops w)) = writable (localStorage w).
Proof.
  revert w. induction ops as [|o ops IH]; intros w; [auto|].
  rewrite run_cons. destruct (IH (step o w)) as (-> & ->). apply step_flags.
Qed.

Lemma mount_flags (st : Storage) (w : World) :
  mount clock st = Some w ->
  readable (localStorage w) = readable st
  /\ writable (localStorage w) = writable st.
Proof.
  unfold mount. destruct (loadEffect clock (initial st)) as [w1|] eqn:E;
    [|discriminate].
  intros H. injection H as <-.
  assert (Hl : readable (localStorage w1) = readable st
               /\ writable (localStorage w1) = writable st).
  { unfold loadEffect, getItem in E. simpl in E.
    destruct (readable st) eqn:Hr.
    - destruct (item st) as [[|c r]|] eqn:Hi.
      + injection E as <-.
        unfold try_catch, try_catch_finally, createDefaultPlan, bind, now,
          lift, setItem. simpl.
        destruct (writable st) eqn:Hw; simpl; rewrite ?Hr, ?Hw; auto.
      + destruct (JSON_parse_StudyPlan (c :: r)) as [[[p|]|e]|];
          try discriminate; injection E as <-; simpl; rewrite Hr; auto.
      + injection E as <-.
        unfold try_catch, try_catch_finally, createDefaultPlan, bind, now,
          lift, setItem. simpl.
        destruct (writable st) eqn:Hw; simpl; rewrite ?Hr, ?Hw; auto.
    - injection E as <-. simpl. rewrite Hr. auto. }
  unfold commit. destruct (Nat.eqb _ _); [exact Hl|].
  destruct (saveEffect_flags w1) as (-> & ->). exact Hl.
Qed.

(** Whatever the load found, the store it leaves is in step with a
    storage that takes writes. *)
Lemma mount_in_sync (st : Storage) (w : World) :
  writable st = true -> mount clock st = Some w -> in_sync w.
Proof.
  intros Hw Hm. unfold mount in Hm.
  destruct (loadEffect clock (initial st)) as [w1|] eqn:E; [|discriminate].
  injection Hm as <-.
  assert (Hw1 : writable (localStorage w1) = true).
  { assert (Hm : mount clock st = Some (commit (initial st) w1))
      by (unfold mount; rewrite E; reflexivity).
    destruct (mount_flags st Hm) as (_ & H).
    unfold commit in H. destruct (Nat.eqb _ _).
    - rewrite H. exact Hw.
    - destruct (saveEffect_flags w1) as (_ & H'). rewrite <- H', H. exact Hw. }
  unfold commit. destruct (Nat.eqb (studyPlan_ref w1) (studyPlan_ref (initial st))) eqn:Er.
  - (* nothing was stored in the state: the plan is still null *)
    assert (Hn : studyPlan w1 = None).
    { unfold loadEffect, getItem in E. simpl in E.
      destruct (readable st) eqn:Hr.
      - destruct (item st) as [[|c r]|] eqn:Hi.
        + injection E as <-.
          unfold try_catch, try_catch_finally, createDefaultPlan, bind, now,
            lift, setItem in Er. simpl in Er. rewrite Hw in Er. discriminate.
        + destruct (JSON_parse_StudyPlan (c :: r)) as [[[p|]|e]|];
            try discriminate; injection E as <-; try reflexivity.
          simpl in Er. discriminate.
        + injection E as <-.
          unfold try_catch, try_catch_finally, createDefaultPlan, bind, now,
            lift, setItem in Er. simpl in Er. rewrite Hw in Er. discriminate.
      - injection E as <-. reflexivity. }
    unfold in_sync. rewrite Hn. exact I.
  - apply saveEffect_in_sync. exact Hw1.
Qed.

(** Reading a storage that holds the text form of a plan. *)
Lemma mount_stored_plan (clock' : nat -> jsstring) (st : Storage) (p : StudyPlan) :
  readable st = true -> item st = Some (JSON_stringify p) ->
  exists w, mount clock' st = Some w /\ studyPlan w = Some p.
Proof.
  intros Hr Hi. unfold mount, loadEffect, getItem. simpl. rewrite Hr, Hi.
  destruct (JSON_stringify_truthy p) as (c & r & Es). rewrite Es, <- Es.
  rewrite JSON_parse_StudyPlan_stringify. simpl.
  eexists. split; [reflexivity|]. rewrite commit_studyPlan. reflexivity.
Qed.

Lemma run_in_sync (ops : list Op) (w : World) :
  writable (localStorage w) = true -> in_sync w -> in_sync (run ops w).
Proof.
  revert w. induction ops as [|o ops IH]; intros w Hw H0; [exact H0|].
  rewrite run_cons. apply IH.
  - destruct (step_flags o w) as (_ & ->). exact Hw.
  - apply step_in_sync; assumption.
Qed.

(** X1. On a storage that takes writes and holds no plan, or a text
    that the component has written, the component mounts, and the
    stored text is from then on the text form of the plan in memory:
    once it is mounted, and after every sequence of operations. *)
Theorem storage_follows_plan (st : Storage) :
  writable st = true -> own_text st ->
  exists w, mount clock st = Some w
    /\ in_sync w
    /\ forall ops, in_sync (run ops w).
Proof.
  intros Hw Ho.
  assert (Hm : exists w, mount clock st = Some w).
  { destruct (readable st) eqn:Hr.
    - destruct Ho as [Hi | [Hi | (p & Hi)]].
      + destruct (@mount_absent_written clock st Hr (or_introl Hi) Hw)
          as (w & E & _). exists w. exact E.
      + destruct (@mount_absent_written clock st Hr (or_intror Hi) Hw)
          as (w & E & _). exists w. exact E.
      + destruct (@mount_stored_plan clock st p Hr Hi) as (w & E & _).
        exists w. exact E.
    - exists (load_failed st). apply mount_unreadable, Hr. }
  destruct Hm as (w & Hm). exists w. split; [exact Hm|].
  assert (H0 : in_sync w) by (apply (@mount_in_sync st w); assumption).
  split; [exact H0|]. intros ops.
  apply run_in_sync; [|exact H0].
  destruct (@mount_flags st w Hm) as (_ & E). rewrite E. exact Hw.
Qed.

(** X2. A session leaves behind what the next one finds: mounting the
    component on the storage left by any sequence of operations gives
    the plan that was in memory at the end. *)
Theorem reload_restores_plan
    (clock' : nat -> jsstring) (st : Storage) (ops : list Op)
    (w : World) (p : StudyPlan) :
  readable st = true -> writable st = true ->
  mount clock st = Some w ->
  studyPlan (run ops w) = Some p ->
  exists w', mount clock' (localStorage (run ops w)) = Some w'
             /\ studyPlan w' = Some p.
Proof.
  intros Hr Hw Hm Hp.
  assert (Hs : in_sync (run ops w)).
  { apply run_in_sync.
    - destruct (mount_flags st Hm) as (_ & ->). exact Hw.
    - apply (mount_in_sync st); assumption. }
  unfold in_sync in Hs. rewrite Hp in Hs.
  apply mount_stored_plan; [|exact Hs].
  destruct (run_flags ops w) as (-> & _).
  destruct (mount_flags st Hm) as (-> & _). exact Hr.
Qed.


Lemma JSON_stringify_injective (p q : StudyPlan) :
  JSON_stringify p = JSON_stringify q -> p = q.
Proof.
  intros H.
  pose proof (JSON_parse_StudyPlan_stringify p) as Hp.
  rewrite H, JSON_parse_StudyPlan_stringify in Hp. congruence.
Qed.

(** X3. When the storage refuses the write, an operation that changes
    the plan still changes it in memory; the stored text stays what it
    was, so it no longer describes the plan in memory, and the banner
    reports the failed save. *)
Theorem refused_save_leaves_storage_behind
    (o : Op) (w : World) (p p' : StudyPlan) :
  writable (localStorage w) = false ->
  studyPlan w = Some p -> in_sync w ->
  studyPlan (step o w) = Some p' -> p' <> p ->
  localStorage (step o w) = localStorage w
  /\ studyPlannerError (step o w) = Some save_error
  /\ ~ in_sync (step o w).
Proof.
  intros Hw Ep Hs Ep' Hne.
  destruct (handler_effect o w) as (Hst & _ & Hc).
  destruct (step_effect o w) as [(Hr & E) | (Hr & E)].
  - destruct Hc as [(Hp & _) | (Hr' & _)]; [|lia].
    rewrite E, Hp, Ep in Ep'. congruence.
  - assert (Eh : studyPlan (handler o w) = Some p').
    { rewrite E, saveEffect_studyPlan in Ep'. exact Ep'. }
    assert (Hwh : writable (localStorage (handler o w)) = false)
      by (rewrite Hst; exact Hw).
    rewrite E, (saveEffect_refused _ Eh Hwh). simpl.
    split; [exact Hst|]. split; [reflexivity|].
    unfold in_sync in *. simpl. rewrite Eh, Hst. rewrite Ep in Hs.
    rewrite Hs. intros H.
    apply Hne. symmetry. apply JSON_stringify_injective. congruence.
Qed.

Lemma step_error (o : Op) (w : World) :
  studyPlannerError w <> None -> studyPlannerError (step o w) <> None.
Proof.
  intros H. destruct (handler_effect o w) as (_ & He & _).
  assert (Hh : studyPlannerError (handler o w) <> None)
    by (destruct He as [-> | ->]; [exact H | discriminate]).
  destruct (step_effect o w) as [(_ & ->) | (_ & ->)].
  - exact Hh.
  - apply saveEffect_error, Hh.
Qed.

(** X4. No operation takes the error banner down: once an error has
    been reported, the banner holds a message after every sequence of
    operations. *)
Theorem error_banner_is_never_cleared (ops : list Op) (w : World) :
  studyPlannerError w <> None -> studyPlannerError (run ops w) <> None.
Proof.
  revert w. induction ops as [|o ops IH]; intros w H; [exact H|].
  rewrite run_cons. apply IH, step_error, H.
Qed.

Lemma step_userId (o : Op) (w : World) :
  match studyPlan w with
  | Some p => exists p', studyPlan (step o w) = Some p' /\ userId p' = userId p
  | None => forall p', studyPlan (step o w) = Some p' -> userId p' = Fixed.userId
  end.
Proof.
  destruct (handler_effect o w) as (_ & _ & Hc).
  assert (Hp : studyPlan (step o w) = studyPlan (handler o w))
    by (unfold step; apply commit_studyPlan).
  rewrite Hp.
  destruct Hc as [(Hsame & _) | (_ & _ & _ & _ & p' & E & Hu & _)].
  - rewrite Hsame. destruct (studyPlan w) as [p|]; [eauto | discriminate].
  - unfold plan_or_default in Hu. destruct (studyPlan w) as [p|].
    + eauto.
    + intros q Eq. rewrite E in Eq. injection Eq as <-. exact Hu.
Qed.

(** X5. A plan in memory stays in memory and keeps its [userId] through
    every sequence of operations; a plan that the handlers build when
    there is none belongs to the fixed user. *)
Theorem plan_keeps_its_user (ops : list Op) (w : World) :
  match studyPlan w with
  | Some p =>
      exists p', studyPlan (run ops w) = Some p' /\ userId p' = userId p
  | None =>
      forall p', studyPlan (run ops w) = Some p' -> userId p' = Fixed.userId
  end.
Proof.
  revert w. induction ops as [|o ops IH]; intros w.
  - destruct (studyPlan w) as [p|] eqn:E; simpl; rewrite E;
      [eauto | discriminate].
  - rewrite run_cons. pose proof (step_userId o w) as Hs.
    pose proof (IH (step o w)) as Hr.
    destruct (studyPlan w) as [p|].
    + destruct Hs as (p1 & E1 & U1). rewrite E1 in Hr.
      destruct Hr as (p2 & E2 & U2). exists p2. split; congruence.
    + destruct (studyPlan (step o w)) as [p1|] eqn:E1.
      * intros p2 E2. destruct Hr as (p3 & E3 & U3).
        rewrite E2 in E3. injection E3 as <-. rewrite U3. apply Hs. reflexivity.
      * exact Hr.
Qed.

Lemma step_stamped (o : Op) (w : World) :
  stamped w -> stamped (step o w) /\ clock_reads w <= clock_reads (step o w).
Proof.
  intros H. destruct (handler_effect o w) as (_ & _ & Hc).
  assert (Hp : studyPlan (step o w) = studyPlan (handler o w))
    by (unfold step; apply commit_studyPlan).
  assert (Hk : clock_reads (step o w) = clock_reads (handler o w))
    by (unfold step; apply commit_clock_reads).
  unfold stamped in *. rewrite Hp, Hk.
  destruct Hc as [(Hsame & _ & Hck & _) | (_ & _ & _ & Hlt & p' & E & _ & Hl)].
  - rewrite Hsame, Hck. split; [exact H | lia].
  - rewrite E. split; [split; [lia | exact Hl] | lia].
Qed.

(** X9. Every plan the component stores is stamped with its latest
    reading of the clock: on a store mounted on a storage without a
    plan, [lastUpdated] is, after any sequence of operations, the last
    reading taken, and readings are never given back. *)
Theorem lastUpdated_is_the_last_reading
    (st : Storage) (ops : list Op) (w : World) :
  item st = None \/ item st = Some [] ->
  mount clock st = Some w ->
  stamped (run ops w) /\ clock_reads w <= clock_reads (run ops w).
Proof.
  intros Hi Hm.
  assert (H0 : stamped w).
  { unfold stamped. destruct (readable st) eqn:Hr.
    - destruct (writable st) eqn:Hw.
      + destruct (mount_absent_written clock st Hr Hi Hw) as (w1 & E & Hp & _).
        rewrite E in Hm. injection Hm as <-. rewrite Hp.
        unfold mount, loadEffect, getItem in E. simpl in E. rewrite Hr in E.
        assert (Ec : clock_reads w1 = 1).
        { destruct Hi as [Hi|Hi]; rewrite Hi in E; injection E as <-;
            rewrite commit_clock_reads;
            unfold try_catch, try_catch_finally, createDefaultPlan, bind, now,
              lift, setItem; simpl; rewrite Hw; reflexivity. }
        rewrite Ec. split; [lia | reflexivity].
      + destruct (mount_absent_refused clock st Hr Hi Hw)
          as (w0 & w1 & _ & _ & E & Hp & _).
        rewrite E in Hm. injection Hm as <-. rewrite Hp.
        unfold mount, loadEffect, getItem in E. simpl in E. rewrite Hr in E.
        assert (Ec : clock_reads w1 = 1).
        { destruct Hi as [Hi|Hi]; rewrite Hi in E; injection E as <-;
            rewrite commit_clock_reads;
            unfold try_catch, try_catch_finally, createDefaultPlan, bind, now,
              lift, setItem; simpl; rewrite Hw; reflexivity. }
        rewrite Ec. split; [lia | reflexivity].
    - rewrite (mount_unreadable clock st Hr) in Hm. injection Hm as <-.
      exact I. }
  clear Hm. revert w H0. induction ops as [|o ops IH]; intros w H0;
    [split; [exact H0 | apply Nat.le_refl]|].
  rewrite run_cons. destruct (step_stamped o w H0) as (H1 & Hle).
  destruct (IH (step o w) H1) as (H2 & Hle2). split; [exact H2 | lia].
Qed.

End StoreFacts.

(** ** White space *)

Lemma trimStart_suffix (s : jsstring) :
  exists ws, s = ws ++ trimStart s /\ forallb isWhiteSpace ws = true.
Proof.
  induction s as [|c s (ws & E & H)]; simpl.
  - exists []. auto.
  - destruct (isWhiteSpace c) eqn:Ec.
    + exists (c :: ws). simpl. rewrite Ec, H. split; [f_equal; exact E | reflexivity].
    + exists []. auto.
Qed.

Lemma trimStart_fixed (s : jsstring) :
  match s with [] => True | c :: _ => isWhiteSpace c = false end ->
  trimStart s = s.
Proof. destruct s as [|c r]; simpl; [reflexivity|]. intros ->. reflexivity. Qed.

Lemma trimStart_idempotent (s : jsstring) : trimStart (trimStart s) = trimStart s.
Proof. apply trimStart_fixed, trimStart_head. Qed.

(** [trim] leaves nothing to trim. *)
Lemma trim_idempotent (s : jsstring) : trim (trim s) = trim s.
Proof.
  unfold trim, trimEnd.
  set (u := trimStart s). set (r := trimStart (rev u)).
  assert (Hr : trimStart r = r) by apply trimStart_idempotent.
  assert (Hs : trimStart (rev r) = rev r).
  { apply trimStart_fixed.
    destruct (trimStart_suffix (rev u)) as (ws & E & Hws). fold r in E.
    assert (Eu : u = rev r ++ rev ws).
    { rewrite <- (rev_involutive u), E, rev_app_distr. reflexivity. }
    destruct (rev r) as [|c t] eqn:Er; [exact I|].
    pose proof (trimStart_head s) as Hh. fold u in Hh. rewrite Eu in Hh.
    exact Hh. }
  rewrite Hs, rev_involutive, Hr. reflexivity.
Qed.

Lemma trimmed_trim (s : jsstring) : trim s <> [] -> trimmed (trim s).
Proof. intros H. split; [exact H | apply trim_idempotent]. Qed.

(** ** The two lists of goals *)

Lemma filter_partition {A} (f : A -> bool) (l : list A) :
  Permutation (filter (fun x => negb (f x)) l ++ filter f l) l.
Proof.
  induction l as [|x l IH]; simpl; [constructor|].
  destruct (f x); simpl.
  - apply Permutation_sym, Permutation_cons_app, Permutation_sym, IH.
  - constructor. exact IH.
Qed.

(** X7. The two lists the planner shows, the goals still to do and the
    goals done, hold between them every goal of the plan once: put
    together they are a rearrangement of the goals, and their lengths
    add up to the number of goals. *)
Theorem goals_are_shown_once (w : World) :
  Permutation (incompleteGoals w ++ completedGoals w) (currentGoals w)
  /\ List.length (incompleteGoals w) + completedGoalsCount w = totalGoalsCount w.
Proof.
  assert (H : Permutation (incompleteGoals w ++ completedGoals w) (currentGoals w))
    by apply (filter_partition completed).
  split; [exact H|].
  apply Permutation_length in H. rewrite length_app in H. exact H.
Qed.

Section MoreStoreFacts.

Variable uuidv4 : nat -> jsstring.
Variable clock : nat -> jsstring.
Variable Date_parse : jsstring -> option Z.
Variable toISOString : Z -> jsstring.
Variable toLocaleDateString : Z -> jsstring.

Local Abbreviation step := (step uuidv4 clock Date_parse toISOString).
Local Abbreviation run := (run uuidv4 clock Date_parse toISOString).
Local Abbreviation handler := (handler uuidv4 clock Date_parse toISOString).
Local Abbreviation stored_date := (stored_date Date_parse toISOString).
Local Abbreviation goals_after := (goals_after uuidv4 Date_parse toISOString).
Local Abbreviation formatLocalDate := (formatLocalDate Date_parse toLocaleDateString).
Local Abbreviation goalLabel := (goalLabel Date_parse toLocaleDateString).
Local Abbreviation issued := (issued uuidv4).

(** *** Identifiers *)

(** Deleting goals leaves the identifiers of the others distinct. *)
Lemma ids_of_kept_goals (keep : Goal -> bool) (gs : list Goal) :
  NoDup (map id gs) -> NoDup (map id (filter keep gs)).
Proof.
  intros Hnd. induction gs as [|g gs IH]; [constructor|].
  cbn [map] in Hnd. apply NoDup_cons_iff in Hnd. destruct Hnd as (Hg & Hgs).
  cbn [filter]. destruct (keep g); [|exact (IH Hgs)].
  cbn [map]. apply NoDup_cons; [|exact (IH Hgs)].
  rewrite in_map_iff. intros (g' & Eg & Hin).
  apply Hg. rewrite <- Eg. apply in_map.
  apply filter_In in Hin. exact (proj1 Hin).
Qed.

Lemma goals_after_ids (o : Op) (n N : nat) (gs : list Goal) :
  (forall a b, a < b < N -> uuidv4 a <> uuidv4 b) ->
  uuids_after o n <= N ->
  NoDup (map id gs) -> issued n gs ->
  NoDup (map id (goals_after o n gs)) /\ issued (uuids_after o n) (goals_after o n gs).
Proof.
  intros Hd HN Hnd Hi.
  destruct o as [d t|i|i|s|s]; cbn [goals_after uuids_after] in *.
  - destruct (trim d) as [|c r] eqn:E; [auto|].
    assert (Hi' : issued (S n) gs).
    { intros g Hg. destruct (Hi g Hg) as (k & Hk & Ek). exists k. split; [lia | exact Ek]. }
    destruct (stored_date t) as [date|]; [|auto].
    split.
    + rewrite map_app. apply NoDup_snoc; [exact Hnd|].
      cbn [map id]. intros Hin. apply in_map_iff in Hin.
      destruct Hin as (g & Eg & Hg). destruct (Hi g Hg) as (k & Hk & Ek).
      apply (Hd k n); [lia | congruence].
    + intros g Hg. apply in_app_or in Hg. destruct Hg as [Hg|[<-|[]]].
      * apply Hi', Hg.
      * exists n. split; [lia | reflexivity].
  - split.
    + rewrite map_map.
      rewrite (map_ext _ id); [exact Hnd|].
      intros g. destruct (str_eqb (id g) i); reflexivity.
    + intros g Hg. apply in_map_iff in Hg. destruct Hg as (g0 & <- & Hg0).
      destruct (Hi g0 Hg0) as (k & Hk & Ek). exists k. split; [exact Hk|].
      destruct (str_eqb (id g0) i); exact Ek.
  - split.
    + apply ids_of_kept_goals, Hnd.
    + intros g Hg. apply filter_In in Hg. apply Hi, Hg.
  - auto.
  - auto.
Qed.

Lemma uuids_after_le (o : Op) (n : nat) : n <= uuids_after o n <= S n.
Proof. destruct o as [d t| | | |]; simpl; try lia. destruct (trim d); lia. Qed.

(** X6. As long as [uuidv4] does not hand out the same identifier
    twice, the goals of the plan have distinct ids after every
    sequence of operations. *)
Theorem goal_ids_stay_distinct (ops : list Op) (w : World) :
  (forall a b, a < b < uuid_calls w + List.length ops -> uuidv4 a <> uuidv4 b) ->
  NoDup (map id (currentGoals w)) ->
  issued (uuid_calls w) (currentGoals w) ->
  NoDup (map id (currentGoals (run ops w))).
Proof.
  revert w. induction ops as [|o ops IH]; intros w Hd Hnd Hi; [exact Hnd|].
  rewrite run_cons.
  pose proof (uuids_after_le o (uuid_calls w)) as Hle.
  cbn [List.length] in Hd.
  destruct (@goals_after_ids o (uuid_calls w)
              (uuid_calls w + S (List.length ops)) (currentGoals w) Hd
              ltac:(lia) Hnd Hi) as (Hnd' & Hi').
  apply IH.
  - rewrite uuid_calls_step. intros a b Hab. apply Hd. lia.
  - rewrite currentGoals_step. exact Hnd'.
  - rewrite currentGoals_step, uuid_calls_step. exact Hi'.
Qed.


(** *** Subjects *)

Lemma filter_not_In (n : jsstring) (ss : list jsstring) :
  ~ In n ss -> filter (fun subject => negb (str_eqb subject n)) ss = ss.
Proof.
  intros H. apply filter_all. intros x Hx.
  apply negb_true_iff, str_eqb_neq. congruence.
Qed.

(** X8. [deleteSubject] removes the subject that is the given string,
    as it is given, and keeps the others where they are.  After it the
    string is not a subject; deleting a string that is not a subject
    leaves the subjects alone; and deleting, by its trimmed name, a
    subject that has just been added to subjects that did not have it
    gives the earlier list back. *)
Theorem deleteSubject_removes_exact_match (n : jsstring) (w : World) :
  NoDup (currentSubjects w) ->
  ~ In n (currentSubjects (step (deleteSubject n) w))
  /\ (forall x, x <> n ->
        (In x (currentSubjects (step (deleteSubject n) w))
         <-> In x (currentSubjects w)))
  /\ (~ In n (currentSubjects w) ->
      currentSubjects (step (deleteSubject n) w) = currentSubjects w)
  /\ (trim n <> [] -> ~ In (trim n) (currentSubjects w) ->
      currentSubjects (run [addSubject n; deleteSubject (trim n)] w)
      = currentSubjects w).
Proof.
  intros Hnd.
  assert (Hdel : forall m w', currentSubjects (step (deleteSubject m) w')
                   = filter (fun subject => negb (str_eqb subject m))
                            (currentSubjects w')).
  { intros m w'. rewrite currentSubjects_step. reflexivity. }
  split; [|split; [|split]].
  - rewrite Hdel, filter_In, str_eqb_refl. intros [_ H]. discriminate.
  - intros x Hx. rewrite Hdel, filter_In.
    apply str_eqb_neq in Hx. rewrite Hx. simpl. tauto.
  - intros H. rewrite Hdel. apply filter_not_In, H.
  - intros Ht Hin.
    change (run [addSubject n; deleteSubject (trim n)] w)
      with (step (deleteSubject (trim n)) (step (addSubject n) w)).
    rewrite Hdel, currentSubjects_step. cbn [subjects_after].
    destruct (trim n) as [|c r] eqn:E; [congruence|]. rewrite <- E in *.
    rewrite new_Set_dedup_first, dedup_first_id.
    + rewrite filter_app, filter_not_In by exact Hin.
      cbn [filter]. rewrite str_eqb_refl. apply app_nil_r.
    + apply NoDup_snoc; assumption.
Qed.

(** *** Goals on display *)

(** X10. A goal is listed with its description, followed by its target
    date only when it has one: [formatLocalDate] is called for a date
    that is there, so its "N/A" is never what a goal is listed with.
    A goal added without a target date is listed with its trimmed
    description alone; a goal added with a date that parses is listed
    with the local form of that date, not with "Invalid Date", on a
    platform that reads the ISO string it has written. *)
Theorem added_goal_is_displayed_with_its_date (d t : jsstring) (w : World) :
  trim d <> [] ->
  (t = [] ->
   exists g, currentGoals (step (addGoal d t) w) = currentGoals w ++ [g]
             /\ goalLabel g = trim d)
  /\ (forall z z', t <> [] -> Date_parse t = Some z ->
        toISOString z <> [] -> Date_parse (toISOString z) = Some z' ->
        exists g, currentGoals (step (addGoal d t) w) = currentGoals w ++ [g]
                  /\ goalLabel g
                     = trim d ++ js " (Target: " ++ toLocaleDateString z'
                         ++ js ")")
  /\ (forall g,
        goalLabel g = description g
        \/ exists date,
             targetDate g = Some date /\ date <> []
             /\ goalLabel g
                = description g ++ js " (Target: "
                    ++ match Date_parse date with
                       | Some z => toLocaleDateString z
                       | None => js "Invalid Date"
                       end
                    ++ js ")").
Proof.
  intros Hd. split; [|split].
  - intros ->. rewrite currentGoals_step. cbn [goals_after].
    destruct (trim d) as [|c r] eqn:E; [congruence|].
    eexists. split; [reflexivity|].
    unfold goalLabel. cbn [description targetDate]. apply app_nil_r.
  - intros z z' Ht Hz Hne Hback. rewrite currentGoals_step. cbn [goals_after].
    destruct (trim d) as [|c r] eqn:E; [congruence|].
    unfold stored_date.
    destruct t as [|c' r']; [congruence|]. rewrite Hz.
    eexists. split; [reflexivity|].
    unfold goalLabel. cbn [description targetDate].
    destruct (toISOString z) as [|c2 r2] eqn:Ei; [congruence|].
    unfold formatLocalDate. rewrite Hback. reflexivity.
  - intros g. unfold goalLabel.
    destruct (targetDate g) as [[|c r]|] eqn:Eg.
    + left. apply app_nil_r.
    + right. exists (c :: r). split; [reflexivity|]. split; [discriminate|].
      unfold formatLocalDate. destruct (Date_parse (c :: r)); reflexivity.
    + left. apply app_nil_r.
Qed.

(** *** Descriptions and subjects are kept trimmed *)

Lemma Forall_kept {A} (P : A -> Prop) (f : A -> bool) (l : list A) :
  Forall P l -> Forall P (filter f l).
Proof.
  rewrite !Forall_forall. intros H x Hx. apply filter_In in Hx. apply H, Hx.
Qed.

Lemma step_tidy (o : Op) (w : World) : tidy w -> tidy (step o w).
Proof.
  intros (Hg & Hs). unfold tidy.
  rewrite currentGoals_step, currentSubjects_step. split.
  - destruct o as [d t|i|i|s|s]; cbn [goals_after]; try exact Hg.
    + destruct (trim d) as [|c r] eqn:E; [exact Hg|].
      destruct (stored_date t); [|exact Hg].
      apply Forall_app. split; [exact Hg|]. constructor; [|constructor].
      cbn [description]. rewrite <- E. apply trimmed_trim. congruence.
    + apply Forall_map. eapply Forall_impl; [|exact Hg].
      intros g H. destruct (str_eqb (id g) i); exact H.
    + apply Forall_kept, Hg.
  - destruct o as [d t|i|i|s|s]; cbn [subjects_after]; try exact Hs.
    + destruct (trim s) as [|c r] eqn:E; [exact Hs|].
      rewrite new_Set_dedup_first. apply Forall_forall. intros x Hx.
      apply dedup_first_In, in_app_or in Hx. destruct Hx as [Hx|[<-|[]]].
      * rewrite Forall_forall in Hs. apply Hs, Hx.
      * rewrite <- E. apply trimmed_trim. congruence.
    + apply Forall_kept, Hs.
Qed.

(** X11. The planner keeps its texts trimmed: if every goal
    description and every subject is non-empty and free of white space
    at both ends, this is still so after every sequence of operations;
    in particular it is so for everything added to an empty plan. *)
Theorem texts_are_kept_trimmed (ops : list Op) (w : World) :
  tidy w -> tidy (run ops w).
Proof.
  revert w. induction ops as [|o ops IH]; intros w H; [exact H|].
  rewrite run_cons. apply IH, step_tidy, H.
Qed.

End MoreStoreFacts.

(** ** The standalone component *)

Lemma saveEffect_loading (w : World) : loading (saveEffect w) = loading w.
Proof.
  unfold saveEffect. destruct (studyPlan w); [|reflexivity].
  unfold try_catch, try_catch_finally, setItem.
  destruct (writable (localStorage w)); reflexivity.
Qed.

Lemma StudyPlanner_saveEffect_idle (w : World) :
  loading w = false -> StudyPlanner.saveEffect w = saveEffect w.
Proof.
  intros H. unfold StudyPlanner.saveEffect, saveEffect. rewrite H. reflexivity.
Qed.

Lemma StudyPlanner_mount (clock : nat -> jsstring) (st : Storage) :
  StudyPlanner.mount clock st = mount clock st.
Proof.
  unfold StudyPlanner.mount, mount, StudyPlanner.loadEffect, loadEffect,
    getItem, StudyPlanner.initial. simpl.
  destruct (readable st) eqn:Hr; [|reflexivity].
  assert (Hdef :
    Some (StudyPlanner.commit (setLoading true (initial st))
            (try_catch_finally (createDefaultPlan clock) onLoadError
               (setLoading false) (setLoading true (initial st))))
    = Some (commit (initial st)
              (try_catch (createDefaultPlan clock) onLoadError (initial st)))).
  { unfold try_catch, try_catch_finally, createDefaultPlan, bind, now, lift,
      setItem, StudyPlanner.commit, commit, StudyPlanner.saveEffect, saveEffect.
    simpl. destruct (writable st) eqn:Hw; simpl;
      unfold try_catch, try_catch_finally, setItem; simpl; rewrite ?Hw;
      reflexivity. }
  destruct (item st) as [[|c r]|]; [exact Hdef | | exact Hdef].
  destruct (JSON_parse_StudyPlan (c :: r)) as [[[p|]|e]|]; reflexivity.
Qed.

Lemma mount_loading (clock : nat -> jsstring) (st : Storage) (w : World) :
  mount clock st = Some w -> loading w = false.
Proof.
  unfold mount, loadEffect, getItem. simpl.
  assert (Hdef : loading (commit (initial st)
                   (try_catch (createDefaultPlan clock) onLoadError (initial st)))
                 = false).
  { unfold commit. destruct (Nat.eqb _ _); rewrite ?saveEffect_loading;
      unfold try_catch, try_catch_finally, createDefaultPlan, bind, now, lift,
        setItem; simpl; destruct (writable st); reflexivity. }
  destruct (readable st).
  - destruct (item st) as [[|c r]|].
    + intros H. injection H as <-. exact Hdef.
    + destruct (JSON_parse_StudyPlan (c :: r)) as [[[p|]|e]|]; try discriminate;
        intros H; injection H as <-; unfold commit;
        destruct (Nat.eqb _ _); rewrite ?saveEffect_loading; reflexivity.
    + intros H. injection H as <-. exact Hdef.
  - intros H. injection H as <-. reflexivity.
Qed.

Section StandaloneFacts.

Variable uuidv4 : nat -> jsstring.
Variable clock : nat -> jsstring.
Variable Date_parse : jsstring -> option Z.
Variable toISOString : Z -> jsstring.

Local Abbreviation step := (step uuidv4 clock Date_parse toISOString).
Local Abbreviation run := (run uuidv4 clock Date_parse toISOString).
Local Abbreviation handler := (handler uuidv4 clock Date_parse toISOString).
Local Abbreviation step' := (StudyPlanner.step uuidv4 clock Date_parse toISOString).
Local Abbreviation run' := (StudyPlanner.run uuidv4 clock Date_parse toISOString).

Lemma handler_loading (o : Op) (w : World) :
  loading w = false -> loading (handler o w) = false.
Proof.
  intros H.
  destruct (handler_effect uuidv4 clock Date_parse toISOString o w)
    as (_ & _ & [(_ & _ & _ & [E | E]) | (_ & E & _)]);
    [|exact E | exact E].
  rewrite E. destruct o; exact H.
Qed.

Lemma step_loading (o : Op) (w : World) :
  loading w = false -> loading (step o w) = false.
Proof.
  intros H. unfold step, commit.
  destruct (Nat.eqb _ _); rewrite ?saveEffect_loading;
    apply handler_loading, H.
Qed.

Lemma StudyPlanner_step (o : Op) (w : World) :
  loading w = false -> step' o w = step o w.
Proof.
  intros H. unfold StudyPlanner.step, step, StudyPlanner.commit, commit.
  rewrite (handler_loading o w H), H. simpl. rewrite andb_true_r.
  destruct (Nat.eqb _ _); [reflexivity|].
  apply StudyPlanner_saveEffect_idle, handler_loading, H.
Qed.

Lemma StudyPlanner_run (ops : list Op) (w : World) :
  loading w = false -> run' ops w = run ops w /\ loading (run ops w) = false.
Proof.
  revert w. induction ops as [|o ops IH]; intros w H; [auto|].
  change (run' (o :: ops) w) with (run' ops (step' o w)).
  rewrite run_cons, (StudyPlanner_step o w H).
  apply IH, step_loading, H.
Qed.

(** X12. The standalone component and the planner tab of the page are
    the same store: mounted on the same storage and taken through the
    same operations they hold the same plan, the same error and the
    same stored text. *)
Theorem standalone_component_agrees_with_page (st : Storage) (ops : list Op) :
  StudyPlanner.mount clock st = mount clock st
  /\ option_map (run' ops) (StudyPlanner.mount clock st)
     = option_map (run ops) (mount clock st).
Proof.
  split; [apply StudyPlanner_mount|].
  rewrite StudyPlanner_mount.
  destruct (mount clock st) as [w|] eqn:E; [|reflexivity].
  simpl. f_equal. apply StudyPlanner_run, (mount_loading clock st), E.
Qed.

Lemma step_reported (o : Op) (w : World) : reported w -> reported (step o w).
Proof.
  intros H.
  destruct (handler_effect uuidv4 clock Date_parse toISOString o w) as (_ & He & _).
  assert (Hh : reported (handler o w)).
  { unfold reported. destruct He as [-> | ->]; [exact H | exact I]. }
  unfold step, commit. destruct (Nat.eqb _ _); [exact Hh|].
  unfold reported, saveEffect in *.
  destruct (studyPlan (handler o w)); [|exact Hh].
  unfold try_catch, try_catch_finally, setItem.
  destruct (writable (localStorage (handler o w))); simpl; [exact Hh | exact I].
Qed.

(** X13. In the standalone component a load that fails, on a text that
    does not parse or on a storage that cannot be read, leaves the
    error message alone on the screen, and no sequence of operations
    brings the planner back: the error is never cleared. *)
Theorem standalone_component_stays_on_error (st : Storage) (ops : list Op) :
  readable st = false
  \/ (exists text, item st = Some text /\ text <> [] /\ JSON_parse text = None) ->
  exists w, StudyPlanner.mount clock st = Some w
    /\ StudyPlanner.view w = StudyPlanner.ErrorMessage load_error
    /\ exists e, StudyPlanner.view (run' ops w) = StudyPlanner.ErrorMessage e.
Proof.
  intros H.
  assert (Hm : mount clock st = Some (load_failed st)).
  { destruct H as [Hr | (text & Hi & Ht & Hp)].
    - apply mount_unreadable, Hr.
    - destruct (readable st) eqn:Hr.
      + apply (mount_unparsable clock st Hr Hi Ht Hp).
      + apply mount_unreadable, Hr. }
  exists (load_failed st). rewrite StudyPlanner_mount.
  split; [exact Hm|]. split; [reflexivity|].
  destruct (StudyPlanner_run ops (load_failed st) eq_refl) as (-> & Hl).
  assert (Hrep : reported (run ops (load_failed st))).
  { assert (H0 : reported (load_failed st)) by exact I.
    revert H0. generalize (load_failed st). clear.
    induction ops as [|o ops IH]; intros w H0; [exact H0|].
    rewrite run_cons. apply IH, step_reported, H0. }
  unfold StudyPlanner.view, reported in *. rewrite Hl.
  destruct (studyPlannerError (run ops (load_failed st))) as [[|c r]|];
    try destruct Hrep. eauto.
Qed.

End StandaloneFacts.

(** ** Requests *)

Lemma request_body_parses (key : string) (text : jsstring) :
  JSON_parse (request_body key text) = Some (JObject [(js key, JString text)]).
Proof. unfold request_body. apply JSON_parse_stringify. reflexivity. Qed.

(** X16. A request is sent only for a text that is not blank, and its
    body is read back by [JSON.parse] as an object with one field, the
    text exactly as it was typed (not trimmed), whatever characters it
    holds; this is so for the three endpoints. *)
Theorem requests_carry_the_text_as_typed :
  (forall s,
     match Flashcards.generateFlashcards_send s with
     | (s', Some body) =>
         trim (Flashcards.notes s) <> []
         /\ JSON_parse body
            = Some (JObject [(js "notes", JString (Flashcards.notes s))])
     | (s', None) => trim (Flashcards.notes s) = [] /\ s' = s
     end)
  /\ (forall s,
     match Quiz.generateQuiz_send s with
     | (s', Some body) =>
         trim (Quiz.quizText s) <> []
         /\ JSON_parse body
            = Some (JObject [(js "text", JString (Quiz.quizText s))])
     | (s', None) => trim (Quiz.quizText s) = [] /\ s' = s
     end)
  /\ (forall s,
     match StudyBuddy.askStudyBuddy_send s with
     | (s', Some body) =>
         trim (StudyBuddy.question s) <> []
         /\ JSON_parse body
            = Some (JObject [(js "question", JString (StudyBuddy.question s))])
     | (s', None) => trim (StudyBuddy.question s) = [] /\ s' = s
     end).
Proof.
  split; [|split]; intros s.
  - unfold Flashcards.generateFlashcards_send.
    destruct (trim (Flashcards.notes s)) eqn:E; simpl;
      [auto | split; [discriminate | apply request_body_parses]].
  - unfold Quiz.generateQuiz_send.
    destruct (trim (Quiz.quizText s)) eqn:E; simpl;
      [auto | split; [discriminate | apply request_body_parses]].
  - unfold StudyBuddy.askStudyBuddy_send.
    destruct (trim (StudyBuddy.question s)) eqn:E; simpl;
      [auto | split; [discriminate | apply request_body_parses]].
Qed.

(** ** Flashcards *)

Lemma Flashcards_handle_within (e : Flashcards.Event) (s : Flashcards.State) :
  Flashcards_within s -> Flashcards_within (Flashcards.handle e s).
Proof.
  unfold Flashcards_within. intros (H0 & H1).
  destruct e as [text| |r| | | |]; cbn [Flashcards.handle].
  - exact (conj H0 H1).
  - unfold Flashcards.generateFlashcards_send.
    destruct (negb _); exact (conj H0 H1).
  - unfold Flashcards.generateFlashcards_receive.
    destruct (Flashcards.in_flight s); [exact (conj H0 H1)|].
    destruct r as [|[cards|]]; cbn; try exact (conj H0 H1).
    split; [lia|]. destruct cards; [left; reflexivity | right; simpl; lia].
  - unfold Flashcards.nextCard.
    destruct (Z.ltb_spec (Flashcards.currentCard s)
                (Z.of_nat (List.length (Flashcards.flashcards s)) - 1));
      cbn; [|exact (conj H0 H1)].
    split; [lia | right; lia].
  - unfold Flashcards.prevCard.
    destruct (Z.ltb_spec 0 (Flashcards.currentCard s)); cbn;
      [|exact (conj H0 H1)].
    split; [lia|]. destruct H1 as [H1|H1]; [left; exact H1 | right; lia].
  - exact (conj H0 H1).
  - split; [exact H0 | left; reflexivity].
Qed.

(** X14. Whenever there are flashcards to show, the card on display is
    one of them: after every sequence of typing, generating, answers,
    Next, Previous, flipping and "New Flashcards", either there are no
    flashcards or [flashcards[currentCard]] is a card. *)
Theorem Flashcards_card_on_display_exists (es : list Flashcards.Event) :
  Flashcards.flashcards (Flashcards.run es Flashcards.initial) = []
  \/ exists card,
       Flashcards.shown (Flashcards.run es Flashcards.initial) = Some card.
Proof.
  assert (H : Flashcards_within (Flashcards.run es Flashcards.initial)).
  { assert (H0 : Flashcards_within Flashcards.initial)
      by (split; [reflexivity | left; reflexivity]).
    revert H0. generalize Flashcards.initial.
    induction es as [|e es IH]; intros s H0; [exact H0|].
    apply IH, Flashcards_handle_within, H0. }
  destruct H as (H0 & [H1|H1]); [left; exact H1 | right].
  unfold Flashcards.shown.
  destruct (Z.leb_spec 0 (Flashcards.currentCard
                            (Flashcards.run es Flashcards.initial))); [|lia].
  destruct (nth_error _ _) as [card|] eqn:E; [eauto|].
  apply nth_error_None in E. lia.
Qed.

(** X15. Next and Previous stay within the cards: from a card of the
    deck, [n] presses of Next lead to the card [n] further on, or to
    the last one, and [n] presses of Previous to the card [n] before,
    or to the first one; at the last card Next changes nothing, and at
    the first Previous changes nothing. *)
Theorem Flashcards_navigation_stays_within_the_deck
    (n : nat) (s : Flashcards.State) :
  let last := (Z.of_nat (List.length (Flashcards.flashcards s)) - 1)%Z in
  (0 <= Flashcards.currentCard s <= last)%Z ->
  Flashcards.currentCard (Nat.iter n Flashcards.nextCard s)
    = Z.min (Flashcards.currentCard s + Z.of_nat n) last
  /\ Flashcards.currentCard (Nat.iter n Flashcards.prevCard s)
     = Z.max (Flashcards.currentCard s - Z.of_nat n) 0
  /\ (Flashcards.currentCard s = last -> Flashcards.nextCard s = s)
  /\ (Flashcards.currentCard s = 0%Z -> Flashcards.prevCard s = s).
Proof.
  intros last H. split; [|split; [|split]].
  - induction n as [|n IH]; [simpl; lia|].
    rewrite Nat.iter_succ.
    assert (Hc : Flashcards.flashcards (Nat.iter n Flashcards.nextCard s)
                 = Flashcards.flashcards s).
    { clear. induction n as [|n IH]; [reflexivity|]. rewrite Nat.iter_succ.
      unfold Flashcards.nextCard at 1. destruct (_ <? _)%Z; exact IH. }
    unfold Flashcards.nextCard at 1. rewrite Hc. fold last.
    destruct (Z.ltb_spec
                (Flashcards.currentCard (Nat.iter n Flashcards.nextCard s)) last);
      cbn; lia.
  - induction n as [|n IH]; [simpl; lia|].
    rewrite Nat.iter_succ. unfold Flashcards.prevCard at 1.
    destruct (Z.ltb_spec 0
                (Flashcards.currentCard (Nat.iter n Flashcards.prevCard s)));
      cbn; lia.
  - intros E. unfold Flashcards.nextCard. fold last. rewrite E, Z.ltb_irrefl.
    reflexivity.
  - intros E. unfold Flashcards.prevCard. rewrite E. reflexivity.
Qed.

(** ** Quiz *)

Lemma skipn_nth_error {A} (l : list A) (k : nat) (x : A) :
  nth_error l k = Some x -> skipn k l = x :: skipn (S k) l.
Proof.
  revert k. induction l as [|y l IH]; intros [|k] H; try discriminate.
  - injection H as ->. reflexivity.
  - simpl in H. apply IH in H. exact H.
Qed.

Lemma right_answers_bounds (qs : list Quiz.QuizQuestion) (answers : list Z) :
  (0 <= Quiz.right_answers qs answers <= Z.of_nat (List.length answers))%Z.
Proof.
  revert answers. induction qs as [|q qs IH]; intros [|a answers];
    cbn [Quiz.right_answers List.length]; try lia.
  specialize (IH answers). destruct (a =? Quiz.correct q)%Z; lia.
Qed.

(** Playing from question [k] on, with no callback waiting. *)
Lemma Quiz_play_from (answers : list Z) :
  forall (k : nat) (s : Quiz.State),
    k < List.length (Quiz.quiz s) ->
    Quiz.currentQuestion s = Z.of_nat k ->
    Quiz.showResults s = false -> Quiz.timers s = [] ->
    List.length answers <= List.length (Quiz.quiz s) - k ->
    Quiz.quiz (Quiz.play answers s) = Quiz.quiz s
    /\ Quiz.score (Quiz.play answers s)
       = (Quiz.score s + Quiz.right_answers (skipn k (Quiz.quiz s)) answers)%Z
    /\ (List.length answers = List.length (Quiz.quiz s) - k ->
        Quiz.showResults (Quiz.play answers s) = true)
    /\ (List.length answers < List.length (Quiz.quiz s) - k ->
        Quiz.showResults (Quiz.play answers s) = false
        /\ Quiz.currentQuestion (Quiz.play answers s)
           = Z.of_nat (k + List.length answers)).
Proof.
  induction answers as [|a answers IH]; intros k s Hk Hc Hr Ht Hl.
  - cbn [Quiz.play Quiz.right_answers List.length].
    split; [reflexivity|]. split.
    + destruct (skipn k (Quiz.quiz s)); simpl; lia.
    + split; [lia|]. intros _. split; [exact Hr|]. rewrite Hc. f_equal. lia.
  - cbn [List.length] in Hl. cbn [Quiz.play].
    destruct (nth_error (Quiz.quiz s) k) as [q|] eqn:Eq;
      [|apply nth_error_None in Eq; lia].
    assert (Hlook : Quiz.lookup (Quiz.quiz s) (Quiz.currentQuestion s) = Some q).
    { unfold Quiz.lookup. rewrite Hc.
      destruct (Z.leb_spec 0 (Z.of_nat k)); [|lia].
      rewrite Nat2Z.id. exact Eq. }
    unfold Quiz.selectAnswer. rewrite Hlook. cbn [fst].
    unfold Quiz.timeout. cbn [Quiz.timers]. rewrite Ht. cbn [app].
    cbn [Quiz.at_question Quiz.over]. rewrite Hc.
    rewrite (skipn_nth_error _ _ Eq). cbn [Quiz.right_answers].
    destruct (Z.ltb_spec (Z.of_nat k)
                (Z.of_nat (List.length (Quiz.quiz s)) - 1)) as [Hlt|Hge].
    + (* there is a next question *)
      match goal with |- context [Quiz.play answers ?s1] => set (s1' := s1) end.
      assert (P1 : S k < List.length (Quiz.quiz s1')) by (subst s1'; cbn [Quiz.quiz Quiz.currentQuestion Quiz.showResults Quiz.timers Quiz.score Quiz.selectedAnswer]; lia).
      assert (P2 : Quiz.currentQuestion s1' = Z.of_nat (S k))
        by (subst s1'; cbn [Quiz.quiz Quiz.currentQuestion Quiz.showResults Quiz.timers Quiz.score Quiz.selectedAnswer]; lia).
      assert (P3 : Quiz.showResults s1' = false) by (subst s1'; exact Hr).
      assert (P4 : Quiz.timers s1' = []) by reflexivity.
      assert (P5 : List.length answers <= List.length (Quiz.quiz s1') - S k)
        by (subst s1'; cbn [Quiz.quiz Quiz.currentQuestion Quiz.showResults Quiz.timers Quiz.score Quiz.selectedAnswer]; lia).
      destruct (IH (S k) s1' P1 P2 P3 P4 P5) as (H1 & H2 & H3 & H4).
      subst s1'. cbn [Quiz.quiz Quiz.currentQuestion Quiz.showResults Quiz.timers Quiz.score Quiz.selectedAnswer] in H1, H2, H3, H4 |- *.
      split; [exact H1|]. split; [rewrite H2; destruct (a =? Quiz.correct q)%Z; lia|].
      split.
      * intros E. cbn [List.length] in E. apply H3. lia.
      * intros E. cbn [List.length] in E |- *.
        destruct H4 as (H4 & H5); [lia|].
        split; [exact H4|]. rewrite H5. f_equal. lia.
    + (* it was the last question *)
      destruct answers as [|a' answers]; [|cbn [List.length] in Hl; lia].
      cbn [Quiz.play List.length] in Hl |- *.
      assert (R : forall l, Quiz.right_answers l [] = 0%Z) by (intros [|? ?]; reflexivity).
      rewrite R.
      cbn [Quiz.quiz Quiz.currentQuestion Quiz.showResults Quiz.timers Quiz.score Quiz.selectedAnswer].
      split; [reflexivity|].
      split; [destruct (a =? Quiz.correct q)%Z; lia|].
      split; [reflexivity | lia].
Qed.

(** X17. A quiz that has arrived is played through: with every answer
    followed by its callback, the score is the number of answers that
    are the correct ones, never more than the number of answers given;
    the results are on the screen once the last question has been
    answered, and not before, when the screen shows the question after
    the last one answered. *)
Theorem Quiz_played_through
    (qs : list Quiz.QuizQuestion) (answers : list Z) (s : Quiz.State) :
  Quiz.in_flight s <> 0 -> Quiz.timers s = [] -> qs <> [] ->
  List.length answers <= List.length qs ->
  let s' := Quiz.play answers
              (Quiz.generateQuiz_receive (Quiz.Data (Some qs)) s) in
  Quiz.score s' = Quiz.right_answers qs answers
  /\ (0 <= Quiz.score s' <= Z.of_nat (List.length answers))%Z
  /\ (List.length answers = List.length qs -> Quiz.screen s' = Quiz.Results)
  /\ (List.length answers < List.length qs ->
      Quiz.screen s' = Quiz.Question
      /\ Quiz.currentQuestion s' = Z.of_nat (List.length answers)).
Proof.
  intros Hf Ht Hq Hl s'.
  assert (E : exists n, Quiz.generateQuiz_receive (Quiz.Data (Some qs)) s
              = {| Quiz.quizText := Quiz.quizText s; Quiz.quiz := qs;
                   Quiz.currentQuestion := 0; Quiz.selectedAnswer := None;
                   Quiz.showResults := false; Quiz.score := 0;
                   Quiz.loading := false; Quiz.in_flight := n;
                   Quiz.timers := [] |}).
  { unfold Quiz.generateQuiz_receive.
    destruct (Quiz.in_flight s) as [|n]; [congruence|].
    exists n. rewrite Ht. reflexivity. }
  destruct E as (n & E). subst s'. rewrite E.
  match goal with |- context [Quiz.play answers ?s0] => set (s0' := s0) end.
  assert (Hpos : 0 < List.length qs) by (destruct qs; [congruence | simpl; lia]).
  assert (P1 : 0 < List.length (Quiz.quiz s0')) by exact Hpos.
  assert (P5 : List.length answers <= List.length (Quiz.quiz s0') - 0)
    by (subst s0'; cbn [Quiz.quiz Quiz.currentQuestion Quiz.showResults Quiz.timers Quiz.score Quiz.selectedAnswer]; lia).
  destruct (@Quiz_play_from answers 0 s0' P1 eq_refl eq_refl eq_refl P5)
    as (H1 & H2 & H3 & H4).
  subst s0'. cbn [Quiz.quiz Quiz.currentQuestion Quiz.showResults Quiz.timers Quiz.score Quiz.selectedAnswer] in H1, H2, H3, H4.
  assert (Hs : Quiz.score (Quiz.play answers
                 {| Quiz.quizText := Quiz.quizText s; Quiz.quiz := qs;
                    Quiz.currentQuestion := 0; Quiz.selectedAnswer := None;
                    Quiz.showResults := false; Quiz.score := 0;
                    Quiz.loading := false; Quiz.in_flight := n;
                    Quiz.timers := [] |})
               = Quiz.right_answers qs answers) by exact H2.
  split; [exact Hs|]. split; [rewrite Hs; apply right_answers_bounds|].
  unfold Quiz.screen. rewrite H1. split.
  - intros El. rewrite H3 by lia. destruct qs; reflexivity.
  - intros El. destruct H4 as (H4 & H5); [lia|]. rewrite H4.
    split; [destruct qs; [congruence | reflexivity] | exact H5].
Qed.

(** ** Study buddy *)

Lemma StudyBuddy_handle_grows (e : StudyBuddy.Event) (s : StudyBuddy.State) :
  Forall (fun q => trim q <> []) (StudyBuddy.in_flight s) ->
  Forall (fun q => trim q <> []) (StudyBuddy.in_flight (StudyBuddy.handle e s))
  /\ exists more,
       StudyBuddy.chatHistory (StudyBuddy.handle e s)
       = StudyBuddy.chatHistory s ++ more
       /\ Forall asked_and_answered more
       /\ List.length more <= (if is_answer e then 1 else 0).
Proof.
  intros Hf. destruct e as [text| |k r]; cbn [StudyBuddy.handle is_answer].
  - split; [exact Hf|]. exists []. rewrite app_nil_r. auto.
  - unfold StudyBuddy.askStudyBuddy_send.
    destruct (trim (StudyBuddy.question s)) as [|c t] eqn:E; cbn.
    + split; [exact Hf|]. exists []. rewrite app_nil_r. auto.
    + split.
      * apply Forall_app. split; [exact Hf|]. constructor; [|constructor].
        rewrite E. discriminate.
      * exists []. rewrite app_nil_r. auto.
  - unfold StudyBuddy.askStudyBuddy_receive.
    destruct (nth_error (StudyBuddy.in_flight s) k) as [asked|] eqn:En.
    + assert (Hrest : Forall (fun q => trim q <> [])
                        (firstn k (StudyBuddy.in_flight s)
                           ++ skipn (S k) (StudyBuddy.in_flight s))).
      { apply Forall_app. split.
        - apply Forall_forall. intros x Hx. rewrite Forall_forall in Hf.
          apply Hf. rewrite <- (firstn_skipn k). apply in_or_app. left. exact Hx.
        - apply Forall_forall. intros x Hx. rewrite Forall_forall in Hf.
          apply Hf. rewrite <- (firstn_skipn (S k)). apply in_or_app.
          right. exact Hx. }
      assert (Ha : trim asked <> []).
      { rewrite Forall_forall in Hf. apply Hf. eapply nth_error_In, En. }
      destruct r as [|[[|c t]|]]; cbn.
      * split; [exact Hrest|]. exists []. rewrite app_nil_r. auto.
      * split; [exact Hrest|]. exists []. rewrite app_nil_r. auto.
      * split; [exact Hrest|]. eexists. split; [reflexivity|].
        split; [|simpl; lia]. constructor; [|constructor].
        split; [exact Ha | discriminate].
      * split; [exact Hrest|]. exists []. rewrite app_nil_r. auto.
    + split; [exact Hf|]. exists []. rewrite app_nil_r. auto.
Qed.

(** X18. The chat history only grows, and by well-formed entries:
    after every sequence of typing, asking and answers the earlier
    history is the beginning of the later one, there is at most one new
    entry per answer, and every new entry pairs a question that is not
    blank with an answer that is not empty. *)
Theorem StudyBuddy_history_only_grows
    (es : list StudyBuddy.Event) (s : StudyBuddy.State) :
  Forall (fun q => trim q <> []) (StudyBuddy.in_flight s) ->
  exists more,
    StudyBuddy.chatHistory (StudyBuddy.run es s)
    = StudyBuddy.chatHistory s ++ more
    /\ Forall asked_and_answered more
    /\ List.length more <= List.length (filter is_answer es).
Proof.
  revert s. induction es as [|e es IH]; intros s Hf.
  - exists []. rewrite app_nil_r. simpl. auto.
  - destruct (StudyBuddy_handle_grows e s Hf) as (Hf' & m1 & E1 & F1 & L1).
    destruct (IH (StudyBuddy.handle e s) Hf') as (m2 & E2 & F2 & L2).
    exists (m1 ++ m2).
    change (StudyBuddy.run (e :: es) s)
      with (StudyBuddy.run es (StudyBuddy.handle e s)).
    rewrite E2, E1, <- app_assoc. split; [reflexivity|].
    split; [apply Forall_app; auto|].
    rewrite length_app. cbn [filter]. destruct (is_answer e); simpl in *; lia.
Qed.

(** X19. The answer goes with the question it was asked for: when a
    question is asked, other text is typed while the request is out,
    and the answer arrives, the new chat entry holds the question as
    it was asked, untrimmed, the text typed in the meantime is wiped
    from the box, and the tab is no longer loading. *)
Theorem StudyBuddy_answer_goes_with_its_question
    (typed_meanwhile text : jsstring) (s : StudyBuddy.State) :
  trim (StudyBuddy.question s) <> [] -> text <> [] ->
  StudyBuddy.in_flight s = [] ->
  let s' := StudyBuddy.run
              [ StudyBuddy.Ask; StudyBuddy.Type_question typed_meanwhile;
                StudyBuddy.Answer 0 (StudyBuddy.Data (Some text)) ] s in
  StudyBuddy.chatHistory s'
    = StudyBuddy.chatHistory s
        ++ [ {| StudyBuddy.Chat.question := StudyBuddy.question s;
                StudyBuddy.Chat.answer := text |} ]
  /\ StudyBuddy.question s' = []
  /\ StudyBuddy.answer s' = text
  /\ StudyBuddy.loading s' = false
  /\ StudyBuddy.in_flight s' = [].
Proof.
  intros Hq Ht Hf s'. subst s'.
  unfold StudyBuddy.run. cbn [fold_left StudyBuddy.handle].
  unfold StudyBuddy.askStudyBuddy_send.
  destruct (trim (StudyBuddy.question s)) as [|c r] eqn:E; [congruence|].
  cbn [negb truthy fst]. unfold StudyBuddy.askStudyBuddy_receive.
  cbn. rewrite Hf. cbn.
  destruct text as [|c' r']; [congruence|]. cbn. repeat split.
Qed.

(** ** The further properties at concrete inputs *)

Lemma storage_follows_plan_witness :
  writable saved_storage = true
  /\ own_text saved_storage
  /\ exists w, mount Platform.clock saved_storage = Some w
       /\ in_sync w
       /\ forall ops, in_sync (P_run ops w).
Proof.
  assert (Ho : own_text saved_storage)
    by (right; right; exists two_goals_plan; reflexivity).
  split; [reflexivity|]. split; [exact Ho|].
  exact (@storage_follows_plan
           Platform.uuidv4 Platform.clock Platform.Date_parse
           Platform.toISOString saved_storage eq_refl Ho).
Defined.

Lemma reload_restores_plan_witness :
  let w := P_run [ addGoal (js "Master React Hooks") (js "2025-06-01");
                   addGoal (js "Read chapter 3") [] ] mounted in
  studyPlan w = Some two_goals_plan
  /\ exists w', mount Platform.clock (localStorage w) = Some w'
                /\ studyPlan w' = Some two_goals_plan.
Proof.
  assert (Hm : mount Platform.clock fresh_storage = Some mounted)
    by (vm_compute; reflexivity).
  assert (Hp : studyPlan
                 (P_run [ addGoal (js "Master React Hooks") (js "2025-06-01");
                          addGoal (js "Read chapter 3") [] ] mounted)
               = Some two_goals_plan)
    by (vm_compute; reflexivity).
  split; [exact Hp|].
  exact (@reload_restores_plan
           Platform.uuidv4 Platform.clock Platform.Date_parse
           Platform.toISOString Platform.clock fresh_storage
           [ addGoal (js "Master React Hooks") (js "2025-06-01");
             addGoal (js "Read chapter 3") [] ]
           mounted two_goals_plan eq_refl eq_refl Hm Hp).
Defined.

Lemma refused_save_leaves_storage_behind_witness :
  let w' := P_step (toggleGoal (Platform.uuidv4 0)) locked in
  writable (localStorage locked) = false
  /\ in_sync locked
  /\ studyPlan w' = Some toggled_plan
  /\ localStorage w' = localStorage locked
  /\ studyPlannerError w' = Some save_error
  /\ ~ in_sync w'.
Proof.
  assert (Hs : in_sync locked) by (vm_compute; reflexivity).
  assert (Hp : studyPlan (P_step (toggleGoal (Platform.uuidv4 0)) locked)
               = Some toggled_plan) by (vm_compute; reflexivity).
  assert (Hne : toggled_plan <> two_goals_plan) by (vm_compute; discriminate).
  split; [reflexivity|]. split; [exact Hs|]. split; [exact Hp|].
  exact (@refused_save_leaves_storage_behind
           Platform.uuidv4 Platform.clock Platform.Date_parse
           Platform.toISOString (toggleGoal (Platform.uuidv4 0)) locked
           two_goals_plan toggled_plan eq_refl eq_refl Hs Hp Hne).
Defined.

Lemma error_banner_is_never_cleared_witness :
  studyPlannerError unloaded <> None
  /\ studyPlannerError (P_run demo_ops unloaded) <> None.
Proof.
  assert (H : studyPlannerError unloaded <> None) by (vm_compute; discriminate).
  split; [exact H|].
  exact (@error_banner_is_never_cleared
           Platform.uuidv4 Platform.clock Platform.Date_parse
           Platform.toISOString demo_ops unloaded H).
Defined.

Lemma goal_ids_stay_distinct_witness :
  NoDup (map id (currentGoals mounted))
  /\ NoDup (map id (currentGoals two_goals)).
Proof.
  assert (Hd : forall a b,
             a < b < uuid_calls mounted
                     + List.length
                         [ addGoal (js "Master React Hooks") (js "2025-06-01");
                           addGoal (js "Read chapter 3") [] ] ->
             Platform.uuidv4 a <> Platform.uuidv4 b).
  { intros a b H. simpl in H.
    assert (Ea : a = 0) by lia. assert (Eb : b = 1) by lia. subst a b.
    vm_compute. discriminate. }
  assert (Hn : NoDup (map id (currentGoals mounted))) by constructor.
  assert (Hi : issued Platform.uuidv4 (uuid_calls mounted) (currentGoals mounted))
    by (intros g []).
  split; [exact Hn|].
  exact (@goal_ids_stay_distinct
           Platform.uuidv4 Platform.clock Platform.Date_parse
           Platform.toISOString
           [ addGoal (js "Master React Hooks") (js "2025-06-01");
             addGoal (js "Read chapter 3") [] ]
           mounted Hd Hn Hi).
Defined.

Lemma deleteSubject_removes_exact_match_witness :
  NoDup (currentSubjects mounted)
  /\ trim (js " Biology ") <> []
  /\ currentSubjects
       (P_run [addSubject (js " Biology "); deleteSubject (trim (js " Biology "))]
          mounted)
     = currentSubjects mounted.
Proof.
  assert (Hn : NoDup (currentSubjects mounted)) by constructor.
  assert (Ht : trim (js " Biology ") <> []) by (vm_compute; discriminate).
  assert (Hi : ~ In (trim (js " Biology ")) (currentSubjects mounted))
    by (intros []).
  split; [exact Hn|]. split; [exact Ht|].
  exact (proj2 (proj2 (proj2
    (@deleteSubject_removes_exact_match
       Platform.uuidv4 Platform.clock Platform.Date_parse Platform.toISOString
       (js " Biology ") mounted Hn))) Ht Hi).
Defined.

Lemma lastUpdated_is_the_last_reading_witness :
  mount Platform.clock fresh_storage = Some mounted
  /\ stamped Platform.clock (P_run demo_ops mounted)
  /\ clock_reads mounted <= clock_reads (P_run demo_ops mounted).
Proof.
  assert (Hm : mount Platform.clock fresh_storage = Some mounted)
    by (vm_compute; reflexivity).
  split; [exact Hm|].
  exact (@lastUpdated_is_the_last_reading
           Platform.uuidv4 Platform.clock Platform.Date_parse
           Platform.toISOString fresh_storage demo_ops mounted
           (or_introl eq_refl) Hm).
Defined.

Lemma added_goal_is_displayed_with_its_date_witness :
  trim (js "Master React Hooks") <> []
  /\ Locale.Date_parse (js "2025-06-01") = Some 1748736000000%Z
  /\ Locale.Date_parse (Platform.toISOString 1748736000000)
     = Some 1748736000000%Z
  /\ Locale.toLocaleDateString 1748736000000 = js "6/1/2025"
  /\ exists g,
       currentGoals
         (L_step (addGoal (js "Master React Hooks") (js "2025-06-01")) mounted)
       = currentGoals mounted ++ [g]
       /\ L_goalLabel g
          = trim (js "Master React Hooks") ++ js " (Target: "
              ++ Locale.toLocaleDateString 1748736000000 ++ js ")".
Proof.
  assert (Hd : trim (js "Master React Hooks") <> [])
    by (vm_compute; discriminate).
  assert (H1 : Locale.Date_parse (js "2025-06-01") = Some 1748736000000%Z)
    by (vm_compute; reflexivity).
  assert (H2 : Locale.Date_parse (Platform.toISOString 1748736000000)
               = Some 1748736000000%Z) by (vm_compute; reflexivity).
  assert (H3 : js "2025-06-01" <> []) by discriminate.
  assert (H4 : Platform.toISOString 1748736000000 <> [])
    by (vm_compute; discriminate).
  split; [exact Hd|]. split; [exact H1|]. split; [exact H2|].
  split; [vm_compute; reflexivity|].
  exact (proj1 (proj2
    (@added_goal_is_displayed_with_its_date
       Platform.uuidv4 Platform.clock Locale.Date_parse Platform.toISOString
       Locale.toLocaleDateString (js "Master React Hooks") (js "2025-06-01")
       mounted Hd))
    1748736000000%Z 1748736000000%Z H3 H1 H4 H2).
Defined.

Lemma texts_are_kept_trimmed_witness :
  tidy mounted /\ tidy (P_run demo_ops mounted).
Proof.
  assert (H : tidy mounted) by (split; constructor).
  split; [exact H|].
  exact (@texts_are_kept_trimmed
           Platform.uuidv4 Platform.clock Platform.Date_parse
           Platform.toISOString demo_ops mounted H).
Defined.

Lemma standalone_component_stays_on_error_witness :
  JSON_parse (js "{") = None
  /\ exists w, StudyPlanner.mount Platform.clock broken_storage = Some w
       /\ StudyPlanner.view w = StudyPlanner.ErrorMessage load_error
       /\ exists e,
            StudyPlanner.view
              (StudyPlanner.run Platform.uuidv4 Platform.clock
                 Platform.Date_parse Platform.toISOString demo_ops w)
            = StudyPlanner.ErrorMessage e.
Proof.
  assert (Hp : JSON_parse (js "{") = None) by (vm_compute; reflexivity).
  assert (Hne : js "{" <> []) by discriminate.
  split; [exact Hp|].
  exact (@standalone_component_stays_on_error
           Platform.uuidv4 Platform.clock Platform.Date_parse
           Platform.toISOString broken_storage demo_ops
           (or_intror (ex_intro _ (js "{") (conj eq_refl (conj Hne Hp))))).
Defined.

Lemma Flashcards_navigation_stays_within_the_deck_witness :
  Flashcards.currentCard (Nat.iter 5 Flashcards.nextCard three_cards) = 2%Z
  /\ Flashcards.currentCard (Nat.iter 5 Flashcards.prevCard three_cards) = 0%Z.
Proof.
  assert (H : (0 <= Flashcards.currentCard three_cards
               <= Z.of_nat (List.length (Flashcards.flashcards three_cards)) - 1)%Z)
    by (vm_compute; split; discriminate).
  destruct (@Flashcards_navigation_stays_within_the_deck 5 three_cards H)
    as (H1 & H2 & _).
  split; [exact H1 | exact H2].
Defined.

Lemma Quiz_played_through_witness :
  Quiz.in_flight quiz_requested <> 0
  /\ let s' := Quiz.play [1; 0]%Z
                 (Quiz.generateQuiz_receive (Quiz.Data (Some two_questions))
                    quiz_requested) in
     Quiz.score s' = 1%Z /\ Quiz.screen s' = Quiz.Results.
Proof.
  assert (Hf : Quiz.in_flight quiz_requested <> 0) by (vm_compute; discriminate).
  assert (Hq : two_questions <> []) by discriminate.
  assert (Hl : List.length [1; 0]%Z <= List.length two_questions)
    by (simpl; lia).
  split; [exact Hf|].
  destruct (@Quiz_played_through two_questions [1; 0]%Z quiz_requested
              Hf eq_refl Hq Hl) as (H1 & _ & H2 & _).
  split; [exact H1 | exact (H2 eq_refl)].
Defined.

Lemma StudyBuddy_history_only_grows_witness :
  let es := [ StudyBuddy.Type_question (js "What is ATP?"); StudyBuddy.Ask;
              StudyBuddy.Answer 0
                (StudyBuddy.Data (Some (js "The cell's energy carrier."))) ] in
  exists more,
    StudyBuddy.chatHistory (StudyBuddy.run es StudyBuddy.initial)
    = StudyBuddy.chatHistory StudyBuddy.initial ++ more
    /\ Forall asked_and_answered more
    /\ List.length more <= List.length (filter is_answer es).
Proof.
  exact (@StudyBuddy_history_only_grows
           [ StudyBuddy.Type_question (js "What is ATP?"); StudyBuddy.Ask;
             StudyBuddy.Answer 0
               (StudyBuddy.Data (Some (js "The cell's energy carrier."))) ]
           StudyBuddy.initial (Forall_nil _)).
Defined.

Lemma StudyBuddy_answer_goes_with_its_question_witness :
  trim (StudyBuddy.question question_typed) <> []
  /\ let s' := StudyBuddy.run
                 [ StudyBuddy.Ask; StudyBuddy.Type_question (js "And ADP?");
                   StudyBuddy.Answer 0
                     (StudyBuddy.Data (Some (js "The cell's energy carrier."))) ]
                 question_typed in
     StudyBuddy.chatHistory s'
     = [ {| StudyBuddy.Chat.question := js " What is ATP? ";
            StudyBuddy.Chat.answer := js "The cell's energy carrier." |} ]
     /\ StudyBuddy.question s' = [].
Proof.
  assert (Hq : trim (StudyBuddy.question question_typed) <> [])
    by (vm_compute; discriminate).
  assert (Ht : js "The cell's energy carrier." <> []) by discriminate.
  split; [exact Hq|].
  destruct (@StudyBuddy_answer_goes_with_its_question
              (js "And ADP?") (js "The cell's energy carrier.") question_typed
              Hq Ht eq_refl) as (H1 & H2 & _).
  split; [exact H1 | exact H2].
Defined.

Lemma plan_keeps_its_user_witness :
  studyPlan mounted = Some (defaultPlan (Platform.clock 0))
  /\ exists p', studyPlan (P_run demo_ops mounted) = Some p'
                /\ userId p' = Fixed.userId.
Proof.
  assert (E : studyPlan mounted = Some (defaultPlan (Platform.clock 0)))
    by (vm_compute; reflexivity).
  split; [exact E|].
  pose proof (@plan_keeps_its_user
                Platform.uuidv4 Platform.clock Platform.Date_parse
                Platform.toISOString demo_ops mounted) as H.
  rewrite E in H. exact H.
Defined.
